(** * slacker: the channel export pipeline

    A shallow embedding of [internal/usecase/export_service.go] and of the
    parts of [models/export.go] and [models/slack.go] it relies on, followed
    by the properties of the export pipeline.

    Conventions.
    - Go's [int] and [int64] are [Z]; every addition the code performs is
      followed by the two's-complement wrap-around [wrap64].
    - Go's [error] is a [string] (the message); a function returning
      [(T, error)] returns [result T].
    - Go's [map[string]V] is [gmap string V]; where the code ranges over a
      map and the order of the visit can be observed, the order is taken
      from the runtime (see [GoRuntime]).
    - The standard library and the operating system (float parsing, the
      local time zone, [sort.Slice], JSON, gzip, the file system) are not
      part of the repository: they are collected in the class [GoRuntime];
      the remote workspace is the class [SlackClientInterface].
    - Effects (remote calls, the clock, standard output, the progress
      callback, the file system) are threaded through a [World]. *)

From Stdlib Require Import ZArith QArith Ascii.
From Stdlib Require Import Sorting.Sorted Sorting.Permutation.
From stdpp Require Import gmap strings list pretty sorting.

Local Open Scope Z_scope.

(** ** Machine integers *)

Module GoInt.

Definition two63 : Z := 2 ^ 63.
Definition two64 : Z := 2 ^ 64.

(** The value of a 64-bit two's-complement register holding [z]. *)
Definition wrap64 (z : Z) : Z := (z + two63) mod two64 - two63.

(** [a + b] on Go's [int]. *)
Definition add (a b : Z) : Z := wrap64 (a + b).

(** [len(s)] as an [int]. *)
Definition len {A} (l : list A) : Z := Z.of_nat (length l).

(** [Time.Sub] saturates instead of wrapping. *)
Definition sat64 (z : Z) : Z := Z.max (- two63) (Z.min (two63 - 1) z).

Definition in_range (z : Z) : Prop := - two63 <= z < two63.

Lemma wrap64_id z : in_range z -> wrap64 z = z.
Proof.
  unfold in_range, wrap64, two63, two64. intros H.
  rewrite Z.mod_small; lia.
Qed.

Lemma wrap64_range z : in_range (wrap64 z).
Proof.
  unfold in_range, wrap64, two63, two64.
  pose proof (Z.mod_pos_bound (z + 2 ^ 63) (2 ^ 64)). lia.
Qed.

Lemma wrap64_add_l a b : wrap64 (wrap64 a + b) = wrap64 (a + b).
Proof.
  unfold wrap64, two63, two64.
  f_equal.
  replace ((a + 2 ^ 63) mod 2 ^ 64 - 2 ^ 63 + b + 2 ^ 63)
    with ((a + 2 ^ 63) mod 2 ^ 64 + b) by lia.
  replace (a + b + 2 ^ 63) with ((a + 2 ^ 63) + b) by lia.
  now rewrite Zplus_mod_idemp_l.
Qed.

Lemma wrap64_add_r a b : wrap64 (a + wrap64 b) = wrap64 (a + b).
Proof. rewrite (Z.add_comm a), wrap64_add_l. f_equal. lia. Qed.

Lemma add_comm a b : add a b = add b a.
Proof. unfold add. f_equal. lia. Qed.

Lemma add_assoc a b c : add (add a b) c = add a (add b c).
Proof.
  unfold add. rewrite wrap64_add_l, wrap64_add_r. f_equal. lia.
Qed.

End GoInt.

(** ** Results and errors *)

Inductive result (A : Type) : Type :=
| Ok (a : A)
| Err (e : string).
Arguments Ok {A} a.
Arguments Err {A} e.

(** Go's [error] value: [None] is [nil]. *)
Definition error := option string.

(** ** Strings: the few functions of package [strings] the code calls *)

Module Strings.

(** [strings.HasSuffix(s, suffix)]. *)
Definition HasSuffix (s suffix : string) : bool :=
  let n := String.length s in
  let k := String.length suffix in
  if (k <=? n)%nat
  then String.eqb (String.substring (n - k) k s) suffix
  else false.

(** Go's [a < b] on strings: byte-wise lexicographic order. *)
Definition lt (a b : string) : bool := String.ltb a b.

Lemma lt_irrefl a : lt a a = false.
Proof.
  unfold lt, String.ltb.
  pose proof (String.compare_antisym a a) as H.
  destruct (a ?= a)%string; simpl in H; congruence.
Qed.

Lemma lt_leb a b : lt a b = negb (String.leb b a).
Proof.
  unfold lt, String.ltb, String.leb.
  rewrite (String.compare_antisym b a).
  now destruct (a ?= b)%string.
Qed.

Lemma lt_false_le a b : lt a b = false <-> String.le b a.
Proof.
  rewrite lt_leb. unfold String.le.
  destruct (String.leb b a); simpl; intuition congruence.
Qed.

Lemma lt_asym a b : lt a b = true -> lt b a = false.
Proof.
  unfold lt, String.ltb. rewrite (String.compare_antisym a b).
  now destruct (b ?= a)%string.
Qed.

(** Not-less-than is transitive. *)
Lemma lt_false_trans a b c :
  lt a b = false -> lt b c = false -> lt a c = false.
Proof.
  rewrite !lt_false_le. intros H1 H2.
  exact (transitivity (R := String.le) H2 H1).
Qed.

Lemma lt_trans a b c : lt a b = true -> lt b c = true -> lt a c = true.
Proof.
  intros H1 H2.
  destruct (lt a c) eqn:E; [done|].
  assert (H3 : lt b a = false) by now apply lt_asym.
  pose proof (lt_false_trans _ _ _ H3 E). congruence.
Qed.

End Strings.

(** ** Package [time]: the part of [time.Time] the pipeline observes *)

Module Time.

(** [time.Unix] yields a time in the process's local zone;
    the zero [time.Time{}] is in UTC. *)
Inductive Location := UTC | Local.

(** Wall-clock seconds since the Unix epoch, nanoseconds within the
    second, and the zone the time is displayed in. *)
Record t := mk { sec : Z; nsec : Z; loc : Location }.

(** [time.Duration]: nanoseconds. *)
Definition Duration := Z.

(** [time.Time{}]: January 1, year 1, 00:00:00 UTC. *)
Definition zero : t := mk (-62135596800) 0 UTC.

(** [time.Unix(sec, nsec)]: [nsec] outside [0, 1e9) is carried into
    the seconds. *)
Definition Unix (s n : Z) : t :=
  if (n <? 0) || (1000000000 <=? n) then
    let q := Z.quot n 1000000000 in
    let s := GoInt.add s q in
    let n := n - q * 1000000000 in
    if n <? 0 then mk (GoInt.add s (-1)) (n + 1000000000) Local
    else mk s n Local
  else mk s n Local.

(** [t.Before(u)] and [t.After(u)] compare instants, not zones. *)
Definition Before (a b : t) : bool :=
  (sec a <? sec b) || ((sec a =? sec b) && (nsec a <? nsec b)).
Definition After (a b : t) : bool :=
  (sec b <? sec a) || ((sec a =? sec b) && (nsec b <? nsec a)).

(** [t.Sub(u)], saturating. *)
Definition Sub (a b : t) : Duration :=
  GoInt.sat64 ((sec a - sec b) * 1000000000 + (nsec a - nsec b)).

(** Days since the epoch to the proleptic Gregorian (year, month, day). *)
Definition civil (days : Z) : Z * Z * Z :=
  let z := days + 719468 in
  let era := z / 146097 in
  let doe := z - era * 146097 in
  let yoe := (doe - doe / 1460 + doe / 36524 - doe / 146096) / 365 in
  let doy := doe - (365 * yoe + yoe / 4 - yoe / 100) in
  let mp := (5 * doy + 2) / 153 in
  let d := doy - (153 * mp + 2) / 5 + 1 in
  let m := if mp <? 10 then mp + 3 else mp - 9 in
  let y := yoe + era * 400 + (if m <=? 2 then 1 else 0) in
  (y, m, d).

(** A non-negative number in decimal, left-padded with zeros. *)
Definition pad (width : nat) (z : Z) : string :=
  let s := pretty (Z.abs z) in
  let zeros := String.concat "" (replicate (width - String.length s) "0") in
  (if z <? 0 then "-" else "") +:+ zeros +:+ s.

(** The calendar day, layout ["2006-01-02"], of the instant [s]
    seconds after the epoch shifted by [offset] seconds. *)
Definition dayOf (s offset : Z) : string :=
  let '(y, m, d) := civil ((s + offset) / 86400) in
  pad 4 y +:+ "-" +:+ pad 2 m +:+ "-" +:+ pad 2 d.

(** The UTC calendar day of a time. *)
Definition utcDay (x : t) : string := dayOf (sec x) 0.

End Time.

(** ** Package [models] (models/slack.go, models/export.go) *)

Module Topic.
Record t := mk { Value : string; Creator : string; LastSet : Z }.
End Topic.

Module Channel.
Record t := mk {
  ID : string; Name : string;
  IsChannel : bool; IsGroup : bool; IsIM : bool; IsMember : bool;
  IsPrivate : bool; IsArchived : bool;
  NumMembers : Z;
  Topic : Topic.t; Purpose : Topic.t;
  Created : Z; Creator : string }.
End Channel.

Module Reply.
Record t := mk { User : string; Timestamp : string }.
End Reply.

Module Attachment.
Record t := mk {
  ID : Z; Color : string; Fallback : string; Title : string;
  Text : string; ImageURL : string; ThumbURL : string }.
End Attachment.

Module File.
Record t := mk {
  ID : string; Name : string; Title : string; Mimetype : string;
  Filetype : string; Size : Z; URL : string }.
End File.

Module Reaction.
Record t := mk { Name : string; Users : list string; Count : Z }.
End Reaction.

Module Edited.
Record t := mk { User : string; Timestamp : string }.
End Edited.

Module Message.

(** [Thread] holds the replies attached by the export ("for our export
    format"); it nests the type in itself. *)
#[local] Unset Elimination Schemes.
Inductive t := mk {
  Type_ : string;
  User : string;
  Text : string;
  Timestamp : string;
  ThreadTS : string;
  ReplyCount : Z;
  Replies : list Reply.t;
  Thread : list t;
  Attachments : list Attachment.t;
  Files : list File.t;
  Reactions : list Reaction.t;
  Edited : option Edited.t;
  BotID : string;
  Username : string;
  Subtype : string }.
#[local] Set Elimination Schemes.

(** [msg.Thread = replies] *)
Definition setThread (msg : t) (replies : list t) : t :=
  mk (Type_ msg) (User msg) (Text msg) (Timestamp msg) (ThreadTS msg)
     (ReplyCount msg) (Replies msg) replies (Attachments msg) (Files msg)
     (Reactions msg) (Edited msg) (BotID msg) (Username msg) (Subtype msg).

(** Induction that reaches the replies. *)
Lemma tree_ind (P : t -> Prop)
  (step : forall m, Forall P (Thread m) -> P m) : forall m, P m.
Proof.
  fix IH 1. intros m. apply step.
  destruct m as [? ? ? ? ? ? ? th ? ? ? ? ? ? ?]. simpl.
  induction th as [|r th IHth]; constructor; [apply IH | exact IHth].
Qed.

(** Every node of a message forest, parents before their replies. *)
Fixpoint nodes1 (m : t) : list t :=
  m :: flat_map nodes1 (Thread m).
Definition nodes (msgs : list t) : list t := flat_map nodes1 msgs.

(** The number of replies across all attached reply lists. *)
Definition replyTotal (msgs : list t) : nat :=
  list_sum (map (fun m => length (Thread m)) (nodes msgs)).

End Message.

Module Profile.
Record t := mk {
  DisplayName : string; RealName : string; Email : string;
  Image24 : string; Image32 : string; Image48 : string;
  Image72 : string; Image192 : string; Image512 : string }.
Definition zero : t := mk "" "" "" "" "" "" "" "" "".
End Profile.

Module User.
Record t := mk {
  ID : string; Name : string; RealName : string;
  Profile : Profile.t; IsBot : bool; Deleted : bool }.
End User.

(** *** The export schema (models/export.go).  Fields of the Go structs
    that no code path of the pipeline assigns keep Go's zero value in every
    document and are left out of the records below. *)

Module DateRange.
Record t := mk { From : option Time.t; To : option Time.t }.
Definition zero : t := mk None None.
End DateRange.

Module ExportMetadata.
Record t := mk {
  ExportedAt : Time.t;
  ExportedBy : string;
  SlackerVersion : string;
  ExportFormat : string;
  IncludeThreads : bool;
  DateRange : DateRange.t }.
End ExportMetadata.

Module ChannelInfo.
Record t := mk {
  ID : string; Name : string; IsPrivate : bool; IsArchived : bool;
  Topic : string; Purpose : string; CreatedAt : Time.t;
  Creator : string; NumMembers : Z }.
End ChannelInfo.

Module EditInfo.
Record t := mk { User : string; Timestamp : Time.t }.
End EditInfo.

Module ExportAttachment.
Record t := mk {
  ID : string; Title : string; Text : string; Fallback : string;
  Color : string; ImageURL : string; ThumbURL : string }.
End ExportAttachment.

Module ExportFile.
Record t := mk {
  ID : string; Name : string; Title : string; Mimetype : string;
  Filetype : string; Size : Z; URLPrivate : string;
  Timestamp : Time.t }.
End ExportFile.

Module ExportReaction.
Record t := mk { Name : string; Count : Z; Users : list string }.
End ExportReaction.

Module ExportMessage.
#[local] Unset Elimination Schemes.
Inductive t := mk {
  ID : string;
  User : string;
  Text : string;
  Timestamp : Time.t;
  Type_ : string;
  Subtype : string;
  Edited : option EditInfo.t;
  ThreadTimestamp : string;
  ReplyCount : Z;
  Replies : list t;
  Attachments : list ExportAttachment.t;
  Files : list ExportFile.t;
  Reactions : list ExportReaction.t }.
#[local] Set Elimination Schemes.
End ExportMessage.

Module ExportProfile.
Record t := mk {
  DisplayName : string; RealName : string; Email : string;
  Image24 : string; Image32 : string; Image48 : string;
  Image72 : string; Image192 : string; Image512 : string }.
End ExportProfile.

Module ExportUser.
Record t := mk {
  ID : string; Name : string; RealName : string;
  Profile : ExportProfile.t; IsBot : bool; Deleted : bool }.
End ExportUser.

Module ReactionStat.
Record t := mk { Name : string; Count : Z }.
End ReactionStat.

Module ProcessingTimeStats.
Record t := mk {
  ChannelFetch : Time.Duration; MessageFetch : Time.Duration;
  ThreadFetch : Time.Duration; UserFetch : Time.Duration;
  DataProcessing : Time.Duration; FileGeneration : Time.Duration }.
Definition zero : t := mk 0 0 0 0 0 0.
End ProcessingTimeStats.

Module ExportStatistics.
Record t := mk {
  TotalMessages : Z;
  TotalThreads : Z;
  TotalReplies : Z;
  TotalUsers : Z;
  TotalAttachments : Z;
  TotalFiles : Z;
  TotalReactions : Z;
  MessagesByUser : gmap string Z;
  MessagesByDate : gmap string Z;
  TopReactions : list ReactionStat.t;
  ExportDuration : Time.Duration;
  ProcessingTime : ProcessingTimeStats.t }.

(** The zero value with the two maps made, as [calculateStatistics]
    starts from. *)
Definition init : t := mk 0 0 0 0 0 0 0 ∅ ∅ [] 0 ProcessingTimeStats.zero.

Definition setTopReactions (s : t) (top : list ReactionStat.t) : t :=
  mk (TotalMessages s) (TotalThreads s) (TotalReplies s) (TotalUsers s)
     (TotalAttachments s) (TotalFiles s) (TotalReactions s)
     (MessagesByUser s) (MessagesByDate s) top
     (ExportDuration s) (ProcessingTime s).

Definition setTotalUsers (s : t) (n : Z) : t :=
  mk (TotalMessages s) (TotalThreads s) (TotalReplies s) n
     (TotalAttachments s) (TotalFiles s) (TotalReactions s)
     (MessagesByUser s) (MessagesByDate s) (TopReactions s)
     (ExportDuration s) (ProcessingTime s).

Definition setTimes (s : t) (d : Time.Duration)
    (p : ProcessingTimeStats.t) : t :=
  mk (TotalMessages s) (TotalThreads s) (TotalReplies s) (TotalUsers s)
     (TotalAttachments s) (TotalFiles s) (TotalReactions s)
     (MessagesByUser s) (MessagesByDate s) (TopReactions s) d p.
End ExportStatistics.

Module ChannelExport.
Record t := mk {
  ExportInfo : ExportMetadata.t;
  Channel : ChannelInfo.t;
  Messages : list ExportMessage.t;
  Users : gmap string ExportUser.t;
  Statistics : ExportStatistics.t }.
End ChannelExport.

Module ExportOptions.
Record t := mk {
  ChannelID : string;
  ChannelName : string;
  IncludeThreads : bool;
  IncludeFiles : bool;
  IncludeReactions : bool;
  DateFrom : option Time.t;
  DateTo : option Time.t;
  OutputFile : string;
  Format : string;
  Compression : string }.

(** The same options with other values for the two content flags. *)
Definition withContentFlags (o : t) (files reactions : bool) : t :=
  mk (ChannelID o) (ChannelName o) (IncludeThreads o) files reactions
     (DateFrom o) (DateTo o) (OutputFile o) (Format o) (Compression o).
End ExportOptions.

Module ExportProgress.
Record t := mk {
  Stage : string;
  CurrentStep : string;
  Progress : Q;
  MessagesTotal : Z;
  MessagesCurrent : Z;
  ThreadsTotal : Z;
  ThreadsCurrent : Z;
  ElapsedTime : Time.Duration;
  EstimatedTotal : Time.Duration;
  Error : string }.

(** [progress.Stage = ..; progress.CurrentStep = ..;
    progress.Progress = ..; progress.ElapsedTime = ..] *)
Definition enter (p : t) (stage step : string) (frac : Q)
    (elapsed : Time.Duration) : t :=
  mk stage step frac (MessagesTotal p) (MessagesCurrent p)
     (ThreadsTotal p) (ThreadsCurrent p) elapsed (EstimatedTotal p)
     (Error p).

Definition setMessages (p : t) (step : string) (n : Z)
    (elapsed : Time.Duration) : t :=
  mk (Stage p) step (Progress p) n n (ThreadsTotal p) (ThreadsCurrent p)
     elapsed (EstimatedTotal p) (Error p).

Definition setThreadsTotal (p : t) (n : Z) : t :=
  mk (Stage p) (CurrentStep p) (Progress p) (MessagesTotal p)
     (MessagesCurrent p) n (ThreadsCurrent p) (ElapsedTime p)
     (EstimatedTotal p) (Error p).

Definition setThreads (p : t) (step : string) (cur : Z)
    (elapsed : Time.Duration) : t :=
  mk (Stage p) step (Progress p) (MessagesTotal p) (MessagesCurrent p)
     (ThreadsTotal p) cur elapsed (EstimatedTotal p) (Error p).
End ExportProgress.

Module ExportResult.
Record t := mk {
  Success : bool;
  OutputFile : string;
  FileSize : Z;
  Statistics : ExportStatistics.t;
  Duration : Time.Duration;
  Error : string;
  Warnings : list string }.

(** [&models.ExportResult{Success: false, Error: msg}] *)
Definition failure (msg : string) : t :=
  mk false "" 0 (ExportStatistics.mk 0 0 0 0 0 0 0 ∅ ∅ [] 0
                   ProcessingTimeStats.zero) 0 msg [].
End ExportResult.

(** ** The Go runtime and the remote workspace *)

(** A [less] function for which [sort.Slice] promises a sorted result. *)
Definition StrictWeak {A} (less : A -> A -> bool) : Prop :=
  (forall a, less a a = false) /\
  (forall a b c, less a b = true -> less b c = true -> less a c = true) /\
  (forall a b c, less a b = false -> less b c = false -> less a c = false).

(** [sort.Slice] leaves no element before one it is [less] than. *)
Definition SortedBy {A} (less : A -> A -> bool) : list A -> Prop :=
  StronglySorted (fun a b => less b a = false).

(** The system calls of [generateOutputFile]. *)
Inductive Syscall :=
| SysMkdirAll | SysWriteFile | SysCreate | SysWrite
| SysCloseGzip | SysCloseFile | SysStat.

(** What the pipeline takes from the standard library and the operating
    system.  Binary floating point is not modelled: [float64] is an
    abstract type with the operations that line 288 of models/export.go
    applies to it.  [sort.Slice] is not stable and [range] over a map
    visits the entries in an order that varies from one loop to the next:
    both come with the only guarantees Go gives. *)
Class GoRuntime := {
  float64 : Type;
  strconv_ParseFloat : string -> result float64;
  int64_of_float64 : float64 -> Z;
  float64_of_int64 : Z -> float64;
  float64_sub : float64 -> float64 -> float64;
  float64_mul : float64 -> float64 -> float64;
  float64_1e9 : float64;
  (** seconds east of UTC of the local zone at an instant *)
  time_localOffset : Z -> Z;
  (** the [k]-th reading of the wall clock: seconds and nanoseconds *)
  time_wallClock : nat -> Z * Z;
  sort_Slice : forall {A}, (A -> A -> bool) -> list A -> list A;
  sort_Slice_perm : forall A (less : A -> A -> bool) l,
    sort_Slice less l ≡ₚ l;
  sort_Slice_sorted : forall A (less : A -> A -> bool) l,
    StrictWeak less -> SortedBy less (sort_Slice less l);
  (** the visiting order of the [k]-th [range] loop over a map *)
  map_range : forall {V}, nat -> gmap string V -> list (string * V);
  map_range_perm : forall V k (m : gmap string V),
    map_range k m ≡ₚ map_to_list m;
  json_MarshalIndent : ChannelExport.t -> result (list Byte.byte);
  json_Marshal : ChannelExport.t -> result (list Byte.byte);
  gzip_compress : list Byte.byte -> list Byte.byte;
  filepath_Dir : string -> string;
  filepath_Base : string -> string;
  (** the error, if any, of a system call on a path *)
  os_error : Syscall -> string -> option string }.

(** [SlackClientInterface] (export_service.go, lines 18-23).  The remote
    workspace may answer the same request differently each time: every
    method also receives the number of calls made on the client so far. *)
Class SlackClientInterface := {
  GetChannels : nat -> result (list Channel.t);
  GetChannelHistory :
    nat -> string -> Z -> string -> result (list Message.t * string);
  GetThreadReplies : nat -> string -> string -> result (list Message.t);
  GetUsers : nat -> result (list User.t) }.

(** ** The world the pipeline runs in *)

Module World.
Record t := mk {
  apiCalls : nat;                        (* calls made on the client *)
  clockReads : nat;                      (* readings of the wall clock *)
  rangeLoops : nat;                      (* map range loops started *)
  stdout : list string;                  (* lines printed, in order *)
  reported : list ExportProgress.t;      (* snapshots given to the callback *)
  files : gmap string (list Byte.byte);       (* the regular files *)
  dirs : gset string }.                  (* the directories made *)

Definition init : t := mk 0 0 0 [] [] ∅ ∅.
End World.

(** A computation with effects on the world. *)
Definition M (A : Type) : Type := World.t -> A * World.t.

Definition ret {A} (a : A) : M A := fun w => (a, w).
Definition bind {A B} (m : M A) (k : A -> M B) : M B :=
  fun w => let (a, w') := m w in k a w'.

Declare Scope go_scope.
Delimit Scope go_scope with go.
Notation "'let*' x ':=' m 'in' k" := (bind m (fun x => k))
  (at level 10, x pattern, m at level 100, k at level 200) : go_scope.
Notation "m ';;' k" := (bind m (fun _ => k))
  (at level 100, k at level 200, right associativity) : go_scope.
Local Open Scope go_scope.

(** [if cond { body }] for a body without result. *)
Definition when (cond : bool) (body : M unit) : M unit :=
  if cond then body else ret tt.

Section Effects.
Context {rt : GoRuntime} {client : SlackClientInterface}.

(** A call on the Slack client. *)
Definition call {A} (method : nat -> A) : M A := fun w =>
  (method (World.apiCalls w),
   World.mk (S (World.apiCalls w)) (World.clockReads w)
     (World.rangeLoops w) (World.stdout w) (World.reported w)
     (World.files w) (World.dirs w)).

(** [time.Now()] *)
Definition time_Now : M Time.t := fun w =>
  (let (s, n) := time_wallClock (World.clockReads w) in
   Time.mk s n Time.Local,
   World.mk (World.apiCalls w) (S (World.clockReads w))
     (World.rangeLoops w) (World.stdout w) (World.reported w)
     (World.files w) (World.dirs w)).

(** [time.Since(t)] *)
Definition time_Since (t : Time.t) : M Time.Duration :=
  let* now := time_Now in ret (Time.Sub now t).

(** [time.Sleep(d)]: the delay shows only in later clock readings. *)
Definition time_Sleep (d : Time.Duration) : M unit := ret tt.

(** [for k, v := range m]: the entries in the order of this loop. *)
Definition range {V} (m : gmap string V) : M (list (string * V)) :=
  fun w =>
  (map_range (World.rangeLoops w) m,
   World.mk (World.apiCalls w) (World.clockReads w)
     (S (World.rangeLoops w)) (World.stdout w) (World.reported w)
     (World.files w) (World.dirs w)).

(** [fmt.Printf(line)] *)
Definition fmt_Printf (line : string) : M unit := fun w =>
  (tt,
   World.mk (World.apiCalls w) (World.clockReads w) (World.rangeLoops w)
     (World.stdout w ++ [line]) (World.reported w)
     (World.files w) (World.dirs w)).

(** [if progressCallback != nil { progressCallback(progress) }]: the
    callback, when there is one, receives a copy of the snapshot. *)
Definition report (progressCallback : bool) (p : ExportProgress.t)
    : M unit :=
  when progressCallback (fun w =>
    (tt,
     World.mk (World.apiCalls w) (World.clockReads w)
       (World.rangeLoops w) (World.stdout w) (World.reported w ++ [p])
       (World.files w) (World.dirs w))).

(** The file system: a call fails when [os_error] says so and has its
    effect otherwise. *)
Definition syscall (c : Syscall) (path : string)
    (effect : World.t -> World.t) : M error := fun w =>
  match os_error c path with
  | Some e => (Some e, w)
  | None => (None, effect w)
  end.

Definition putFile (path : string) (data : list Byte.byte) (w : World.t)
    : World.t :=
  World.mk (World.apiCalls w) (World.clockReads w) (World.rangeLoops w)
    (World.stdout w) (World.reported w)
    (<[path := data]> (World.files w)) (World.dirs w).

Definition putDir (path : string) (w : World.t) : World.t :=
  World.mk (World.apiCalls w) (World.clockReads w) (World.rangeLoops w)
    (World.stdout w) (World.reported w)
    (World.files w) ({[path]} ∪ World.dirs w).

(** [os.Stat(path)] followed by [fileInfo.Size()]. *)
Definition os_Stat_Size (path : string) : M (result Z) := fun w =>
  match os_error SysStat path with
  | Some e => (Err e, w)
  | None =>
      match World.files w !! path with
      | Some data => (Ok (GoInt.len data), w)
      | None => (Err ("stat " +:+ path +:+ ": no such file or directory"), w)
      end
  end.

End Effects.

(** ** models/export.go: timestamps and conversions *)

Section Models.
Context {rt : GoRuntime}.

(** [ParseSlackTimestamp] (lines 276-289). *)
Definition ParseSlackTimestamp (ts : string) : result Time.t :=
  if String.eqb ts "" then Ok Time.zero
  else
    match strconv_ParseFloat ts with
    | Err e => Err e
    | Ok timestamp =>
        let s := int64_of_float64 timestamp in
        Ok (Time.Unix s
              (int64_of_float64
                 (float64_mul
                    (float64_sub timestamp (float64_of_int64 s))
                    float64_1e9)))
    end.

(** [t.Format("2006-01-02")]: the calendar day in the zone of [t]. *)
Definition Format_2006_01_02 (x : Time.t) : string :=
  Time.dayOf (Time.sec x)
    (match Time.loc x with
     | Time.UTC => 0
     | Time.Local => time_localOffset (Time.sec x)
     end).

(** A loop that appends one converted element per element. *)
Fixpoint forEach {A B} (f : A -> M B) (l : list A) : M (list B) :=
  match l with
  | [] => ret []
  | a :: l' => let* b := f a in let* bs := forEach f l' in ret (b :: bs)
  end.

Definition convertAttachment (att : Attachment.t) : ExportAttachment.t :=
  ExportAttachment.mk (pretty (Attachment.ID att)) (Attachment.Title att)
    (Attachment.Text att) (Attachment.Fallback att) (Attachment.Color att)
    (Attachment.ImageURL att) (Attachment.ThumbURL att).

(** Files get the time of the conversion as their timestamp. *)
Definition convertFile (file : File.t) : M ExportFile.t :=
  let* now := time_Now in
  ret (ExportFile.mk (File.ID file) (File.Name file) (File.Title file)
         (File.Mimetype file) (File.Filetype file) (File.Size file)
         (File.URL file) now).

Definition convertReaction (reaction : Reaction.t) : ExportReaction.t :=
  ExportReaction.mk (Reaction.Name reaction) (Reaction.Count reaction)
    (Reaction.Users reaction).

(** [ConvertToExportMessage] (lines 291-366). *)
Fixpoint ConvertToExportMessage (msg : Message.t) : M ExportMessage.t :=
  let timestamp :=
    match ParseSlackTimestamp (Message.Timestamp msg) with
    | Ok timestamp => timestamp
    | Err _ => Time.zero
    end in
  let edited :=
    match Message.Edited msg with
    | None => None
    | Some e =>
        match ParseSlackTimestamp (Edited.Timestamp e) with
        | Ok editTime => Some (EditInfo.mk (Edited.User e) editTime)
        | Err _ => None
        end
    end in
  let attachments := map convertAttachment (Message.Attachments msg) in
  let* files := forEach convertFile (Message.Files msg) in
  let reactions := map convertReaction (Message.Reactions msg) in
  let* replies :=
    (fix each (l : list Message.t) : M (list ExportMessage.t) :=
       match l with
       | [] => ret []
       | reply :: l' =>
           let* r := ConvertToExportMessage reply in
           let* rs := each l' in ret (r :: rs)
       end) (Message.Thread msg) in
  ret (ExportMessage.mk (Message.Timestamp msg) (Message.User msg)
         (Message.Text msg) timestamp (Message.Type_ msg)
         (Message.Subtype msg) edited (Message.ThreadTS msg)
         (Message.ReplyCount msg) replies attachments files reactions).

(** [ConvertToExportUser] (lines 368-388). *)
Definition ConvertToExportUser (user : User.t) : ExportUser.t :=
  let p := User.Profile user in
  ExportUser.mk (User.ID user) (User.Name user) (User.RealName user)
    (ExportProfile.mk (Profile.DisplayName p) (Profile.RealName p)
       (Profile.Email p) (Profile.Image24 p) (Profile.Image32 p)
       (Profile.Image48 p) (Profile.Image72 p) (Profile.Image192 p)
       (Profile.Image512 p))
    (User.IsBot user) (User.Deleted user).

End Models.

(** ** internal/usecase/export_service.go *)

Section ExportService.
Context {rt : GoRuntime} {client : SlackClientInterface}.

(** [s.version] *)
Variable version : string.

(** [fetchChannelInfo] (lines 196-211). *)
Definition fetchChannelInfo (channelID : string) : M (result Channel.t) :=
  let* r := call GetChannels in
  match r with
  | Err e => ret (Err ("failed to get channels: " +:+ e))
  | Ok channels =>
      match List.find (fun ch => String.eqb (Channel.ID ch) channelID)
              channels with
      | Some channel => ret (Ok channel)
      | None =>
          ret (Err ("channel with ID " +:+ channelID +:+ " not found"))
      end
  end.

(** The body of the loop of [filterMessagesByDate]: does the message
    reach [filtered]? *)
Definition inDateRange (dateFrom dateTo : option Time.t)
    (msg : Message.t) : bool :=
  match ParseSlackTimestamp (Message.Timestamp msg) with
  | Err _ => false
  | Ok timestamp =>
      if match dateFrom with
         | Some from => Time.Before timestamp from
         | None => false
         end then false
      else if match dateTo with
              | Some to => Time.After timestamp to
              | None => false
              end then false
      else true
  end.

(** [filterMessagesByDate] (lines 357-382). *)
Definition filterMessagesByDate (messages : list Message.t)
    (dateFrom dateTo : option Time.t) : list Message.t :=
  match dateFrom, dateTo with
  | None, None => messages
  | _, _ => List.filter (inDateRange dateFrom dateTo) messages
  end.

(** [allMessages[i].Timestamp < allMessages[j].Timestamp] *)
Definition lessTimestamp (a b : Message.t) : bool :=
  Strings.lt (Message.Timestamp a) (Message.Timestamp b).

(** The [for] loop of [fetchAllMessages] (lines 219-250), one page per
    unit of fuel; [None] when the fuel ends before the remote returns an
    empty cursor. *)
Fixpoint fetchPages (fuel : nat) (options : ExportOptions.t)
    (progressCallback : bool) (startTime : Time.t)
    (allMessages : list Message.t) (cursor : string) (pageCount : Z)
    (progress : ExportProgress.t)
    : M (option (result (list Message.t) * ExportProgress.t)) :=
  match fuel with
  | O => ret None
  | S fuel' =>
      let* page :=
        call (fun k => GetChannelHistory k (ExportOptions.ChannelID options)
                         1000 cursor) in
      match page with
      | Err e =>
          ret (Some (Err ("failed to fetch messages (page "
                          +:+ pretty (GoInt.add pageCount 1) +:+ "): "
                          +:+ e), progress))
      | Ok (messages, nextCursor) =>
          let filteredMessages :=
            filterMessagesByDate messages (ExportOptions.DateFrom options)
              (ExportOptions.DateTo options) in
          let allMessages := allMessages ++ filteredMessages in
          let pageCount := GoInt.add pageCount 1 in
          let* progress :=
            if progressCallback then
              let* elapsed := time_Since startTime in
              let progress :=
                ExportProgress.setMessages progress
                  ("Fetched " +:+ pretty (GoInt.len allMessages)
                   +:+ " messages (" +:+ pretty pageCount +:+ " pages)")
                  (GoInt.len allMessages) elapsed in
              report true progress;; ret progress
            else ret progress in
          if String.eqb nextCursor "" then
            ret (Some (Ok allMessages, progress))
          else
            time_Sleep 100000000;;
            fetchPages fuel' options progressCallback startTime
              allMessages nextCursor pageCount progress
      end
  end.

(** [fetchAllMessages] (lines 213-258). *)
Definition fetchAllMessages (fuel : nat) (options : ExportOptions.t)
    (progress : ExportProgress.t) (progressCallback : bool)
    (startTime : Time.t)
    : M (option (result (list Message.t) * ExportProgress.t)) :=
  let* r := fetchPages fuel options progressCallback startTime
              [] "" 0 progress in
  match r with
  | None => ret None
  | Some (Err e, progress) => ret (Some (Err e, progress))
  | Some (Ok allMessages, progress) =>
      ret (Some (Ok (sort_Slice lessTimestamp allMessages), progress))
  end.

(** [messages[i].ReplyCount > 0 && messages[i].ThreadTS != ""] *)
Definition hasThread (msg : Message.t) : bool :=
  (0 <? Message.ReplyCount msg) && negb (String.eqb (Message.ThreadTS msg) "").

(** Lines 263-268: [threadedMessages] holds pointers into [messages];
    a pointer [&messages[i]] is the position [i]. *)
Fixpoint threadedFrom (i : nat) (messages : list Message.t) : list nat :=
  match messages with
  | [] => []
  | msg :: rest =>
      if hasThread msg then i :: threadedFrom (S i) rest
      else threadedFrom (S i) rest
  end.
Definition threadedMessages (messages : list Message.t) : list nat :=
  threadedFrom 0 messages.

(** Lines 282-285: drop the first reply when it carries the parent's
    timestamp. *)
Definition dropParent (msg : Message.t) (replies : list Message.t)
    : list Message.t :=
  match replies with
  | first :: rest =>
      if String.eqb (Message.Timestamp first) (Message.Timestamp msg)
      then rest else replies
  | [] => replies
  end.

(** What [msg.Thread] is set to from the replies the remote returned
    (lines 282-292). *)
Definition resolveReplies (msg : Message.t) (replies : list Message.t)
    : list Message.t :=
  sort_Slice lessTimestamp (dropParent msg replies).

(** The loop over [threadedMessages] (lines 273-304); [i] is the loop
    index, [pending] the pointers not yet visited. *)
Fixpoint threadLoop (i : nat) (pending : list nat) (total : Z)
    (channelID : string) (progressCallback : bool) (startTime : Time.t)
    (messages : list Message.t) (progress : ExportProgress.t)
    : M (list Message.t * ExportProgress.t) :=
  match pending with
  | [] => ret (messages, progress)
  | j :: pending' =>
      match messages !! j with
      | None =>
          threadLoop (S i) pending' total channelID progressCallback
            startTime messages progress
      | Some msg =>
          let* r := call (fun k => GetThreadReplies k channelID
                                     (Message.ThreadTS msg)) in
          match r with
          | Err e =>
              fmt_Printf ("Warning: Failed to fetch replies for thread "
                          +:+ Message.ThreadTS msg +:+ ": " +:+ e);;
              threadLoop (S i) pending' total channelID progressCallback
                startTime messages progress
          | Ok replies =>
              let messages :=
                <[j := Message.setThread msg (resolveReplies msg replies)]>
                  messages in
              let* progress :=
                if progressCallback then
                  let* elapsed := time_Since startTime in
                  let progress :=
                    ExportProgress.setThreads progress
                      ("Fetched replies for "
                       +:+ pretty (GoInt.add (Z.of_nat i) 1) +:+ "/"
                       +:+ pretty total +:+ " threads")
                      (GoInt.add (Z.of_nat i) 1) elapsed in
                  report true progress;; ret progress
                else ret progress in
              time_Sleep 100000000;;
              threadLoop (S i) pending' total channelID progressCallback
                startTime messages progress
          end
      end
  end.

(** [fetchThreadReplies] (lines 260-307): the error it returns, the
    slice [messages] as it leaves it, and the progress record. *)
Definition fetchThreadReplies (messages : list Message.t)
    (channelID : string) (progress : ExportProgress.t)
    (progressCallback : bool) (startTime : Time.t)
    : M (error * list Message.t * ExportProgress.t) :=
  let threaded := threadedMessages messages in
  let progress := ExportProgress.setThreadsTotal progress (GoInt.len threaded) in
  let* (messages, progress) :=
    threadLoop 0 threaded (GoInt.len threaded) channelID progressCallback
      startTime messages progress in
  ret (None, messages, progress).

(** [collectUserIDs] (lines 314-323) on one message; [userIDs] is the
    [map[string]bool] the closure writes to. *)
Fixpoint collectUserIDs1 (userIDs : gmap string bool) (msg : Message.t)
    : gmap string bool :=
  let userIDs :=
    if negb (String.eqb (Message.User msg) "")
    then <[Message.User msg := true]> userIDs
    else userIDs in
  fold_left collectUserIDs1 (Message.Thread msg) userIDs.
Definition collectUserIDs (userIDs : gmap string bool)
    (msgs : list Message.t) : gmap string bool :=
  fold_left collectUserIDs1 msgs userIDs.

(** [models.User{ID: userID, Name: "user_"+userID,
                 RealName: "Unknown User", Deleted: true}] *)
Definition placeholder (userID : string) : User.t :=
  User.mk userID ("user_" +:+ userID) "Unknown User" Profile.zero
    false true.

(** Lines 336-340. *)
Definition neededUsers (userIDs : gmap string bool)
    (allUsers : list User.t) : gmap string User.t :=
  fold_left
    (fun users user =>
       if default false (userIDs !! User.ID user)
       then <[User.ID user := user]> users else users)
    allUsers ∅.

(** Lines 343-352, over the visiting order [ids] of [userIDs]. *)
Definition addPlaceholders (ids : list (string * bool))
    (users : gmap string User.t) : gmap string User.t :=
  fold_left
    (fun users '(userID, _) =>
       match users !! userID with
       | Some _ => users
       | None => <[userID := placeholder userID]> users
       end)
    ids users.

(** [fetchUserInfo] (lines 309-355). *)
Definition fetchUserInfo (messages : list Message.t)
    : M (result (gmap string User.t)) :=
  let userIDs := collectUserIDs ∅ messages in
  let* r := call GetUsers in
  match r with
  | Err e => ret (Err ("failed to fetch users: " +:+ e))
  | Ok allUsers =>
      let users := neededUsers userIDs allUsers in
      let* ids := range userIDs in
      ret (Ok (addPlaceholders ids users))
  end.

(** [m[key]++] on a [map[string]int]. *)
Definition increment (key : string) (m : gmap string Z) : gmap string Z :=
  <[key := GoInt.add (default 0 (m !! key)) 1]> m.

(** [m[key] += n] *)
Definition addTo (key : string) (n : Z) (m : gmap string Z)
    : gmap string Z :=
  <[key := GoInt.add (default 0 (m !! key)) n]> m.

(** The body of the loop of [countMessages] (lines 461-492). *)
Fixpoint countMessage (stats : ExportStatistics.t) (msg : Message.t)
    : ExportStatistics.t :=
  let byUser :=
    if negb (String.eqb (Message.User msg) "")
    then increment (Message.User msg) (ExportStatistics.MessagesByUser stats)
    else ExportStatistics.MessagesByUser stats in
  let byDate :=
    match ParseSlackTimestamp (Message.Timestamp msg) with
    | Ok timestamp =>
        increment (Format_2006_01_02 timestamp)
          (ExportStatistics.MessagesByDate stats)
    | Err _ => ExportStatistics.MessagesByDate stats
    end in
  let reactions :=
    fold_left (fun n reaction => GoInt.add n (Reaction.Count reaction))
      (Message.Reactions msg) (ExportStatistics.TotalReactions stats) in
  let counted threads replies :=
    ExportStatistics.mk
      (GoInt.add (ExportStatistics.TotalMessages stats) 1)
      threads replies
      (ExportStatistics.TotalUsers stats)
      (GoInt.add (ExportStatistics.TotalAttachments stats)
         (GoInt.len (Message.Attachments msg)))
      (GoInt.add (ExportStatistics.TotalFiles stats)
         (GoInt.len (Message.Files msg)))
      reactions byUser byDate
      (ExportStatistics.TopReactions stats)
      (ExportStatistics.ExportDuration stats)
      (ExportStatistics.ProcessingTime stats) in
  match Message.Thread msg with
  | [] =>
      counted (ExportStatistics.TotalThreads stats)
        (ExportStatistics.TotalReplies stats)
  | _ :: _ =>
      fold_left countMessage (Message.Thread msg)
        (counted
           (GoInt.add (ExportStatistics.TotalThreads stats) 1)
           (GoInt.add (ExportStatistics.TotalReplies stats)
              (GoInt.len (Message.Thread msg))))
  end.

(** [countMessages] *)
Definition countMessages (stats : ExportStatistics.t)
    (msgs : list Message.t) : ExportStatistics.t :=
  fold_left countMessage msgs stats.

(** [collectReactions] (lines 501-508) on one message. *)
Fixpoint collectReactions1 (reactionCounts : gmap string Z)
    (msg : Message.t) : gmap string Z :=
  fold_left collectReactions1 (Message.Thread msg)
    (fold_left
       (fun counts reaction =>
          addTo (Reaction.Name reaction) (Reaction.Count reaction) counts)
       (Message.Reactions msg) reactionCounts).
Definition collectReactions (reactionCounts : gmap string Z)
    (msgs : list Message.t) : gmap string Z :=
  fold_left collectReactions1 msgs reactionCounts.

(** [reactionPairs[i].count > reactionPairs[j].count] *)
Definition moreFrequent (a b : string * Z) : bool := (a.2 >? b.2)%Z.

(** Lines 511-534: [reactionPairs] in the order of the [range] loop,
    sorted, and cut to the ten first. *)
Definition topReactions (reactionPairs : list (string * Z))
    : list ReactionStat.t :=
  let reactionPairs := sort_Slice moreFrequent reactionPairs in
  let maxReactions :=
    if GoInt.len reactionPairs <? 10 then GoInt.len reactionPairs
    else 10 in
  map (fun p => ReactionStat.mk p.1 p.2)
    (take (Z.to_nat maxReactions) reactionPairs).

(** [calculateStatistics] (lines 452-537). *)
Definition calculateStatistics (messages : list Message.t)
    (users : gmap string User.t) : M ExportStatistics.t :=
  let stats := countMessages ExportStatistics.init messages in
  let stats := ExportStatistics.setTotalUsers stats (Z.of_nat (size users)) in
  let reactionCounts := collectReactions ∅ messages in
  let* reactionPairs := range reactionCounts in
  ret (ExportStatistics.setTopReactions stats (topReactions reactionPairs)).

(** [processExportData] (lines 384-450). *)
Definition processExportData (channel : Channel.t)
    (messages : list Message.t) (users : gmap string User.t)
    (options : ExportOptions.t) (startTime : Time.t)
    : M (ChannelExport.t * ExportStatistics.t) :=
  let* exportMessages := forEach ConvertToExportMessage messages in
  let* entries := range users in
  let exportUsers :=
    fold_left
      (fun m '(id, user) => <[id := ConvertToExportUser user]> m)
      entries (∅ : gmap string ExportUser.t) in
  let* statistics := calculateStatistics messages users in
  let channelInfo :=
    ChannelInfo.mk (Channel.ID channel) (Channel.Name channel)
      (Channel.IsPrivate channel) (Channel.IsArchived channel)
      (if negb (String.eqb (Topic.Value (Channel.Topic channel)) "")
       then Topic.Value (Channel.Topic channel) else "")
      (if negb (String.eqb (Topic.Value (Channel.Purpose channel)) "")
       then Topic.Value (Channel.Purpose channel) else "")
      (if 0 <? Channel.Created channel
       then Time.Unix (Channel.Created channel) 0 else Time.zero)
      (if negb (String.eqb (Channel.Creator channel) "")
       then Channel.Creator channel else "")
      (Channel.NumMembers channel) in
  let* now := time_Now in
  let exportInfo :=
    ExportMetadata.mk now "slacker-cli" version
      (ExportOptions.Format options) (ExportOptions.IncludeThreads options)
      (match ExportOptions.DateFrom options, ExportOptions.DateTo options with
       | None, None => DateRange.zero
       | from, to => DateRange.mk from to
       end) in
  let exportData :=
    ChannelExport.mk exportInfo channelInfo exportMessages exportUsers
      statistics in
  ret (exportData, statistics).

(** [writeFile] (lines 584-597). *)
Definition writeFile (filename : string) (data : list Byte.byte)
    : M (result (string * Z)) :=
  let* err := syscall SysWriteFile filename (putFile filename data) in
  match err with
  | Some e => ret (Err ("failed to write file: " +:+ e))
  | None =>
      let* size := os_Stat_Size filename in
      match size with
      | Err e => ret (Err ("failed to get file info: " +:+ e))
      | Ok n => ret (Ok (filename, n))
      end
  end.

(** [writeGzipFile] (lines 599-631).  [os.Create] leaves an empty file;
    the compressed stream is in the file once the gzip writer is
    closed. *)
Definition writeGzipFile (filename : string) (data : list Byte.byte)
    : M (result (string * Z)) :=
  let* err := syscall SysCreate filename (putFile filename []) in
  match err with
  | Some e => ret (Err ("failed to create gzip file: " +:+ e))
  | None =>
      let* err := syscall SysWrite filename (fun w => w) in
      match err with
      | Some e => ret (Err ("failed to write gzip data: " +:+ e))
      | None =>
          let* err := syscall SysCloseGzip filename
                        (putFile filename (gzip_compress data)) in
          match err with
          | Some e => ret (Err ("failed to close gzip writer: " +:+ e))
          | None =>
              let* err := syscall SysCloseFile filename (fun w => w) in
              match err with
              | Some e => ret (Err ("failed to close file: " +:+ e))
              | None =>
                  let* size := os_Stat_Size filename in
                  match size with
                  | Err e => ret (Err ("failed to get file info: " +:+ e))
                  | Ok n => ret (Ok (filename, n))
                  end
              end
          end
      end
  end.

(** [writeZipFile] (lines 633-638). *)
Definition writeZipFile (filename : string) (data : list Byte.byte)
    (entryName : string) : M (result (string * Z)) :=
  ret (Err "zip compression not yet implemented").

(** [generateOutputFile] (lines 539-582). *)
Definition generateOutputFile (exportData : ChannelExport.t)
    (options : ExportOptions.t) : M (result (string * Z)) :=
  let outputDir := filepath_Dir (ExportOptions.OutputFile options) in
  let* err :=
    if negb (String.eqb outputDir ".")
    then syscall SysMkdirAll outputDir (putDir outputDir)
    else ret None in
  match err with
  | Some e => ret (Err ("failed to create output directory: " +:+ e))
  | None =>
      let marshalled :=
        if String.eqb (ExportOptions.Format options) "json-pretty"
        then json_MarshalIndent exportData
        else if String.eqb (ExportOptions.Format options) "json-compact"
        then json_Marshal exportData
        else json_MarshalIndent exportData in
      match marshalled with
      | Err e => ret (Err ("failed to marshal export data: " +:+ e))
      | Ok jsonData =>
          let outputFile := ExportOptions.OutputFile options in
          if String.eqb (ExportOptions.Compression options) "gzip" then
            let outputFile :=
              if negb (Strings.HasSuffix outputFile ".gz")
              then outputFile +:+ ".gz" else outputFile in
            writeGzipFile outputFile jsonData
          else if String.eqb (ExportOptions.Compression options) "zip" then
            let outputFile :=
              if negb (Strings.HasSuffix outputFile ".zip")
              then outputFile +:+ ".zip" else outputFile in
            writeZipFile outputFile jsonData
              (filepath_Base (ExportOptions.OutputFile options))
          else writeFile outputFile jsonData
      end
  end.

(** One stage transition: update the progress record, then report. *)
Definition enterStage (progressCallback : bool) (startTime : Time.t)
    (progress : ExportProgress.t) (stage step : string) (frac : Q)
    : M ExportProgress.t :=
  let* elapsed := time_Since startTime in
  let progress := ExportProgress.enter progress stage step frac elapsed in
  report progressCallback progress;; ret progress.

(** [ExportChannel] (lines 39-194); [fuel] bounds the number of history
    pages, and the result is [None] when it does not suffice. *)
Definition ExportChannel (fuel : nat) (options : ExportOptions.t)
    (progressCallback : bool) : M (option (ExportResult.t * error)) :=
  let* startTime := time_Now in
  let progress :=
    ExportProgress.mk "initializing" "Starting export" 0 0 0 0 0 0 0 "" in
  report progressCallback progress;;
  (* Step 1 *)
  let* progress :=
    enterStage progressCallback startTime progress "channel_fetch"
      "Fetching channel information" (1 # 10) in
  let* channelFetchStart := time_Now in
  let* channel := fetchChannelInfo (ExportOptions.ChannelID options) in
  match channel with
  | Err e =>
      ret (Some (ExportResult.failure
                   ("Failed to fetch channel info: " +:+ e), Some e))
  | Ok channel =>
  let* channelFetchDuration := time_Since channelFetchStart in
  (* Step 2 *)
  let* progress :=
    enterStage progressCallback startTime progress "message_fetch"
      "Fetching channel messages" (2 # 10) in
  let* messageFetchStart := time_Now in
  let* fetched :=
    fetchAllMessages fuel options progress progressCallback startTime in
  match fetched with
  | None => ret None
  | Some (Err e, _) =>
      ret (Some (ExportResult.failure
                   ("Failed to fetch messages: " +:+ e), Some e))
  | Some (Ok messages, progress) =>
  let* messageFetchDuration := time_Since messageFetchStart in
  (* Step 3 *)
  let* threads :=
    if ExportOptions.IncludeThreads options then
      let* progress :=
        enterStage progressCallback startTime progress "thread_fetch"
          "Fetching thread replies" (6 # 10) in
      let* threadFetchStart := time_Now in
      let* (res, progress) :=
        fetchThreadReplies messages (ExportOptions.ChannelID options)
          progress progressCallback startTime in
      let (err, messages) := res in
      match err with
      | Some e => ret (Err e)
      | None =>
          let* threadFetchDuration := time_Since threadFetchStart in
          ret (Ok (messages, progress, threadFetchDuration))
      end
    else ret (Ok (messages, progress, 0)) in
  match threads with
  | Err e =>
      ret (Some (ExportResult.failure
                   ("Failed to fetch thread replies: " +:+ e), Some e))
  | Ok (messages, progress, threadFetchDuration) =>
  (* Step 4 *)
  let* progress :=
    enterStage progressCallback startTime progress "user_fetch"
      "Fetching user information" (8 # 10) in
  let* userFetchStart := time_Now in
  let* users := fetchUserInfo messages in
  match users with
  | Err e =>
      ret (Some (ExportResult.failure
                   ("Failed to fetch user info: " +:+ e), Some e))
  | Ok users =>
  let* userFetchDuration := time_Since userFetchStart in
  (* Step 5 *)
  let* progress :=
    enterStage progressCallback startTime progress "data_processing"
      "Processing and structuring data" (9 # 10) in
  let* dataProcessingStart := time_Now in
  let* (exportData, statistics) :=
    processExportData channel messages users options startTime in
  let* dataProcessingDuration := time_Since dataProcessingStart in
  (* Step 6 *)
  let* progress :=
    enterStage progressCallback startTime progress "file_generation"
      "Generating output file" (95 # 100) in
  let* fileGenerationStart := time_Now in
  let* written := generateOutputFile exportData options in
  match written with
  | Err e =>
      ret (Some (ExportResult.failure
                   ("Failed to generate output file: " +:+ e), Some e))
  | Ok (outputFile, fileSize) =>
  let* fileGenerationDuration := time_Since fileGenerationStart in
  (* Complete *)
  let* totalDuration := time_Since startTime in
  let progress :=
    ExportProgress.enter progress "complete" "Export completed successfully"
      1 totalDuration in
  report progressCallback progress;;
  let statistics :=
    ExportStatistics.setTimes statistics totalDuration
      (ProcessingTimeStats.mk channelFetchDuration messageFetchDuration
         threadFetchDuration userFetchDuration dataProcessingDuration
         fileGenerationDuration) in
  ret (Some (ExportResult.mk true outputFile fileSize statistics
               totalDuration "" [], None))
  end end end end end.

End ExportService.

(** ** A runtime to evaluate the pipeline with

    The instance below fixes what [GoRuntime] leaves open, so that the
    pipeline can be run on concrete inputs.  Numbers are exact decimals
    (on the timestamps used below they are the values Go computes),
    [sort.Slice] is the insertion sort that Go runs on slices of at most
    twelve elements, a [range] loop visits a map forwards on even rounds
    and backwards on odd ones, and no system call fails. *)

Module Std.

(** A decimal [mant / 10 ^ scale]. *)
Record Decimal := dec { mant : Z; scale : nat }.

Definition rescale (d : Decimal) (k : nat) : Z :=
  mant d * 10 ^ Z.of_nat (k - scale d).

Definition dec_sub (a b : Decimal) : Decimal :=
  let k := Nat.max (scale a) (scale b) in
  dec (rescale a k - rescale b k) k.

Definition dec_mul (a b : Decimal) : Decimal :=
  dec (mant a * mant b) (scale a + scale b).

(** Conversion to [int64] truncates toward zero. *)
Definition dec_trunc (a : Decimal) : Z :=
  Z.quot (mant a) (10 ^ Z.of_nat (scale a)).

(** Digits with at most one point, read left to right:
    the mantissa, the number of digits, and the digits after the point. *)
Fixpoint readDigits (s : string) (m : Z) (digits : nat)
    (point : option nat) : option Decimal :=
  match s with
  | EmptyString =>
      if (0 <? digits)%nat then Some (dec m (default 0%nat point)) else None
  | String c s' =>
      if Ascii.eqb c "."%char then
        match point with
        | Some _ => None
        | None => readDigits s' m digits (Some 0%nat)
        end
      else
        match Ascii.is_nat c with
        | Some d =>
            readDigits s' (m * 10 + Z.of_nat d) (S digits) (S <$> point)
        | None => None
        end
  end.

Definition invalidSyntax (s : string) : string :=
  "strconv.ParseFloat: parsing " +:+ s +:+ ": invalid syntax".

Definition ParseFloat (s : string) : result Decimal :=
  let '(neg, body) :=
    match s with
    | String "-" s' => (true, s')
    | String "+" s' => (false, s')
    | _ => (false, s)
    end in
  match readDigits body 0 0 None with
  | Some d => Ok (if neg : bool then dec (- mant d) (scale d) else d)
  | None => Err (invalidSyntax s)
  end.

(** Go's insertion sort: each element sinks from the right end of the
    sorted prefix while it is less than its left neighbour.  The prefix
    is kept reversed. *)
Fixpoint sink {A} (less : A -> A -> bool) (x : A) (prefix : list A)
    : list A :=
  match prefix with
  | [] => [x]
  | y :: rest => if less x y then y :: sink less x rest else x :: prefix
  end.

Definition insertionSort {A} (less : A -> A -> bool) (l : list A)
    : list A :=
  reverse (fold_left (fun prefix x => sink less x prefix) l []).

(** The directory part of a path that needs no cleaning. *)
Fixpoint splitLast (s : string) (dir cur : string) : string * string :=
  match s with
  | EmptyString => (dir, cur)
  | String c s' =>
      if Ascii.eqb c "/"%char
      then splitLast s' (dir +:+ cur +:+ "/") ""
      else splitLast s' dir (cur +:+ String c "")
  end.

Definition Dir (path : string) : string :=
  let d := (splitLast path "" "").1 in
  if String.eqb d "" then "."
  else if String.eqb d "/" then "/"
  else String.substring 0 (String.length d - 1) d.

Definition Base (path : string) : string :=
  let b := (splitLast path "" "").2 in
  if String.eqb b "" then "." else b.

(** Stand-ins for the encoders: the bytes of the channel name between
    braces, and a two-byte magic number before the data. *)
Definition bytesOf (s : string) : list Byte.byte :=
  String.list_byte_of_string s.
Definition Marshal (indent : bool) (doc : ChannelExport.t)
    : result (list Byte.byte) :=
  Ok (bytesOf ((if indent then "{ " else "{")
               +:+ ChannelInfo.Name (ChannelExport.Channel doc)
               +:+ (if indent then " }" else "}"))).
Definition gzip (data : list Byte.byte) : list Byte.byte :=
  Byte.x1f :: Byte.x8b :: data.

Definition mapRange {V} (k : nat) (m : gmap string V)
    : list (string * V) :=
  if Nat.even k then map_to_list m else reverse (map_to_list m).

Lemma sink_perm {A} (less : A -> A -> bool) x prefix :
  sink less x prefix ≡ₚ x :: prefix.
Proof.
  induction prefix as [|y rest IH]; simpl; [done|].
  destruct (less x y); [|done].
  rewrite IH. apply Permutation_swap.
Qed.

Lemma insertionSort_perm {A} (less : A -> A -> bool) l :
  insertionSort less l ≡ₚ l.
Proof.
  unfold insertionSort. rewrite reverse_Permutation.
  assert (H : forall acc,
            fold_left (fun prefix x => sink less x prefix) l acc
            ≡ₚ l ++ acc).
  { induction l as [|x l IH]; intros acc; simpl; [done|].
    rewrite IH, sink_perm. by rewrite Permutation_middle. }
  rewrite H. by rewrite app_nil_r.
Qed.

Lemma sink_sorted {A} (less : A -> A -> bool) x prefix :
  StrictWeak less ->
  Sorted (fun a b => less a b = false) prefix ->
  Sorted (fun a b => less a b = false) (sink less x prefix).
Proof.
  intros (Hirr & Htr & Hneg) Hs.
  induction prefix as [|y rest IH]; simpl.
  - repeat constructor.
  - destruct (less x y) eqn:E.
    + apply Sorted_inv in Hs as [Hrest Hhd].
      constructor; [by apply IH|].
      destruct rest as [|z rest]; simpl.
      * constructor.
        destruct (less y x) eqn:E'; [|done].
        pose proof (Htr _ _ _ E E'). by rewrite Hirr in H.
      * destruct (less x z) eqn:E'.
        -- constructor. by apply HdRel_inv in Hhd.
        -- constructor.
           destruct (less y x) eqn:E''; [|done].
           pose proof (Htr _ _ _ E E''). by rewrite Hirr in H.
    + constructor; [done|]. by constructor.
Qed.

Lemma insertionSort_sorted {A} (less : A -> A -> bool) l :
  StrictWeak less -> SortedBy less (insertionSort less l).
Proof.
  intros HW. unfold SortedBy, insertionSort.
  assert (Htrans : Transitive (fun a b : A => less b a = false)).
  { intros a b c Hab Hbc. destruct HW as (_ & _ & Hneg). eauto. }
  apply Sorted_StronglySorted; [done|].
  apply (Sorted_reverse (fun a b => less a b = false)).
  assert (H : forall acc,
            Sorted (fun a b => less a b = false) acc ->
            Sorted (fun a b => less a b = false)
              (fold_left (fun prefix x => sink less x prefix) l acc)).
  { induction l as [|x l IH]; intros acc Hacc; simpl; [done|].
    apply IH. by apply sink_sorted. }
  apply H. constructor.
Qed.

Lemma mapRange_perm {V} k (m : gmap string V) :
  mapRange k m ≡ₚ map_to_list m.
Proof.
  unfold mapRange. destruct (Nat.even k); [done|].
  apply reverse_Permutation.
Qed.

(** The runtime of a process whose local zone is [offset] seconds east
    of UTC all year round. *)
Definition runtime (offset : Z) : GoRuntime := {|
  float64 := Decimal;
  strconv_ParseFloat := ParseFloat;
  int64_of_float64 := dec_trunc;
  float64_of_int64 := fun z => dec z 0;
  float64_sub := dec_sub;
  float64_mul := dec_mul;
  float64_1e9 := dec 1000000000 0;
  time_localOffset := fun _ => offset;
  time_wallClock := fun k => (1767225600 + Z.of_nat k, 0);
  sort_Slice := @insertionSort;
  sort_Slice_perm := @insertionSort_perm;
  sort_Slice_sorted := @insertionSort_sorted;
  map_range := @mapRange;
  map_range_perm := @mapRange_perm;
  json_MarshalIndent := Marshal true;
  json_Marshal := Marshal false;
  gzip_compress := gzip;
  filepath_Dir := Dir;
  filepath_Base := Base;
  os_error := fun _ _ => None |}.

End Std.

(** ** Concrete workspaces for the examples *)

Module Scenario.

(** A message with an author, a timestamp and a thread marker. *)
Definition message (user ts threadTS : string) (replyCount : Z)
    : Message.t :=
  Message.mk "message" user "" ts threadTS replyCount
    [] [] [] [] [] None "" "" "".

Definition reacted (msg : Message.t) (reactions : list Reaction.t)
    : Message.t :=
  Message.mk (Message.Type_ msg) (Message.User msg) (Message.Text msg)
    (Message.Timestamp msg) (Message.ThreadTS msg) (Message.ReplyCount msg)
    (Message.Replies msg) (Message.Thread msg) (Message.Attachments msg)
    (Message.Files msg) reactions (Message.Edited msg) (Message.BotID msg)
    (Message.Username msg) (Message.Subtype msg).

Definition general : Channel.t :=
  Channel.mk "C123456" "general" true false false true false false 10
    (Topic.mk "General discussion" "U123456" 1704067200)
    (Topic.mk "Announcements" "U123456" 1704067200)
    1704067200 "U123456".

Definition alice : User.t :=
  User.mk "U123456" "alice" "Alice Smith" Profile.zero false false.

(** A workspace with one channel, one page of history and one thread,
    given by what the remote returns for them. *)
Definition workspace (history : list Message.t)
    (thread : result (list Message.t)) : SlackClientInterface := {|
  GetChannels := fun _ => Ok [general];
  GetChannelHistory := fun _ _ _ cursor =>
    if String.eqb cursor "" then Ok (history, "") else Ok ([], "");
  GetThreadReplies := fun _ _ _ => thread;
  GetUsers := fun _ => Ok [alice] |}.

(** The same workspace when the first call on the client fails and
    every later request for replies is answered with [replies]. *)
Definition failingOnce (history replies : list Message.t)
    : SlackClientInterface := {|
  GetChannels := fun _ => Ok [general];
  GetChannelHistory := fun _ _ _ cursor =>
    if String.eqb cursor "" then Ok (history, "") else Ok ([], "");
  GetThreadReplies := fun k _ _ =>
    if (k =? 0)%nat then Err "timeout" else Ok replies;
  GetUsers := fun _ => Ok [alice] |}.

Definition options (compression : string) : ExportOptions.t :=
  ExportOptions.mk "C123456" "general" true true true None None
    "foo.json" "json" compression.

Definition noProgress : ExportProgress.t :=
  ExportProgress.mk "" "" 0 0 0 0 0 0 0 "".

Definition epoch : Time.t := Time.mk 0 0 Time.Local.

End Scenario.

(** ** Properties *)

(** *** Date filter *)

Section DateFilter.
Context {rt : GoRuntime}.

Lemma filterMessagesByDate_no_range messages :
  filterMessagesByDate messages None None = messages.
Proof. reflexivity. Qed.

Lemma filterMessagesByDate_range messages dateFrom dateTo :
  dateFrom <> None \/ dateTo <> None ->
  filterMessagesByDate messages dateFrom dateTo
  = List.filter (inDateRange dateFrom dateTo) messages.
Proof.
  intros H. unfold filterMessagesByDate.
  destruct dateFrom, dateTo; try reflexivity. intuition congruence.
Qed.

Lemma inDateRange_unparsable dateFrom dateTo msg e :
  ParseSlackTimestamp (Message.Timestamp msg) = Err e ->
  inDateRange dateFrom dateTo msg = false.
Proof. intros H. unfold inDateRange. by rewrite H. Qed.

(** C10, as the code has it.  With a date range (either bound given) a
    message whose timestamp [ParseSlackTimestamp] rejects never reaches
    the filtered list; without a range the list is returned as it is,
    messages with unparsable timestamps included.  The empty timestamp
    is no decimal number either, but [ParseSlackTimestamp] does not
    reject it: it stands for the zero time, and a message that carries
    it is kept exactly when the zero time is within the bounds. *)
Theorem filterMessagesByDate_unparsable messages dateFrom dateTo :
  (dateFrom = None -> dateTo = None ->
   filterMessagesByDate messages dateFrom dateTo = messages) /\
  (dateFrom <> None \/ dateTo <> None ->
   forall msg e,
     ParseSlackTimestamp (Message.Timestamp msg) = Err e ->
     ~ In msg (filterMessagesByDate messages dateFrom dateTo)) /\
  (forall msg,
     Message.Timestamp msg = "" -> In msg messages ->
     (In msg (filterMessagesByDate messages dateFrom dateTo) <->
      (forall from, dateFrom = Some from ->
                    Time.Before Time.zero from = false) /\
      (forall to, dateTo = Some to -> Time.After Time.zero to = false))).
Proof.
  split; [|split].
  - intros -> ->. apply filterMessagesByDate_no_range.
  - intros Hrange msg e Hparse Hin.
    rewrite filterMessagesByDate_range in Hin by exact Hrange.
    apply filter_In in Hin as [_ Hkeep].
    rewrite (inDateRange_unparsable _ _ _ _ Hparse) in Hkeep.
    discriminate.
  - intros msg Hempty Hmsg.
    assert (Hzero : inDateRange dateFrom dateTo msg
                    = negb match dateFrom with
                           | Some from => Time.Before Time.zero from
                           | None => false
                           end
                      && negb match dateTo with
                              | Some to => Time.After Time.zero to
                              | None => false
                              end).
    { unfold inDateRange. rewrite Hempty.
      change (ParseSlackTimestamp "") with (Ok Time.zero).
      cbv beta iota.
      destruct dateFrom as [from|], dateTo as [to|]; cbv beta iota;
        repeat match goal with
        | |- context [Time.Before ?a ?b] => destruct (Time.Before a b)
        | |- context [Time.After ?a ?b] => destruct (Time.After a b)
        end; reflexivity. }
    assert (Hin : In msg (filterMessagesByDate messages dateFrom dateTo)
                  <-> inDateRange dateFrom dateTo msg = true).
    { unfold filterMessagesByDate.
      destruct dateFrom as [from|], dateTo as [to|];
        rewrite ?filter_In; tauto. }
    rewrite Hin, Hzero. clear Hin Hzero. split.
    + intros [Hfrom Hto]%andb_prop.
      apply negb_true_iff in Hfrom, Hto.
      split; [intros from ->|intros to ->]; assumption.
    + intros [Hfrom Hto]. apply andb_true_intro. split.
      * destruct dateFrom as [from|]; [|reflexivity].
        by rewrite (Hfrom from eq_refl).
      * destruct dateTo as [to|]; [|reflexivity].
        by rewrite (Hto to eq_refl).
Qed.

(** The parse fails exactly on the non-empty strings that
    [strconv.ParseFloat] rejects. *)
Lemma ParseSlackTimestamp_error ts e :
  ParseSlackTimestamp ts = Err e <->
  ts <> "" /\ strconv_ParseFloat ts = Err e.
Proof.
  unfold ParseSlackTimestamp.
  destruct (String.eqb ts "") eqn:E.
  - apply String.eqb_eq in E. split; [discriminate|]. by intros [? _].
  - apply String.eqb_neq in E.
    destruct (strconv_ParseFloat ts); split; try discriminate.
    + by intros [_ ?].
    + by intros [= ->].
    + by intros [_ [= ->]].
Qed.

(** The empty timestamp is not a parse failure: it is the zero time,
    which passes any filter without a lower bound. *)
Lemma ParseSlackTimestamp_empty : ParseSlackTimestamp "" = Ok Time.zero.
Proof. reflexivity. Qed.

Lemma inDateRange_empty_timestamp dateTo msg :
  Message.Timestamp msg = "" ->
  inDateRange None dateTo msg
  = match dateTo with
    | Some to => negb (Time.After Time.zero to)
    | None => true
    end.
Proof.
  intros H. unfold inDateRange. rewrite H. simpl.
  destruct dateTo as [to|]; [|done]. by destruct (Time.After Time.zero to).
Qed.

End DateFilter.

Lemma filterMessagesByDate_unparsable_witness :
  let bad := Scenario.message "U1" "invalid" "" 0 in
  let good := Scenario.message "U2" "1704153600.000000" "" 0 in
  let from := Some (Time.Unix 1704067200 0) in
  ~ In bad (filterMessagesByDate (rt := Std.runtime 0) [bad; good] from None)
  /\ filterMessagesByDate (rt := Std.runtime 0) [bad; good] None None
     = [bad; good].
Proof.
  intros bad good from. split.
  - apply (proj1 (proj2 (filterMessagesByDate_unparsable
                           (rt := Std.runtime 0) [bad; good] from None)))
      with (e := Std.invalidSyntax "invalid").
    + left. discriminate.
    + reflexivity.
  - apply (proj1 (filterMessagesByDate_unparsable (rt := Std.runtime 0)
                    [bad; good] None None)); reflexivity.
Defined.

(** A message without a timestamp passes a filter that has an upper
    bound only, although its timestamp is no decimal number: the claim
    that every such message is excluded fails. *)
Lemma filterMessagesByDate_keeps_empty_timestamp :
  ~ (forall (rt : GoRuntime) messages dateFrom dateTo,
       dateFrom <> None \/ dateTo <> None ->
       forall msg e,
         strconv_ParseFloat (Message.Timestamp msg) = Err e ->
         ~ In msg (filterMessagesByDate messages dateFrom dateTo)).
Proof.
  intros H.
  pose (msg := Scenario.message "U1" "" "" 0).
  assert (Hbound : @None Time.t <> None
                   \/ Some (Time.Unix 1704067200 0) <> None)
    by (right; discriminate).
  assert (Hparse : strconv_ParseFloat (GoRuntime := Std.runtime 0)
                     (Message.Timestamp msg)
                   = Err (Std.invalidSyntax "")) by reflexivity.
  assert (Hkept : In msg (filterMessagesByDate (rt := Std.runtime 0) [msg]
                            None (Some (Time.Unix 1704067200 0))))
    by (vm_compute; left; reflexivity).
  exact (H (Std.runtime 0) [msg] None (Some (Time.Unix 1704067200 0))
           Hbound msg (Std.invalidSyntax "") Hparse Hkept).
Qed.

(** Unfolds the primitive effects, leaving explicit worlds. *)
Ltac run :=
  unfold bind, ret, when, report, enterStage, time_Since, time_Now,
    time_Sleep, call, fmt_Printf, range, syscall, os_Stat_Size in *;
  simpl in *.

(** *** Order of the fetched history *)

Section HistoryOrder.
Context {rt : GoRuntime} {client : SlackClientInterface}.

(** [a] is not later than [b] by the parsed timestamps; a timestamp that
    does not parse constrains nothing. *)
Definition timestampLe (a b : Message.t) : Prop :=
  match ParseSlackTimestamp (Message.Timestamp a),
        ParseSlackTimestamp (Message.Timestamp b) with
  | Ok ta, Ok tb => Time.After ta tb = false
  | _, _ => True
  end.

Lemma lessTimestamp_StrictWeak : StrictWeak lessTimestamp.
Proof.
  unfold lessTimestamp. repeat split.
  - intros a. apply Strings.lt_irrefl.
  - intros a b c. apply Strings.lt_trans.
  - intros a b c. apply Strings.lt_false_trans.
Qed.

Lemma fetchAllMessages_sorted fuel options progress cb t0 w msgs progress' w' :
  fetchAllMessages fuel options progress cb t0 w
    = (Some (Ok msgs, progress'), w') ->
  exists allMessages,
    msgs = sort_Slice lessTimestamp allMessages.
Proof.
  unfold fetchAllMessages, bind, ret.
  destruct (fetchPages fuel options cb t0 [] "" 0 progress w)
    as [[[[all|e] p]|] w1]; intros H; inversion H; subst.
  by exists all.
Qed.

Lemma fetchPages_fuel_mono fuel options cb t0 all cursor pages progress w r w' :
  fetchPages fuel options cb t0 all cursor pages progress w = (Some r, w') ->
  fetchPages (S fuel) options cb t0 all cursor pages progress w
    = (Some r, w').
Proof.
  revert all cursor pages progress w.
  induction fuel as [|fuel IH]; intros all cursor pages progress w H.
  - discriminate.
  - remember (S fuel) as n eqn:En.
    rewrite En in H. simpl in H. simpl.
    unfold bind in *.
    destruct (call _ w) as [[[messages nextCursor]|e] w1]; [|exact H].
    destruct cb; run.
    + destruct (String.eqb nextCursor ""); [exact H|].
      subst n. apply IH. exact H.
    + destruct (String.eqb nextCursor ""); [exact H|].
      subst n. apply IH. exact H.
Qed.

Lemma fetchAllMessages_one_page fuel options progress t0 w messages :
  GetChannelHistory (World.apiCalls w) (ExportOptions.ChannelID options)
    1000 "" = Ok (messages, "") ->
  exists w',
    fetchAllMessages (S fuel) options progress false t0 w
    = (Some (Ok (sort_Slice lessTimestamp
                   (filterMessagesByDate messages
                      (ExportOptions.DateFrom options)
                      (ExportOptions.DateTo options))), progress), w').
Proof.
  intros H. unfold fetchAllMessages. simpl.
  run. rewrite H. simpl. eauto.
Qed.

End HistoryOrder.

(** *** Fixed-width decimal timestamps

    Slack's timestamps have one layout: ten digits, a point, six digits.
    On strings of one layout the byte-wise order is the order of the
    exact decimal values. *)

Module FixedWidth.

(** The same length, with points at the same places and digits elsewhere. *)
Fixpoint sameLayout (a b : string) : bool :=
match a, b with
| EmptyString, EmptyString => true
| String x a', String y b' =>
    (match Ascii.is_nat x, Ascii.is_nat y with
     | Some _, Some _ => true
     | _, _ => Ascii.eqb x "." && Ascii.eqb y "."
     end) && sameLayout a' b'
| _, _ => false
end.

(** The digits of [s] read as one number after [acc]. *)
Fixpoint digitsValue (s : string) (acc : Z) : Z :=
match s with
| EmptyString => acc
| String c s' =>
    match Ascii.is_nat c with
    | Some d => digitsValue s' (acc * 10 + Z.of_nat d)
    | None => digitsValue s' acc
    end
end.

Fixpoint digitCount (s : string) : nat :=
match s with
| EmptyString => O
| String c s' =>
    match Ascii.is_nat c with
    | Some _ => S (digitCount s')
    | None => digitCount s'
    end
end.

(** [a] is at most [b] as exact decimals. *)
Definition exactLe (a b : string) : Prop :=
forall da db,
  Std.ParseFloat a = Ok da -> Std.ParseFloat b = Ok db ->
  Std.scale da = Std.scale db /\ Std.mant da <= Std.mant db.

Lemma is_nat_code c d :
Ascii.is_nat c = Some d ->
N_of_ascii c = (48 + N.of_nat d)%N /\ (d < 10)%nat.
Proof.
destruct c as [[] [] [] [] [] [] [] []]; simpl;
  intros H; try discriminate; injection H as <-; split; (reflexivity || lia).
Qed.

Lemma is_nat_not_sign c d :
Ascii.is_nat c = Some d -> c <> "-"%char /\ c <> "+"%char.
Proof.
intros H. split; intros ->; discriminate.
Qed.

Lemma digitsValue_acc s acc :
digitsValue s acc = acc * 10 ^ Z.of_nat (digitCount s) + digitsValue s 0.
Proof.
revert acc. induction s as [|c s IH]; intros acc; simpl.
- lia.
- destruct (Ascii.is_nat c) as [d|]; [|apply IH].
  rewrite IH, (IH (0 * 10 + Z.of_nat d)), Nat2Z.inj_succ, Z.pow_succ_r by lia.
  ring.
Qed.

Lemma digitsValue_bound s :
0 <= digitsValue s 0 < 10 ^ Z.of_nat (digitCount s).
Proof.
induction s as [|c s IH]; simpl; [lia|].
destruct (Ascii.is_nat c) as [d|] eqn:E; [|exact IH].
apply is_nat_code in E as [_ Hd].
rewrite digitsValue_acc, Nat2Z.inj_succ, Z.pow_succ_r by lia.
nia.
Qed.

Lemma sameLayout_digitCount a b :
sameLayout a b = true -> digitCount a = digitCount b.
Proof.
revert b. induction a as [|x a IH]; intros [|y b]; simpl; try done.
intros [Hhd Htl]%andb_prop. specialize (IH _ Htl).
destruct (Ascii.is_nat x) eqn:Ex, (Ascii.is_nat y) eqn:Ey; try lia.
- apply andb_prop in Hhd as [Hx%Ascii.eqb_eq _]. by subst x.
- apply andb_prop in Hhd as [_ Hy%Ascii.eqb_eq]. by subst y.
Qed.

(** On one layout, not greater as strings is not greater as numbers. *)
Lemma sameLayout_order a b :
sameLayout a b = true ->
Strings.lt b a = false ->
forall acc, digitsValue a acc <= digitsValue b acc.
Proof.
unfold Strings.lt, String.ltb.
revert b. induction a as [|x a IH]; intros [|y b]; simpl; try done.
intros [Hhd Htl]%andb_prop Hcmp acc.
pose proof (sameLayout_digitCount _ _ Htl) as Hcount.
destruct (Ascii.is_nat x) as [dx|] eqn:Ex,
         (Ascii.is_nat y) as [dy|] eqn:Ey.
- apply is_nat_code in Ex as [Hx Hdx], Ey as [Hy Hdy].
  revert Hcmp. unfold Ascii.compare. rewrite Hx, Hy.
  destruct (N.compare_spec (48 + N.of_nat dy) (48 + N.of_nat dx))
    as [Heq|Hlt|Hgt]; intros Hcmp.
  + assert (dx = dy) as -> by lia. by apply IH.
  + discriminate.
  + rewrite (digitsValue_acc a), (digitsValue_acc b), Hcount.
    pose proof (digitsValue_bound a). pose proof (digitsValue_bound b).
    rewrite Hcount in *.
    assert (Z.of_nat dx + 1 <= Z.of_nat dy) by lia.
    nia.
- apply andb_prop in Hhd as [Hx%Ascii.eqb_eq _]. by subst x.
- apply andb_prop in Hhd as [_ Hy%Ascii.eqb_eq]. by subst y.
- apply andb_prop in Hhd as [Hx%Ascii.eqb_eq Hy%Ascii.eqb_eq]. subst x y.
  apply IH; [done|]. exact Hcmp.
Qed.

Lemma readDigits_value a b :
sameLayout a b = true ->
forall ma mb n p da db,
  Std.readDigits a ma n p = Some da ->
  Std.readDigits b mb n p = Some db ->
  Std.scale da = Std.scale db /\
  Std.mant da = digitsValue a ma /\ Std.mant db = digitsValue b mb.
Proof.
revert b. induction a as [|x a IH]; intros [|y b]; simpl; try done.
- intros _ ma mb n p da db.
  destruct (0 <? n)%nat; [|done]. by intros [= <-] [= <-].
- intros [Hhd Htl]%andb_prop ma mb n p da db.
  destruct (Ascii.is_nat x) as [dx|] eqn:Ex,
           (Ascii.is_nat y) as [dy|] eqn:Ey.
  + assert (Ascii.eqb x "." = false) as ->
      by (apply Ascii.eqb_neq; intros ->; discriminate).
    assert (Ascii.eqb y "." = false) as ->
      by (apply Ascii.eqb_neq; intros ->; discriminate).
    apply IH; done.
  + apply andb_prop in Hhd as [Hx%Ascii.eqb_eq _]. by subst x.
  + apply andb_prop in Hhd as [_ Hy%Ascii.eqb_eq]. by subst y.
  + apply andb_prop in Hhd as [Hx%Ascii.eqb_eq Hy%Ascii.eqb_eq]. subst x y.
    simpl. destruct p; [done|]. apply IH; done.
Qed.

Lemma ParseFloat_unsigned s d :
(forall c s', s = String c s' -> c <> "-"%char /\ c <> "+"%char) ->
Std.ParseFloat s = Ok d -> Std.readDigits s 0 0 None = Some d.
Proof.
intros Hsign. unfold Std.ParseFloat.
assert (Hbody :
  (match s with
   | String "-" s' => (true, s')
   | String "+" s' => (false, s')
   | _ => (false, s)
   end) = (false, s)).
{ destruct s as [|c s']; [done|].
  destruct (Hsign c s' eq_refl) as [Hm Hp].
  destruct c as [[] [] [] [] [] [] [] []]; try reflexivity;
    by (exfalso; (apply Hm || apply Hp)). }
rewrite Hbody. destruct (Std.readDigits s 0 0 None); [|done].
by intros [= <-].
Qed.

Lemma sameLayout_unsigned a b :
sameLayout a b = true ->
(forall c s', a = String c s' -> c <> "-"%char /\ c <> "+"%char) /\
(forall c s', b = String c s' -> c <> "-"%char /\ c <> "+"%char).
Proof.
destruct a as [|x a], b as [|y b]; simpl; try done.
intros [Hhd _]%andb_prop.
assert (Hx : x <> "-"%char /\ x <> "+"%char).
{ destruct (Ascii.is_nat x) eqn:E; [by eapply is_nat_not_sign|].
  assert (x = "."%char) as ->; [|by split].
  destruct (Ascii.is_nat y);
    apply andb_prop in Hhd as [Hx%Ascii.eqb_eq _]; done. }
assert (Hy : y <> "-"%char /\ y <> "+"%char).
{ destruct (Ascii.is_nat y) eqn:E; [by eapply is_nat_not_sign|].
  assert (y = "."%char) as ->; [|by split].
  destruct (Ascii.is_nat x);
    apply andb_prop in Hhd as [_ Hy%Ascii.eqb_eq]; done. }
split; intros c s' [= <- <-]; done.
Qed.

Lemma sameLayout_exactLe a b :
sameLayout a b = true -> Strings.lt b a = false -> exactLe a b.
Proof.
intros Hlayout Hle da db Ha Hb.
destruct (sameLayout_unsigned _ _ Hlayout) as [Hsa Hsb].
apply (ParseFloat_unsigned _ _ Hsa) in Ha.
apply (ParseFloat_unsigned _ _ Hsb) in Hb.
destruct (readDigits_value _ _ Hlayout _ _ _ _ _ _ Ha Hb) as (Hs & -> & ->).
split; [done|]. by apply sameLayout_order.
Qed.

End FixedWidth.

Section HistoryOrderResult.
Context {rt : GoRuntime} {client : SlackClientInterface}.

Lemma StronglySorted_weaken {A} (R R' : A -> A -> Prop) l :
  (forall x y, R x y -> R' x y) ->
  StronglySorted R l -> StronglySorted R' l.
Proof.
  intros Himpl. induction 1 as [|x l _ IH Hx]; constructor; [done|].
  eapply Forall_impl; [exact Hx|]. auto.
Qed.

(** C4, as the code has it.  The final list is in the byte-wise order of
    the timestamp strings: no message comes before one whose timestamp
    string is less.  Between timestamps of one layout (same length,
    points at the same places, digits elsewhere) that is the order of
    their exact decimal values. *)
Theorem fetchAllMessages_string_order
    fuel options progress cb t0 w msgs progress' w' :
  fetchAllMessages fuel options progress cb t0 w
    = (Some (Ok msgs, progress'), w') ->
  SortedBy lessTimestamp msgs /\
  StronglySorted
    (fun a b =>
       FixedWidth.sameLayout (Message.Timestamp a) (Message.Timestamp b)
         = true ->
       FixedWidth.exactLe (Message.Timestamp a) (Message.Timestamp b))
    msgs.
Proof.
  intros H. apply fetchAllMessages_sorted in H as [all ->].
  assert (Hs : SortedBy lessTimestamp (sort_Slice lessTimestamp all))
    by apply sort_Slice_sorted, lessTimestamp_StrictWeak.
  split; [exact Hs|].
  eapply StronglySorted_weaken; [|exact Hs].
  intros a b Hle Hlayout. by apply FixedWidth.sameLayout_exactLe.
Qed.

End HistoryOrderResult.

Lemma fetchAllMessages_string_order_witness :
  let early := Scenario.message "U1" "1704067200.123456" "" 0 in
  let late := Scenario.message "U2" "1704067260.000000" "" 0 in
  SortedBy lessTimestamp [early; late] /\
  StronglySorted
    (fun a b =>
       FixedWidth.sameLayout (Message.Timestamp a) (Message.Timestamp b)
         = true ->
       FixedWidth.exactLe (Message.Timestamp a) (Message.Timestamp b))
    [early; late].
Proof.
  intros early late.
  eapply (fetchAllMessages_string_order (rt := Std.runtime 0)
            (client := Scenario.workspace [late; early] (Ok []))
            1%nat (Scenario.options "") Scenario.noProgress false
            Scenario.epoch World.init [early; late]).
  reflexivity.
Defined.
(** Timestamps of different widths: ["10.000000"] sorts before
    ["9.000000"]. *)
Lemma fetchAllMessages_not_numeric :
  ~ (forall (rt : GoRuntime) (client : SlackClientInterface)
       fuel options progress cb t0 w msgs progress' w',
       fetchAllMessages fuel options progress cb t0 w
         = (Some (Ok msgs, progress'), w') ->
       Sorted timestampLe msgs).
Proof.
  intros H.
  pose (history := [Scenario.message "U1" "9.000000" "" 0;
                    Scenario.message "U2" "10.000000" "" 0]).
  specialize (H (Std.runtime 0) (Scenario.workspace history (Ok []))
                1%nat (Scenario.options "") Scenario.noProgress false
                Scenario.epoch World.init).
  specialize (H (reverse history) _ _ eq_refl).
  apply Sorted_inv in H as [_ H]. apply HdRel_inv in H.
  vm_compute in H. discriminate H.
Qed.

(** *** Thread resolution *)

Section ThreadResolution.
Context {rt : GoRuntime} {client : SlackClientInterface}.

(** What the loop leaves at the position of a threaded message [msg]
    whose replies are fetched by call number [k]. *)
Definition resolved (k : nat) (channelID : string) (msg : Message.t)
    : Message.t :=
  match GetThreadReplies k channelID (Message.ThreadTS msg) with
  | Ok replies => Message.setThread msg (resolveReplies msg replies)
  | Err _ => msg
  end.

(** The line printed when the replies of [msg] cannot be fetched. *)
Definition warning (msg : Message.t) (e : string) : string :=
  "Warning: Failed to fetch replies for thread "
  +:+ Message.ThreadTS msg +:+ ": " +:+ e.

Lemma threadedFrom_bounds i messages :
  Forall (fun j => (i <= j < i + length messages)%nat)
    (threadedFrom i messages).
Proof.
  revert i. induction messages as [|m rest IH]; intros i; simpl.
  - constructor.
  - specialize (IH (S i)).
    assert (H : Forall (fun j => (i <= j < i + S (length rest))%nat)
                  (threadedFrom (S i) rest)).
    { eapply Forall_impl; [exact IH|]. simpl. intros j ?. lia. }
    destruct (hasThread m); [constructor; [lia|exact H]|exact H].
Qed.

Lemma threadedFrom_NoDup i messages : NoDup (threadedFrom i messages).
Proof.
  revert i. induction messages as [|m rest IH]; intros i; simpl.
  - constructor.
  - destruct (hasThread m); [|apply IH].
    constructor; [|apply IH].
    intros Hin.
    pose proof (threadedFrom_bounds (S i) rest) as Hb.
    rewrite Forall_forall in Hb. apply Hb in Hin. lia.
Qed.

Lemma threadedMessages_valid messages :
  Forall (fun j => (j < length messages)%nat) (threadedMessages messages).
Proof.
  eapply Forall_impl; [apply threadedFrom_bounds|]. simpl. intros; lia.
Qed.

Lemma threadedFrom_hasThread i messages p j :
  threadedFrom i messages !! p = Some j ->
  exists msg, messages !! (j - i)%nat = Some msg /\ hasThread msg = true.
Proof.
  revert i p. induction messages as [|m rest IH]; intros i p; simpl.
  - by rewrite lookup_nil.
  - pose proof (threadedFrom_bounds (S i) rest) as Hb.
    rewrite Forall_forall in Hb.
    assert (Hrest : forall q, threadedFrom (S i) rest !! q = Some j ->
              exists msg, (m :: rest) !! (j - i)%nat = Some msg
                          /\ hasThread msg = true).
    { intros q Hq. pose proof (Hb j (list_elem_of_lookup_2 _ _ _ Hq)).
      destruct (IH _ _ Hq) as (msg & Hm & Ht). exists msg. split; [|done].
      replace (j - i)%nat with (S (j - S i)) by lia. exact Hm. }
    destruct (hasThread m) eqn:E; [|apply Hrest].
    destruct p as [|p]; simpl.
    + intros [= <-]. exists m. by rewrite Nat.sub_diag.
    + apply Hrest.
Qed.

Lemma threadLoop_spec channelID cb t0 pending :
  forall i total messages progress w,
    NoDup pending ->
    Forall (fun j => (j < length messages)%nat) pending ->
    let out := threadLoop i pending total channelID cb t0 messages progress w in
    length out.1.1 = length messages /\
    (forall j, j ∉ pending -> out.1.1 !! j = messages !! j) /\
    (forall p j msg,
       pending !! p = Some j -> messages !! j = Some msg ->
       out.1.1 !! j = Some (resolved (World.apiCalls w + p) channelID msg)) /\
    (exists printed, World.stdout out.2 = World.stdout w ++ printed) /\
    (forall p j msg e,
       pending !! p = Some j -> messages !! j = Some msg ->
       GetThreadReplies (World.apiCalls w + p) channelID
         (Message.ThreadTS msg) = Err e ->
       In (warning msg e) (World.stdout out.2)).
Proof.
  induction pending as [|j0 rest IH];
    intros i total messages progress w Hnd Hvalid out.
  - subst out. simpl. repeat split; try done.
    + by exists []; rewrite app_nil_r.
  - apply NoDup_cons in Hnd as [Hj0 Hnd].
    apply Forall_cons in Hvalid as [Hlt Hvalid].
    destruct (lookup_lt_is_Some_2 messages j0 Hlt) as [m0 Hm0].
    (* one iteration *)
    assert (Hstep : exists messages1 progress1 w1,
      out = threadLoop (S i) rest total channelID cb t0 messages1 progress1 w1
      /\ messages1 = match GetThreadReplies (World.apiCalls w) channelID
                             (Message.ThreadTS m0) with
                     | Ok _ => <[j0 := resolved (World.apiCalls w) channelID m0]> messages
                     | Err _ => messages
                     end
      /\ World.apiCalls w1 = S (World.apiCalls w)
      /\ (exists printed, World.stdout w1 = World.stdout w ++ printed)
      /\ (forall e, GetThreadReplies (World.apiCalls w) channelID
                      (Message.ThreadTS m0) = Err e ->
                    In (warning m0 e) (World.stdout w1))).
    { subst out. simpl. rewrite Hm0. unfold resolved.
      unfold bind at 1. unfold call at 1.
      destruct (GetThreadReplies (World.apiCalls w) channelID
                  (Message.ThreadTS m0)) as [replies|e] eqn:E.
      - destruct cb; run.
        + do 3 eexists. split; [reflexivity|].
          repeat split; simpl; try done.
          by exists []; rewrite app_nil_r.
        + do 3 eexists. split; [reflexivity|].
          repeat split; simpl; try done.
          by exists []; rewrite app_nil_r.
      - run. do 3 eexists. split; [reflexivity|].
        repeat split; simpl; try done.
        + by eexists.
        + intros e' [= <-]. apply in_or_app. right. by left. }
    destruct Hstep as (messages1 & progress1 & w1 & -> & Hm1 & Hcalls & Hout & Hwarn).
    assert (Hlen1 : length messages1 = length messages).
    { subst messages1. destruct (GetThreadReplies _ _ _); [|done].
      by rewrite length_insert. }
    assert (Hother : forall j, j <> j0 -> messages1 !! j = messages !! j).
    { intros j Hne. subst messages1. destruct (GetThreadReplies _ _ _); [|done].
      by rewrite list_lookup_insert_ne. }
    assert (Hat : messages1 !! j0
                  = Some (resolved (World.apiCalls w) channelID m0)).
    { subst messages1. unfold resolved.
      destruct (GetThreadReplies _ _ _) eqn:E; [|done].
      by rewrite list_lookup_insert_eq. }
    assert (Hvalid1 : Forall (fun j => (j < length messages1)%nat) rest).
    { by rewrite Hlen1. }
    destruct (IH (S i) total messages1 progress1 w1 Hnd Hvalid1)
      as (IHlen & IHother & IHat & IHout & IHwarn).
    repeat split.
    + by rewrite IHlen.
    + intros j Hj. apply not_elem_of_cons in Hj as [Hne Hj].
      rewrite IHother by done. by apply Hother.
    + intros p j msg Hp Hmsg. destruct p as [|p]; simpl in Hp.
      * injection Hp as <-. rewrite Nat.add_0_r.
        rewrite IHother by done. rewrite Hat. congruence.
      * assert (j <> j0).
        { intros ->. apply Hj0. by eapply list_elem_of_lookup_2. }
        rewrite (IHat p j msg Hp); [|by rewrite Hother].
        rewrite Hcalls. do 2 f_equal. lia.
    + destruct Hout as [pr1 Hpr1], IHout as [pr2 Hpr2].
      exists (pr1 ++ pr2). by rewrite Hpr2, Hpr1, app_assoc.
    + intros p j msg e Hp Hmsg Herr. destruct p as [|p]; simpl in Hp.
      * injection Hp as <-. rewrite Nat.add_0_r in Herr.
        assert (msg = m0) as -> by congruence.
        destruct IHout as [pr2 ->]. apply in_or_app. left. by apply Hwarn.
      * assert (j <> j0).
        { intros ->. apply Hj0. by eapply list_elem_of_lookup_2. }
        apply (IHwarn p j msg e Hp); [by rewrite Hother|].
        rewrite Hcalls. by replace (S (World.apiCalls w) + p)%nat
                             with (World.apiCalls w + S p)%nat by lia.
Qed.


Lemma fetchThreadReplies_eq messages channelID progress cb t0 w :
  fetchThreadReplies messages channelID progress cb t0 w
  = let out :=
      threadLoop 0 (threadedMessages messages)
        (GoInt.len (threadedMessages messages)) channelID cb t0 messages
        (ExportProgress.setThreadsTotal progress
           (GoInt.len (threadedMessages messages))) w in
    ((None, out.1.1, out.1.2), out.2).
Proof.
  unfold fetchThreadReplies, bind, ret.
  by destruct (threadLoop _ _ _ _ _ _ _ _ _) as [[? ?] ?].
Qed.

(** The stage never reports an error. *)
Lemma fetchThreadReplies_succeeds messages channelID progress cb t0 w :
  (fetchThreadReplies messages channelID progress cb t0 w).1.1.1 = None.
Proof. by rewrite fetchThreadReplies_eq. Qed.

Lemma fetchThreadReplies_at messages channelID progress cb t0 w p j msg :
  threadedMessages messages !! p = Some j ->
  messages !! j = Some msg ->
  (fetchThreadReplies messages channelID progress cb t0 w).1.1.2 !! j
  = Some (resolved (World.apiCalls w + p) channelID msg).
Proof.
  intros Hp Hj. rewrite fetchThreadReplies_eq. simpl.
  eapply threadLoop_spec; eauto using threadedFrom_NoDup, threadedMessages_valid.
Qed.

Lemma resolveReplies_perm msg replies :
  resolveReplies msg replies ≡ₚ dropParent msg replies.
Proof. apply sort_Slice_perm. Qed.

Lemma dropParent_no_echo msg replies :
  Forall (fun r => Message.Timestamp r <> Message.Timestamp msg)
    (tail replies) ->
  Forall (fun r => Message.Timestamp r <> Message.Timestamp msg)
    (dropParent msg replies).
Proof.
  destruct replies as [|first rest]; simpl; [done|].
  intros H.
  destruct (String.eqb (Message.Timestamp first) (Message.Timestamp msg))
    eqn:E; [done|].
  constructor; [|done]. by apply String.eqb_neq.
Qed.



End ThreadResolution.




(** *** User resolution *)

Section UserResolution.
Context {rt : GoRuntime} {client : SlackClientInterface}.

(** [uid] is the author of a message or of a reply. *)
Definition authorOf (uid : string) (msgs : list Message.t) : Prop :=
  exists node, In node (Message.nodes msgs) /\ Message.User node = uid.

Lemma collectUserIDs1_spec msg :
  forall userIDs uid,
    (userIDs !! uid = Some true ->
     collectUserIDs1 userIDs msg !! uid = Some true) /\
    (uid <> "" ->
     (exists node, In node (Message.nodes1 msg) /\ Message.User node = uid) ->
     collectUserIDs1 userIDs msg !! uid = Some true).
Proof.
  induction msg as [msg IH] using Message.tree_ind.
  assert (Hforest : forall replies, Forall (fun m => forall userIDs uid,
      (userIDs !! uid = Some true ->
       collectUserIDs1 userIDs m !! uid = Some true) /\
      (uid <> "" ->
       (exists node, In node (Message.nodes1 m) /\ Message.User node = uid) ->
       collectUserIDs1 userIDs m !! uid = Some true)) replies ->
    forall userIDs uid,
      (userIDs !! uid = Some true ->
       fold_left collectUserIDs1 replies userIDs !! uid = Some true) /\
      (uid <> "" ->
       (exists node, In node (Message.nodes replies)
                     /\ Message.User node = uid) ->
       fold_left collectUserIDs1 replies userIDs !! uid = Some true)).
  { clear. intros replies HF.
    induction HF as [|r replies Hr _ IHr]; intros userIDs uid; simpl.
    - split; [done|]. by intros _ (? & [] & _).
    - split.
      + intros H. apply (proj1 (IHr _ _)). by apply (proj1 (Hr _ _)).
      + intros Hne (node & Hin & Hu).
        unfold Message.nodes in Hin. simpl in Hin.
        apply in_app_or in Hin as [Hin|Hin].
        * apply (proj1 (IHr _ _)). apply (proj2 (Hr _ _)); eauto.
        * apply (proj2 (IHr _ _)); eauto. }
  intros userIDs uid.
  destruct msg as [ty user text ts tts rc rs thread at_ fs re ed bot un st].
  simpl in *. specialize (Hforest thread IH).
  split.
  - intros H. apply (proj1 (Hforest _ _)).
    destruct (negb (String.eqb user "")); [|done].
    destruct (decide (user = uid)) as [->|Hne].
    + by rewrite lookup_insert_eq.
    + by rewrite lookup_insert_ne.
  - intros Hne (node & [<-|Hin] & Hu).
    + simpl in Hu. subst user. apply (proj1 (Hforest _ _)).
      apply String.eqb_neq in Hne. rewrite Hne. simpl.
      by rewrite lookup_insert_eq.
    + apply (proj2 (Hforest _ _)); eauto.
Qed.

Lemma collectUserIDs_author msgs uid :
  uid <> "" -> authorOf uid msgs ->
  collectUserIDs ∅ msgs !! uid = Some true.
Proof.
  unfold collectUserIDs, authorOf. generalize (∅ : gmap string bool).
  induction msgs as [|m msgs IH]; intros userIDs Hne (node & Hin & Hu).
  - destruct Hin.
  - unfold Message.nodes in Hin. simpl in *.
    apply in_app_or in Hin as [Hin|Hin].
    + assert (H : collectUserIDs1 userIDs m !! uid = Some true)
        by (apply (proj2 (collectUserIDs1_spec _ _ _)); eauto).
      revert H. generalize (collectUserIDs1 userIDs m). clear.
      induction msgs as [|m' msgs IH]; intros ids H; simpl; [done|].
      apply IH. by apply (proj1 (collectUserIDs1_spec _ _ _)).
    + apply IH; eauto.
Qed.

Lemma neededUsers_absent userIDs allUsers uid :
  Forall (fun u => User.ID u <> uid) allUsers ->
  neededUsers userIDs allUsers !! uid = None.
Proof.
  unfold neededUsers.
  assert (H : forall acc : gmap string User.t, acc !! uid = None ->
    Forall (fun u => User.ID u <> uid) allUsers ->
    fold_left
      (fun users user =>
         if default false (userIDs !! User.ID user)
         then <[User.ID user := user]> users else users) allUsers acc
      !! uid = None).
  { induction allUsers as [|u us IH]; intros acc Hacc HF; simpl; [done|].
    apply Forall_cons in HF as [Hu HF]. apply IH; [|done].
    destruct (default false (userIDs !! User.ID u)); [|done].
    by rewrite lookup_insert_ne. }
  intros HF. by apply H.
Qed.

Lemma addPlaceholders_kept ids users uid u :
  users !! uid = Some u -> addPlaceholders ids users !! uid = Some u.
Proof.
  unfold addPlaceholders. revert users.
  induction ids as [|[k b] ids IH]; intros users H; simpl; [done|].
  apply IH. destruct (users !! k) eqn:E; [done|].
  rewrite lookup_insert_ne; [done|]. congruence.
Qed.

Lemma addPlaceholders_missing ids users uid :
  users !! uid = None -> In uid (map fst ids) ->
  addPlaceholders ids users !! uid = Some (placeholder uid).
Proof.
  unfold addPlaceholders. revert users.
  induction ids as [|[k b] ids IH]; intros users H Hin; simpl in *; [done|].
  destruct (decide (k = uid)) as [->|Hne].
  - rewrite H. apply addPlaceholders_kept. by rewrite lookup_insert_eq.
  - destruct Hin as [|Hin]; [done|]. apply IH; [|done].
    destruct (users !! k); [done|]. by rewrite lookup_insert_ne.
Qed.

(** C5.  A non-empty id that is the author of a message or of a reply
    and that no user of the directory carries is resolved to the
    placeholder: handle ["user_" + id], real name ["Unknown User"],
    deleted. *)
Theorem fetchUserInfo_placeholder messages w allUsers uid :
  GetUsers (World.apiCalls w) = Ok allUsers ->
  uid <> "" ->
  authorOf uid messages ->
  Forall (fun u => User.ID u <> uid) allUsers ->
  exists users,
    (fetchUserInfo messages w).1 = Ok users /\
    users !! uid
    = Some (User.mk uid ("user_" +:+ uid) "Unknown User" Profile.zero
              false true).
Proof.
  intros Hget Hne Hauthor Hdir.
  unfold fetchUserInfo. run. rewrite Hget. simpl.
  eexists. split; [reflexivity|].
  apply addPlaceholders_missing.
  - by apply neededUsers_absent.
  - apply in_map_iff. exists (uid, true). split; [done|].
    apply list_elem_of_In. rewrite map_range_perm.
    apply elem_of_map_to_list. by apply collectUserIDs_author.
Qed.

End UserResolution.

Lemma fetchUserInfo_placeholder_witness :
  let messages := [Scenario.message "U123456" "1704067200.000000" "" 0;
                   Scenario.message "U999999" "1704067260.000000" "" 0] in
  exists users,
    (fetchUserInfo (rt := Std.runtime 0)
       (client := Scenario.workspace messages (Ok [])) messages
       World.init).1 = Ok users /\
    users !! "U999999"
    = Some (User.mk "U999999" "user_U999999" "Unknown User" Profile.zero
              false true).
Proof.
  intros messages.
  apply (fetchUserInfo_placeholder (rt := Std.runtime 0)
           (client := Scenario.workspace messages (Ok [])) messages
           World.init [Scenario.alice] "U999999").
  - reflexivity.
  - discriminate.
  - exists (Scenario.message "U999999" "1704067260.000000" "" 0).
    split; [simpl; tauto|reflexivity].
  - repeat constructor. discriminate.
Defined.

(** *** Statistics: the message count *)

Section Statistics.
Context {rt : GoRuntime}.

#[local] Arguments Message.nodes : simpl never.

Lemma nodes1_eq msg :
  Message.nodes1 msg = msg :: Message.nodes (Message.Thread msg).
Proof. by destruct msg. Qed.

Lemma nodes_cons msg msgs :
  Message.nodes (msg :: msgs) = Message.nodes1 msg ++ Message.nodes msgs.
Proof. reflexivity. Qed.

(** A forest has as many nodes as top-level messages plus replies. *)
Lemma nodes_length msgs :
  length (Message.nodes msgs) = (length msgs + Message.replyTotal msgs)%nat.
Proof.
  unfold Message.replyTotal.
  assert (Hforest : forall l,
    Forall (fun m => length (Message.nodes1 m)
                     = S (list_sum (map (fun n => length (Message.Thread n))
                                      (Message.nodes1 m)))) l ->
    length (Message.nodes l)
    = (length l + list_sum (map (fun n => length (Message.Thread n))
                              (Message.nodes l)))%nat).
  { induction 1 as [|m l Hm _ IH]; [done|].
    rewrite nodes_cons, length_app, map_app, list_sum_app, Hm, IH.
    simpl. lia. }
  apply Hforest. apply Forall_forall. intros m _.
  induction m as [m IH] using Message.tree_ind.
  rewrite nodes1_eq. simpl. rewrite (Hforest _ IH). lia.
Qed.

Lemma countMessage_TotalMessages msg :
  forall stats,
    ExportStatistics.TotalMessages (countMessage stats msg)
    = GoInt.wrap64 (ExportStatistics.TotalMessages stats
                    + Z.of_nat (length (Message.nodes1 msg))).
Proof.
  induction msg as [msg IH] using Message.tree_ind.
  assert (Hforest : forall replies,
    Forall (fun m => forall stats,
      ExportStatistics.TotalMessages (countMessage stats m)
      = GoInt.wrap64 (ExportStatistics.TotalMessages stats
                      + Z.of_nat (length (Message.nodes1 m)))) replies ->
    forall stats,
      GoInt.in_range (ExportStatistics.TotalMessages stats) ->
      ExportStatistics.TotalMessages (fold_left countMessage replies stats)
      = GoInt.wrap64 (ExportStatistics.TotalMessages stats
                      + Z.of_nat (length (Message.nodes replies)))).
  { clear. induction 1 as [|r replies Hr _ IHr]; intros stats Hrange; simpl.
    - rewrite Z.add_0_r. symmetry. by apply GoInt.wrap64_id.
    - rewrite IHr by (rewrite Hr; apply GoInt.wrap64_range).
      rewrite Hr, GoInt.wrap64_add_l, nodes_cons, length_app.
      f_equal. lia. }
  intros stats.
  destruct msg as [ty user text ts tts rc rs thread at_ fs re ed bot un st].
  rewrite nodes1_eq. simpl in *.
  destruct thread as [|r thread]; [done|].
  rewrite (Hforest _ IH) by apply GoInt.wrap64_range.
  cbn [ExportStatistics.TotalMessages]. unfold GoInt.add.
  rewrite GoInt.wrap64_add_l. f_equal.
  rewrite Nat2Z.inj_succ. lia.
Qed.

Lemma countMessages_TotalMessages msgs :
  ExportStatistics.TotalMessages (countMessages ExportStatistics.init msgs)
  = GoInt.wrap64 (Z.of_nat (length (Message.nodes msgs))).
Proof.
  unfold countMessages.
  assert (H : forall stats,
    GoInt.in_range (ExportStatistics.TotalMessages stats) ->
    ExportStatistics.TotalMessages (fold_left countMessage msgs stats)
    = GoInt.wrap64 (ExportStatistics.TotalMessages stats
                    + Z.of_nat (length (Message.nodes msgs)))).
  { induction msgs as [|m msgs IH]; intros stats Hrange; simpl.
    - rewrite Z.add_0_r. symmetry. by apply GoInt.wrap64_id.
    - rewrite IH
        by (rewrite countMessage_TotalMessages; apply GoInt.wrap64_range).
      rewrite countMessage_TotalMessages, GoInt.wrap64_add_l, nodes_cons,
        length_app.
      f_equal. lia. }
  rewrite H; [done|]. simpl. unfold GoInt.in_range, GoInt.two63. lia.
Qed.


End Statistics.


(** *** Statistics: the messages of each day *)

Section DayBuckets.
Context {rt : GoRuntime}.

#[local] Arguments Message.nodes : simpl never.

(** Some node of [nodes] has a timestamp that parses to a time whose
    formatted day is [k]. *)
Definition dated (k : string) (nodes : list Message.t) : Prop :=
  exists node t,
    In node nodes /\
    ParseSlackTimestamp (Message.Timestamp node) = Ok t /\
    Format_2006_01_02 t = k.

Lemma dated_app k l1 l2 : dated k (l1 ++ l2) <-> dated k l1 \/ dated k l2.
Proof.
  unfold dated. split.
  - intros (n & t & Hin & H). apply in_app_or in Hin as [?|?]; eauto 10.
  - intros [(n & t & Hin & H)|(n & t & Hin & H)];
      exists n, t; (split; [apply in_or_app; auto|done]).
Qed.

Lemma dated_nil k : ~ dated k [].
Proof. by intros (? & ? & [] & _). Qed.

Lemma dom_increment key (m : gmap string Z) k :
  k ∈ dom (increment key m) <-> k = key \/ k ∈ dom m.
Proof. unfold increment. rewrite dom_insert_L. set_solver. Qed.

Lemma countMessage_dates msg :
  forall stats k,
    k ∈ dom (ExportStatistics.MessagesByDate (countMessage stats msg)) <->
    k ∈ dom (ExportStatistics.MessagesByDate stats)
    \/ dated k (Message.nodes1 msg).
Proof.
  induction msg as [msg IH] using Message.tree_ind.
  assert (Hforest : forall replies,
    Forall (fun m => forall stats k,
      k ∈ dom (ExportStatistics.MessagesByDate (countMessage stats m)) <->
      k ∈ dom (ExportStatistics.MessagesByDate stats)
      \/ dated k (Message.nodes1 m)) replies ->
    forall stats k,
      k ∈ dom (ExportStatistics.MessagesByDate
                 (fold_left countMessage replies stats)) <->
      k ∈ dom (ExportStatistics.MessagesByDate stats)
      \/ dated k (Message.nodes replies)).
  { clear. induction 1 as [|r replies Hr _ IHr]; intros stats k; simpl.
    - pose proof (dated_nil k). unfold Message.nodes; simpl. tauto.
    - rewrite IHr, Hr, nodes_cons, dated_app. tauto. }
  intros stats k.
  assert (Hhere : forall l,
    dated k (msg :: l) <->
    (exists t, ParseSlackTimestamp (Message.Timestamp msg) = Ok t
               /\ Format_2006_01_02 t = k) \/ dated k l).
  { intros l. change (msg :: l) with ([msg] ++ l). rewrite dated_app.
    unfold dated. split.
    - intros [(n & t & [<-|[]] & H)|H]; eauto.
    - intros [(t & H)|H]; [left; exists msg, t; split; [by left|done]|auto]. }
  rewrite nodes1_eq, Hhere.
  destruct msg as [ty user text ts tts rc rs thread at_ fs re ed bot un st].
  simpl in *.
  assert (Hby : forall m : gmap string Z,
    k ∈ dom (match ParseSlackTimestamp ts with
             | Ok timestamp => increment (Format_2006_01_02 timestamp) m
             | Err _ => m
             end) <->
    k ∈ dom m \/
    (exists t, ParseSlackTimestamp ts = Ok t /\ Format_2006_01_02 t = k)).
  { intros m. destruct (ParseSlackTimestamp ts) as [t|e].
    - rewrite dom_increment. split.
      + intros [->|?]; eauto.
      + intros [?|(t' & [= <-] & <-)]; auto.
    - split; [auto|]. by intros [?|(? & ? & _)]. }
  destruct thread as [|r thread].
  - simpl. rewrite Hby. pose proof (dated_nil k).
    unfold Message.nodes; simpl. tauto.
  - rewrite (Hforest _ IH). simpl. rewrite Hby. tauto.
Qed.

Lemma countMessages_dates msgs :
  forall stats k,
    k ∈ dom (ExportStatistics.MessagesByDate (countMessages stats msgs)) <->
    k ∈ dom (ExportStatistics.MessagesByDate stats)
    \/ dated k (Message.nodes msgs).
Proof.
  unfold countMessages.
  induction msgs as [|m msgs IH]; intros stats k; simpl.
  - pose proof (dated_nil k). unfold Message.nodes; simpl. tauto.
  - rewrite IH, countMessage_dates, nodes_cons, dated_app. tauto.
Qed.

Lemma ParseSlackTimestamp_Local ts t :
  ts <> "" -> ParseSlackTimestamp ts = Ok t -> Time.loc t = Time.Local.
Proof.
  intros Hne. unfold ParseSlackTimestamp.
  apply String.eqb_neq in Hne. rewrite Hne.
  destruct (strconv_ParseFloat ts); [|done].
  intros Hok. injection Hok as <-. unfold Time.Unix.
  repeat match goal with |- context [if ?b then _ else _] => destruct b end;
    reflexivity.
Qed.

(** C8, as the code has it.  The keys of [MessagesByDate] are the days
    that [Format] gives for the parsed timestamps of the nodes; the day
    of a non-empty timestamp is taken in the local zone of the process,
    [time.Unix] being local, and is the UTC day when that zone has no
    offset. *)
Theorem calculateStatistics_day_keys messages users w :
  (forall k,
     k ∈ dom (ExportStatistics.MessagesByDate
                (calculateStatistics messages users w).1) <->
     exists node t,
       In node (Message.nodes messages) /\
       ParseSlackTimestamp (Message.Timestamp node) = Ok t /\
       Format_2006_01_02 t = k) /\
  (forall ts t,
     ts <> "" -> ParseSlackTimestamp ts = Ok t ->
     Format_2006_01_02 t
     = Time.dayOf (Time.sec t) (time_localOffset (Time.sec t))) /\
  (forall t,
     time_localOffset (Time.sec t) = 0 ->
     Format_2006_01_02 t = Time.utcDay t).
Proof.
  split; [|split].
  - intros k. unfold calculateStatistics. run.
    rewrite countMessages_dates. simpl. rewrite dom_empty_L.
    unfold dated. split; [|by right].
    intros [Hempty|Hdated]; [|done]. by apply not_elem_of_empty in Hempty.
  - intros ts t Hne Hparse. unfold Format_2006_01_02.
    by rewrite (ParseSlackTimestamp_Local _ _ Hne Hparse).
  - intros t H0. unfold Format_2006_01_02, Time.utcDay.
    rewrite H0. by destruct (Time.loc t).
Qed.

End DayBuckets.

Lemma calculateStatistics_day_keys_witness :
  let rt := Std.runtime 0 in
  let msg := Scenario.message "U1" "1704067200.000000" "" 0 in
  let t := Time.Unix 1704067200 0 in
  "2024-01-01"
  ∈ dom (ExportStatistics.MessagesByDate
           (calculateStatistics [msg] ∅ World.init).1) /\
  Format_2006_01_02 t
  = Time.dayOf (Time.sec t) (time_localOffset (Time.sec t)) /\
  Format_2006_01_02 t = Time.utcDay t.
Proof.
  intros rt msg t.
  destruct (calculateStatistics_day_keys (rt := rt) [msg] ∅ World.init)
    as (Hkeys & Hlocal & Hutc).
  split; [|split].
  - apply Hkeys. exists msg, t. split; [by left|]. split; reflexivity.
  - apply (Hlocal "1704067200.000000"); [discriminate|reflexivity].
  - apply Hutc. reflexivity.
Defined.

(** In a process five hours west of UTC a message sent at midnight UTC is
    counted under the previous day. *)
Lemma calculateStatistics_local_day :
  ~ (forall (rt : GoRuntime) messages users w node t,
       In node (Message.nodes messages) ->
       ParseSlackTimestamp (Message.Timestamp node) = Ok t ->
       Time.utcDay t
       ∈ dom (ExportStatistics.MessagesByDate
                (calculateStatistics messages users w).1)).
Proof.
  intros H.
  pose (msg := Scenario.message "U1" "1704067200.000000" "" 0).
  specialize (H (Std.runtime (-18000)) [msg] ∅ World.init msg
                (Time.Unix 1704067200 0)).
  assert (Hkey : Time.utcDay (Time.Unix 1704067200 0) = "2024-01-01")
    by reflexivity.
  rewrite Hkey in H.
  apply elem_of_dom in H as [n Hn]; [|by left|reflexivity].
  vm_compute in Hn. discriminate Hn.
Qed.

(** *** Statistics: the top reactions *)

Section TopReactions.
Context {rt : GoRuntime}.

Lemma moreFrequent_false a b : moreFrequent a b = false <-> a.2 <= b.2.
Proof.
  unfold moreFrequent. rewrite Z.gtb_ltb. apply Z.ltb_ge.
Qed.

Lemma moreFrequent_true a b : moreFrequent a b = true <-> b.2 < a.2.
Proof.
  unfold moreFrequent. rewrite Z.gtb_ltb. apply Z.ltb_lt.
Qed.

Lemma moreFrequent_StrictWeak : StrictWeak moreFrequent.
Proof.
  repeat split.
  - intros a. apply moreFrequent_false. lia.
  - intros a b c. rewrite !moreFrequent_true. lia.
  - intros a b c. rewrite !moreFrequent_false. lia.
Qed.

(** Two sorted arrangements of the same pairs carry the same counts in
    the same places. *)
Lemma sorted_counts_unique (l1 l2 : list (string * Z)) :
  l1 ≡ₚ l2 -> SortedBy moreFrequent l1 -> SortedBy moreFrequent l2 ->
  l1.*2 = l2.*2.
Proof.
  intros Hperm H1 H2.
  apply (StronglySorted_unique_strong (fun x y : Z => y <= x)).
  - intros x y _ _ ? ?. lia.
  - eapply StronglySorted_fmap; [|exact H1].
    intros x y. apply moreFrequent_false.
  - eapply StronglySorted_fmap; [|exact H2].
    intros x y. apply moreFrequent_false.
  - by rewrite Hperm.
Qed.

(** With pairwise distinct counts the sorted arrangement is unique. *)
Lemma sorted_pairs_unique (l1 l2 : list (string * Z)) :
  NoDup l1.*2 ->
  l1 ≡ₚ l2 -> SortedBy moreFrequent l1 -> SortedBy moreFrequent l2 ->
  l1 = l2.
Proof.
  intros Hnd Hperm H1 H2.
  apply (StronglySorted_unique_strong
           (fun a b : string * Z => moreFrequent b a = false));
    [|done..].
  intros x y Hx Hy Hxy Hyx.
  apply moreFrequent_false in Hxy, Hyx.
  assert (Hy' : y ∈ l1) by (by rewrite Hperm).
  apply list_elem_of_lookup in Hx as [i Hi], Hy' as [j Hj].
  assert (i = j) as ->.
  { eapply NoDup_lookup; [exact Hnd|..].
    - rewrite list_lookup_fmap, Hi. reflexivity.
    - rewrite list_lookup_fmap, Hj. simpl. f_equal. lia. }
  congruence.
Qed.

Lemma topReactions_counts (l1 l2 : list (string * Z)) :
  l1 ≡ₚ l2 ->
  map ReactionStat.Count (topReactions l1)
  = map ReactionStat.Count (topReactions l2).
Proof.
  intros Hperm. unfold topReactions.
  assert (Hs : sort_Slice moreFrequent l1 ≡ₚ sort_Slice moreFrequent l2)
    by (by rewrite !sort_Slice_perm).
  rewrite !map_map. simpl.
  change (map (fun x : string * Z => x.2)) with (fmap (M := list) (@snd string Z)).
  rewrite !fmap_take.
  rewrite (sorted_counts_unique _ _ Hs)
    by (apply sort_Slice_sorted, moreFrequent_StrictWeak).
  unfold GoInt.len. by rewrite (Permutation_length Hs).
Qed.

Lemma topReactions_distinct (l1 l2 : list (string * Z)) :
  NoDup l1.*2 -> l1 ≡ₚ l2 -> topReactions l1 = topReactions l2.
Proof.
  intros Hnd Hperm. unfold topReactions.
  assert (Hs : sort_Slice moreFrequent l1 ≡ₚ sort_Slice moreFrequent l2)
    by (by rewrite !sort_Slice_perm).
  rewrite (sorted_pairs_unique (sort_Slice moreFrequent l1)
             (sort_Slice moreFrequent l2));
    [done| |done|..]; try (apply sort_Slice_sorted, moreFrequent_StrictWeak).
  by rewrite sort_Slice_perm.
Qed.

(** The aggregate count of every reaction name over the whole tree. *)
Definition reactionCounts (messages : list Message.t) : gmap string Z :=
  collectReactions ∅ messages.

(** C2, as the code has it.  Two invocations on the same messages and
    users agree on every field but [TopReactions], whose entries carry
    the same counts in the same places; the names of entries with equal
    counts may come in another order, which the map iteration of the
    invocation decides.  When no two names have the same aggregate count
    the two results are equal. *)
Theorem calculateStatistics_repeatable messages users w1 w2 :
  let s1 := (calculateStatistics messages users w1).1 in
  let s2 := (calculateStatistics messages users w2).1 in
  ExportStatistics.setTopReactions s1 []
  = ExportStatistics.setTopReactions s2 [] /\
  map ReactionStat.Count (ExportStatistics.TopReactions s1)
  = map ReactionStat.Count (ExportStatistics.TopReactions s2) /\
  (NoDup (map_to_list (reactionCounts messages)).*2 -> s1 = s2).
Proof.
  unfold calculateStatistics, reactionCounts. run.
  set (counts := collectReactions ∅ messages).
  assert (Hperm : map_range (World.rangeLoops w1) counts
                  ≡ₚ map_range (World.rangeLoops w2) counts)
    by (by rewrite !map_range_perm).
  split; [reflexivity|]. split.
  - by apply topReactions_counts.
  - intros Hnd. unfold ExportStatistics.setTopReactions. simpl.
    f_equal. apply topReactions_distinct; [|done].
    by rewrite map_range_perm.
Qed.

End TopReactions.

Lemma calculateStatistics_repeatable_witness :
  let first := Scenario.reacted (Scenario.message "U1" "100.1" "" 0)
                 [Reaction.mk "thumbsup" [] 3; Reaction.mk "heart" [] 2] in
  let second := Scenario.reacted (Scenario.message "U2" "100.2" "" 0)
                  [Reaction.mk "thumbsup" [] 1] in
  let once := calculateStatistics (rt := Std.runtime 0) [first; second] ∅
                World.init in
  let twice := calculateStatistics (rt := Std.runtime 0) [first; second] ∅
                 once.2 in
  once.1 = twice.1.
Proof.
  intros first second once twice.
  apply (calculateStatistics_repeatable (rt := Std.runtime 0)
           [first; second] ∅ World.init once.2).
  apply (bool_decide_unpack _). vm_compute. exact I.
Defined.

(** Two reactions used once each: the second invocation, one map
    iteration later, lists them the other way round. *)
Lemma calculateStatistics_tie_order :
  ~ (forall (rt : GoRuntime) messages users w1 w2,
       (calculateStatistics messages users w1).1
       = (calculateStatistics messages users w2).1).
Proof.
  intros H.
  pose (msg := Scenario.reacted (Scenario.message "U1" "100.1" "" 0)
                 [Reaction.mk "thumbsup" [] 1; Reaction.mk "heart" [] 1]).
  specialize (H (Std.runtime 0) [msg] ∅ World.init
                (calculateStatistics (rt := Std.runtime 0) [msg] ∅
                   World.init).2).
  apply (f_equal ExportStatistics.TopReactions) in H.
  vm_compute in H. discriminate H.
Qed.

(** *** The output file *)

Section OutputFile.
Context {rt : GoRuntime}.

Lemma putFile_files path data w :
  World.files (putFile path data w) = <[path := data]> (World.files w).
Proof. reflexivity. Qed.

(** C6.  With compression ["gzip"], when no system call fails and the
    document is rendered, the compressed document is written to the
    output path, with [".gz"] appended unless the path already ends in
    it, and that path is returned.  With compression ["zip"] the result
    is an error, the one of [writeZipFile] when the stage gets that far,
    and no file is written. *)
Theorem generateOutputFile_compression exportData options w :
  (ExportOptions.Compression options = "gzip" ->
   (forall c path, os_error c path = None) ->
   forall pretty compact,
     json_MarshalIndent exportData = Ok pretty ->
     json_Marshal exportData = Ok compact ->
     let jsonData :=
       if String.eqb (ExportOptions.Format options) "json-compact"
       then compact else pretty in
     let outputFile :=
       if Strings.HasSuffix (ExportOptions.OutputFile options) ".gz"
       then ExportOptions.OutputFile options
       else ExportOptions.OutputFile options +:+ ".gz" in
     let out := generateOutputFile exportData options w in
     out.1 = Ok (outputFile, GoInt.len (gzip_compress jsonData)) /\
     World.files out.2
     = <[outputFile := gzip_compress jsonData]> (World.files w)) /\
  (ExportOptions.Compression options = "zip" ->
   let out := generateOutputFile exportData options w in
   (exists e, out.1 = Err e) /\
   World.files out.2 = World.files w /\
   (os_error SysMkdirAll (filepath_Dir (ExportOptions.OutputFile options))
      = None ->
    forall pretty compact,
      json_MarshalIndent exportData = Ok pretty ->
      json_Marshal exportData = Ok compact ->
      out.1 = Err "zip compression not yet implemented")).
Proof.
  split.
  - intros Hgzip Hos pretty compact Hpretty Hcompact jsonData outputFile out.
    subst out. unfold generateOutputFile, writeGzipFile. run.
    rewrite Hgzip, Hpretty, Hcompact. simpl.
    assert (Hdata :
      (if String.eqb (ExportOptions.Format options) "json-pretty"
       then Ok pretty
       else if String.eqb (ExportOptions.Format options) "json-compact"
            then Ok compact else Ok pretty) = Ok jsonData).
    { subst jsonData.
      destruct (String.eqb (ExportOptions.Format options) "json-pretty")
        eqn:E1.
      - apply String.eqb_eq in E1. by rewrite E1.
      - by destruct (String.eqb (ExportOptions.Format options)
                       "json-compact"). }
    assert (Hname :
      (if negb (Strings.HasSuffix (ExportOptions.OutputFile options) ".gz")
       then ExportOptions.OutputFile options +:+ ".gz"
       else ExportOptions.OutputFile options) = outputFile).
    { subst outputFile.
      by destruct (Strings.HasSuffix (ExportOptions.OutputFile options)
                     ".gz"). }
    rewrite Hname.
    destruct (negb (String.eqb (filepath_Dir (ExportOptions.OutputFile options)) "."));
      rewrite ?Hos; simpl; rewrite Hdata; simpl;
      rewrite !lookup_insert_eq; simpl;
      (split; [done|by rewrite insert_insert_eq]).
  - intros Hzip out. subst out.
    unfold generateOutputFile, writeZipFile. run. rewrite Hzip. simpl.
    destruct (json_MarshalIndent exportData) eqn:E1;
      destruct (json_Marshal exportData) eqn:E2;
      destruct (String.eqb (ExportOptions.Format options) "json-pretty");
      destruct (String.eqb (ExportOptions.Format options) "json-compact");
      destruct (negb (String.eqb
                       (filepath_Dir (ExportOptions.OutputFile options))
                       "."));
      try destruct (os_error SysMkdirAll _) eqn:Emk;
      simpl; (split; [eauto|split; [done|]]);
      intros; congruence.
Qed.

End OutputFile.

Lemma generateOutputFile_compression_witness :
  let rt := Std.runtime 0 in
  let doc :=
    ChannelExport.mk
      (ExportMetadata.mk Scenario.epoch "slacker-cli" "1.0" "json" true
         DateRange.zero)
      (ChannelInfo.mk "C123456" "general" false false "" "" Time.zero "" 10)
      [] ∅ ExportStatistics.init in
  let gz := generateOutputFile doc (Scenario.options "gzip") World.init in
  let zip := generateOutputFile doc (Scenario.options "zip") World.init in
  (exists size, gz.1 = Ok ("foo.json.gz", size)) /\
  is_Some (World.files gz.2 !! "foo.json.gz") /\
  zip.1 = Err "zip compression not yet implemented" /\
  World.files zip.2 = World.files World.init.
Proof.
  intros rt doc gz zip.
  destruct (generateOutputFile_compression (rt := rt) doc
              (Scenario.options "gzip") World.init) as [Hgzip _].
  destruct (generateOutputFile_compression (rt := rt) doc
              (Scenario.options "zip") World.init) as [_ Hzip].
  specialize (Hgzip eq_refl (fun _ _ => eq_refl) _ _ eq_refl eq_refl)
    as [Hres Hfiles].
  specialize (Hzip eq_refl) as (_ & Hsame & Herr).
  specialize (Herr eq_refl _ _ eq_refl eq_refl).
  split; [|split; [|split]].
  - eexists. exact Hres.
  - subst gz. rewrite Hfiles. simpl. by rewrite lookup_insert_eq.
  - exact Herr.
  - exact Hsame.
Defined.

(** *** The content flags *)

Section ContentFlags.
Context {rt : GoRuntime} {client : SlackClientInterface}.
Variable version : string.

Abbreviation flags := ExportOptions.withContentFlags.

Lemma fetchPages_flags fuel options f r cb t0 :
  forall all cursor pages progress w,
    fetchPages fuel (flags options f r) cb t0 all cursor pages progress w
    = fetchPages fuel options cb t0 all cursor pages progress w.
Proof.
  induction fuel as [|fuel IH]; intros all cursor pages progress w;
    [reflexivity|].
  simpl. unfold bind.
  destruct (call _ w) as [[[messages nextCursor]|e] w1]; [|reflexivity].
  destruct cb; run;
    (destruct (String.eqb nextCursor ""); [reflexivity|apply IH]).
Qed.

Lemma fetchAllMessages_flags fuel options f r progress cb t0 w :
  fetchAllMessages fuel (flags options f r) progress cb t0 w
  = fetchAllMessages fuel options progress cb t0 w.
Proof.
  unfold fetchAllMessages, bind. by rewrite fetchPages_flags.
Qed.

Lemma processExportData_flags channel messages users options f r t0 w :
  processExportData version channel messages users (flags options f r) t0 w
  = processExportData version channel messages users options t0 w.
Proof. reflexivity. Qed.

Lemma generateOutputFile_flags exportData options f r w :
  generateOutputFile exportData (flags options f r) w
  = generateOutputFile exportData options w.
Proof. reflexivity. Qed.

Lemma ExportChannel_flags fuel options f r cb w :
  ExportChannel version fuel (flags options f r) cb w
  = ExportChannel version fuel options cb w.
Proof.
  unfold ExportChannel, bind.
  destruct (time_Now w) as [startTime w0].
  destruct (report cb _ w0) as [u1 w1].
  destruct (enterStage cb startTime _ _ _ _ w1) as [p1 w2].
  destruct (time_Now w2) as [t1 w3].
  change (ExportOptions.ChannelID (flags options f r))
    with (ExportOptions.ChannelID options).
  destruct (fetchChannelInfo _ w3) as [[channel|e] w4]; [|reflexivity].
  destruct (time_Since t1 w4) as [d1 w5].
  destruct (enterStage cb startTime _ _ _ _ w5) as [p2 w6].
  destruct (time_Now w6) as [t2 w7].
  rewrite fetchAllMessages_flags.
  destruct (fetchAllMessages fuel options p2 cb startTime w7)
    as [[[[messages|e] p3]|] w8]; reflexivity.
Qed.

Lemma forEach_convertFile files :
  forall w,
    map ExportFile.ID (forEach convertFile files w).1 = map File.ID files.
Proof.
  induction files as [|file files IH]; intros w; [reflexivity|].
  simpl. run.
  specialize (IH (World.mk (World.apiCalls w) (S (World.clockReads w))
                    (World.rangeLoops w) (World.stdout w) (World.reported w)
                    (World.files w) (World.dirs w))).
  destruct (forEach convertFile files _) as [bs w']. simpl in *.
  by rewrite IH.
Qed.

Lemma ConvertToExportMessage_content msg w :
  ExportMessage.Reactions (ConvertToExportMessage msg w).1
    = map convertReaction (Message.Reactions msg) /\
  map ExportFile.ID (ExportMessage.Files (ConvertToExportMessage msg w).1)
    = map File.ID (Message.Files msg).
Proof.
  destruct msg as [ty user text ts tts rc rs thread at_ fs re ed bot un st].
  simpl. unfold bind, ret.
  pose proof (forEach_convertFile fs w) as Hfiles.
  destruct (forEach convertFile fs w) as [files w1].
  match goal with
  | |- context [let (_, _) := ?m in _] => destruct m as [replies w2]
  end.
  simpl in *. by split.
Qed.

(** C9, as the code has it.  The two content flags are read nowhere: an
    export run, the document it writes included, is the same whatever
    their values; every reaction and every file of a message is in the
    converted message; and the export metadata holds neither flag. *)
Theorem ExportChannel_ignores_content_flags
    fuel options files1 reactions1 files2 reactions2 cb w :
  ExportChannel version fuel (flags options files1 reactions1) cb w
  = ExportChannel version fuel (flags options files2 reactions2) cb w /\
  (forall channel messages users t0 w',
     processExportData version channel messages users
       (flags options files1 reactions1) t0 w'
     = processExportData version channel messages users
         (flags options files2 reactions2) t0 w') /\
  (forall msg w',
     ExportMessage.Reactions (ConvertToExportMessage msg w').1
       = map convertReaction (Message.Reactions msg) /\
     map ExportFile.ID
       (ExportMessage.Files (ConvertToExportMessage msg w').1)
       = map File.ID (Message.Files msg)).
Proof.
  split; [|split].
  - by rewrite !ExportChannel_flags.
  - intros. by rewrite !processExportData_flags.
  - apply ConvertToExportMessage_content.
Qed.

End ContentFlags.

(** The metadata of two exports that differ in the flags is the same: it
    does not hold them. *)
Lemma ExportMetadata_without_content_flags :
  ~ (forall (rt : GoRuntime) version channel messages users o1 o2 t0 w,
       ChannelExport.ExportInfo
         (processExportData version channel messages users o1 t0 w).1.1
       = ChannelExport.ExportInfo
           (processExportData version channel messages users o2 t0 w).1.1 ->
       ExportOptions.IncludeFiles o1 = ExportOptions.IncludeFiles o2 /\
       ExportOptions.IncludeReactions o1 = ExportOptions.IncludeReactions o2).
Proof.
  intros H.
  specialize (H (Std.runtime 0) "1.0" Scenario.general [] ∅
                (Scenario.options "")
                (ExportOptions.withContentFlags (Scenario.options "")
                   false false)
                Scenario.epoch World.init eq_refl) as [H _].
  discriminate.
Qed.

(** ** Further properties of the pipeline *)

(** *** The channel lookup *)

Section ChannelLookup.
Context {client : SlackClientInterface}.

(** [fetchChannelInfo] answers with a channel of the list that carries the
    requested id, and reports the id as not found exactly when no channel
    of the list carries it. *)
Theorem fetchChannelInfo_lookup channelID w channels :
  GetChannels (World.apiCalls w) = Ok channels ->
  match (fetchChannelInfo channelID w).1 with
  | Ok channel => In channel channels /\ Channel.ID channel = channelID
  | Err e =>
      Forall (fun ch => Channel.ID ch <> channelID) channels /\
      e = "channel with ID " +:+ channelID +:+ " not found"
  end.
Proof.
  intros Hget. unfold fetchChannelInfo. run. rewrite Hget.
  destruct (List.find _ channels) as [channel|] eqn:E; simpl.
  - apply find_some in E as [Hin Heq]. split; [done|].
    by apply String.eqb_eq.
  - split; [|done]. apply Forall_forall. intros ch Hin%list_elem_of_In.
    apply (find_none _ _ E) in Hin. by apply String.eqb_neq.
Qed.

(** A failure of the remote listing is passed on, wrapped. *)
Lemma fetchChannelInfo_remote_error channelID w e :
  GetChannels (World.apiCalls w) = Err e ->
  (fetchChannelInfo channelID w).1 = Err ("failed to get channels: " +:+ e).
Proof. intros Hget. unfold fetchChannelInfo. run. by rewrite Hget. Qed.

End ChannelLookup.

Lemma fetchChannelInfo_lookup_witness :
  match (fetchChannelInfo (client := Scenario.workspace [] (Ok []))
           "C123456" World.init).1 with
  | Ok channel =>
      In channel [Scenario.general] /\ Channel.ID channel = "C123456"
  | Err e =>
      Forall (fun ch => Channel.ID ch <> "C123456") [Scenario.general] /\
      e = "channel with ID " +:+ "C123456" +:+ " not found"
  end.
Proof.
  apply (fetchChannelInfo_lookup
           (client := Scenario.workspace [] (Ok [])) "C123456" World.init
           [Scenario.general]).
  reflexivity.
Defined.

(** *** The date filter and the fetched history *)

Section DateRangeFilter.
Context {rt : GoRuntime} {client : SlackClientInterface}.

(** [t] lies in the range: not before the lower bound and not after the
    upper bound, where they are given. *)
Definition inRange (dateFrom dateTo : option Time.t) (t : Time.t) : Prop :=
  (forall from, dateFrom = Some from -> Time.Before t from = false) /\
  (forall to, dateTo = Some to -> Time.After t to = false).

Lemma inDateRange_true dateFrom dateTo msg :
  inDateRange dateFrom dateTo msg = true <->
  exists t,
    ParseSlackTimestamp (Message.Timestamp msg) = Ok t /\
    inRange dateFrom dateTo t.
Proof.
  unfold inDateRange, inRange.
  destruct (ParseSlackTimestamp (Message.Timestamp msg)) as [t|e].
  - split.
    + intros H. exists t. split; [done|].
      destruct dateFrom as [from|], dateTo as [to|];
        repeat match type of H with
        | context [Time.Before ?a ?b] => destruct (Time.Before a b) eqn:?
        | context [Time.After ?a ?b] => destruct (Time.After a b) eqn:?
        end; try discriminate; split; intros ? [= <-]; done.
    + intros (t' & [= <-] & Hfrom & Hto).
      destruct dateFrom as [from|]; [rewrite (Hfrom from eq_refl)|];
        (destruct dateTo as [to|]; [by rewrite (Hto to eq_refl)|done]).
  - split; [done|]. by intros (? & ? & _).
Qed.

(** With a date range, the filter keeps exactly the messages whose
    timestamp parses to a time within the range, both bounds included, and
    it keeps them in the order they came in. *)
Theorem filterMessagesByDate_inclusive messages dateFrom dateTo :
  dateFrom <> None \/ dateTo <> None ->
  (forall msg,
     In msg (filterMessagesByDate messages dateFrom dateTo) <->
     In msg messages /\
     exists t,
       ParseSlackTimestamp (Message.Timestamp msg) = Ok t /\
       inRange dateFrom dateTo t) /\
  sublist (filterMessagesByDate messages dateFrom dateTo) messages /\
  (forall t, inRange (Some t) (Some t) t).
Proof.
  intros Hrange. rewrite filterMessagesByDate_range by done.
  split; [|split].
  - intros msg. rewrite filter_In, inDateRange_true. reflexivity.
  - clear. induction messages as [|m ms IH]; simpl; [done|].
    destruct (inDateRange dateFrom dateTo m);
      [by apply sublist_skip|by apply sublist_cons].
  - intros t. unfold inRange, Time.Before, Time.After.
    split; intros ? [= <-]; by rewrite !Z.ltb_irrefl, Z.eqb_refl.
Qed.

End DateRangeFilter.

Lemma filterMessagesByDate_inclusive_witness :
  let first := Scenario.message "U1" "1704067200.000000" "" 0 in
  let second := Scenario.message "U1" "1704153600.000000" "" 0 in
  let third := Scenario.message "U1" "1704240000.000000" "" 0 in
  let day := Some (Time.Unix 1704153600 0) in
  In second
    (filterMessagesByDate (rt := Std.runtime 0) [first; second; third]
       day day) /\
  ~ In first
      (filterMessagesByDate (rt := Std.runtime 0) [first; second; third]
         day day).
Proof.
  intros first second third day.
  destruct (filterMessagesByDate_inclusive (rt := Std.runtime 0)
              [first; second; third] day day) as (Hin & _ & Hself).
  { left. discriminate. }
  split.
  - apply (proj2 (Hin second)). split; [simpl; tauto|].
    exists (Time.Unix 1704153600 0). split; [by vm_compute|apply Hself].
  - intros H. destruct (proj1 (Hin first) H) as (_ & t & Ht & Hfrom & _).
    vm_compute in Ht. injection Ht as <-.
    specialize (Hfrom _ eq_refl). vm_compute in Hfrom. discriminate Hfrom.
Defined.

(** More workspaces for the examples. *)

Module Remote.

(** A workspace whose [k]-th call is a history request answered by the
    [k]-th entry of [pages]. *)
Definition paged (pages : list (result (list Message.t * string)))
    : SlackClientInterface := {|
  GetChannels := fun _ => Ok [Scenario.general];
  GetChannelHistory := fun k _ _ _ => default (Ok ([], "")) (pages !! k);
  GetThreadReplies := fun _ _ _ => Ok [];
  GetUsers := fun _ => Ok [Scenario.alice] |}.

End Remote.

Section FetchedHistory.
Context {rt : GoRuntime} {client : SlackClientInterface}.

(** The remote returned [msg] in some page of the channel's history. *)
Definition delivered (channelID : string) (msg : Message.t) : Prop :=
  exists k cursor page next,
    GetChannelHistory k channelID 1000 cursor = Ok (page, next) /\
    In msg page.

Lemma filterMessagesByDate_subset messages dateFrom dateTo msg :
  In msg (filterMessagesByDate messages dateFrom dateTo) -> In msg messages.
Proof.
  unfold filterMessagesByDate.
  destruct dateFrom, dateTo; try done; by intros [? _]%filter_In.
Qed.

Lemma filterMessagesByDate_kept messages dateFrom dateTo msg :
  dateFrom <> None \/ dateTo <> None ->
  In msg (filterMessagesByDate messages dateFrom dateTo) ->
  inDateRange dateFrom dateTo msg = true.
Proof.
  intros Hrange. rewrite filterMessagesByDate_range by done.
  by intros [_ ?]%filter_In.
Qed.

(** What the loop keeps true of the accumulated messages. *)
Lemma fetchPages_Forall (P : Message.t -> Prop) fuel options cb t0 :
  (forall k cursor page next msg,
     GetChannelHistory k (ExportOptions.ChannelID options) 1000 cursor
       = Ok (page, next) ->
     In msg (filterMessagesByDate page (ExportOptions.DateFrom options)
               (ExportOptions.DateTo options)) ->
     P msg) ->
  forall all cursor pages progress w msgs progress' w',
    Forall P all ->
    fetchPages fuel options cb t0 all cursor pages progress w
      = (Some (Ok msgs, progress'), w') ->
    Forall P msgs.
Proof.
  intros Hpage.
  induction fuel as [|fuel IH];
    intros all cursor pages progress w msgs progress' w' Hall H;
    [discriminate H|].
  simpl in H. unfold bind in H.
  destruct (call _ w) as [[[messages nextCursor]|e] w1] eqn:Ecall;
    [|discriminate H].
  assert (Hget : GetChannelHistory (World.apiCalls w)
                   (ExportOptions.ChannelID options) 1000 cursor
                 = Ok (messages, nextCursor)).
  { unfold call in Ecall. by injection Ecall as -> _. }
  assert (Hall' : Forall P (all ++ filterMessagesByDate messages
                              (ExportOptions.DateFrom options)
                              (ExportOptions.DateTo options))).
  { apply Forall_app. split; [done|]. apply Forall_forall.
    intros msg Hin%list_elem_of_In. eauto. }
  destruct cb; run;
    (destruct (String.eqb nextCursor "");
     [by injection H as <- _ _|by eapply IH]).
Qed.

(** Every message of the fetched history was delivered by the remote for
    this channel, and, when a date range is given, has a timestamp that
    parses to a time within the range. *)
Theorem fetchAllMessages_members
    fuel options progress cb t0 w msgs progress' w' :
  fetchAllMessages fuel options progress cb t0 w
    = (Some (Ok msgs, progress'), w') ->
  Forall
    (fun msg =>
       delivered (ExportOptions.ChannelID options) msg /\
       (ExportOptions.DateFrom options <> None
        \/ ExportOptions.DateTo options <> None ->
        exists t,
          ParseSlackTimestamp (Message.Timestamp msg) = Ok t /\
          inRange (ExportOptions.DateFrom options)
            (ExportOptions.DateTo options) t))
    msgs.
Proof.
  unfold fetchAllMessages, bind, ret.
  destruct (fetchPages fuel options cb t0 [] "" 0 progress w)
    as [[[[all|e] p]|] w1] eqn:E; intros H; try discriminate H.
  injection H as <- _ _.
  rewrite sort_Slice_perm.
  eapply fetchPages_Forall; [|constructor|exact E].
  intros k cursor page next msg Hget Hin. split.
  - exists k, cursor, page, next. split; [done|].
    by eapply filterMessagesByDate_subset.
  - intros Hrange. apply inDateRange_true.
    by eapply filterMessagesByDate_kept.
Qed.

(** The error of the loop is the error of one page request, with the
    number of the page. *)
Lemma fetchPages_error fuel options cb t0 :
  forall all cursor pages progress w e progress' w',
    fetchPages fuel options cb t0 all cursor pages progress w
      = (Some (Err e, progress'), w') ->
    exists j cursor' e0,
      GetChannelHistory (World.apiCalls w + j)
        (ExportOptions.ChannelID options) 1000 cursor' = Err e0 /\
      e = "failed to fetch messages (page "
          +:+ pretty (GoInt.wrap64 (pages + Z.of_nat j + 1)) +:+ "): "
          +:+ e0.
Proof.
  induction fuel as [|fuel IH];
    intros all cursor pages progress w e progress' w' H;
    [discriminate H|].
  simpl in H. unfold bind in H.
  destruct (call _ w) as [[[messages nextCursor]|e0] w1] eqn:Ecall.
  - assert (Hcalls : World.apiCalls w1 = S (World.apiCalls w)).
    { unfold call in Ecall. by injection Ecall as _ <-. }
    assert (Hnext : forall progress1 w2,
      World.apiCalls w2 = S (World.apiCalls w) ->
      fetchPages fuel options cb t0
        (all ++ filterMessagesByDate messages
                  (ExportOptions.DateFrom options)
                  (ExportOptions.DateTo options))
        nextCursor (GoInt.add pages 1) progress1 w2
        = (Some (Err e, progress'), w') ->
      exists j cursor' e0,
        GetChannelHistory (World.apiCalls w + j)
          (ExportOptions.ChannelID options) 1000 cursor' = Err e0 /\
        e = "failed to fetch messages (page "
            +:+ pretty (GoInt.wrap64 (pages + Z.of_nat j + 1)) +:+ "): "
            +:+ e0).
    { intros progress1 w2 Hw2 H2.
      apply IH in H2 as (j & cursor' & e1 & Hget & ->).
      exists (S j), cursor', e1. split.
      - rewrite Hw2 in Hget.
        by replace (World.apiCalls w + S j)%nat
             with (S (World.apiCalls w) + j)%nat by lia.
      - assert (Hn : GoInt.wrap64 (GoInt.add pages 1 + Z.of_nat j + 1)
                     = GoInt.wrap64 (pages + Z.of_nat (S j) + 1)).
        { unfold GoInt.add. rewrite <- Z.add_assoc, GoInt.wrap64_add_l.
          f_equal. lia. }
        by rewrite Hn. }
    destruct cb; run;
      (destruct (String.eqb nextCursor ""); [discriminate H|]);
      (eapply Hnext; [|exact H]); simpl;
      unfold call in Ecall; by injection Ecall as _ <-.
  - unfold ret in H. injection H as <- _ _.
    exists 0%nat, cursor, e0. split.
    + rewrite Nat.add_0_r. unfold call in Ecall. by injection Ecall as -> _.
    + unfold GoInt.add. by rewrite Z.add_0_r.
Qed.

(** A failed page request ends the fetch: the result is the error of that
    request, wrapped with the number of the page, and no message list. *)
Theorem fetchAllMessages_page_error
    fuel options progress cb t0 w e progress' w' :
  fetchAllMessages fuel options progress cb t0 w
    = (Some (Err e, progress'), w') ->
  exists j cursor e0,
    GetChannelHistory (World.apiCalls w + j)
      (ExportOptions.ChannelID options) 1000 cursor = Err e0 /\
    e = "failed to fetch messages (page "
        +:+ pretty (GoInt.wrap64 (Z.of_nat j + 1)) +:+ "): " +:+ e0.
Proof.
  unfold fetchAllMessages, bind, ret.
  destruct (fetchPages fuel options cb t0 [] "" 0 progress w)
    as [[[[all|e1] p]|] w1] eqn:E; intros H; try discriminate H.
  injection H as <- _ _.
  apply fetchPages_error in E as (j & cursor & e0 & Hget & ->).
  exists j, cursor, e0. split; [done|]. by rewrite Z.add_0_l.
Qed.

End FetchedHistory.

Lemma fetchAllMessages_members_witness :
  let early := Scenario.message "U1" "1704067200.000000" "" 0 in
  let late := Scenario.message "U2" "1704153600.000000" "" 0 in
  let client := Remote.paged [Ok ([late], "next"); Ok ([early], "")] in
  let options :=
    ExportOptions.mk "C123456" "general" true true true None
      (Some (Time.Unix 1704153600 0)) "foo.json" "json" "" in
  Forall
    (fun msg =>
       delivered (client := client) "C123456" msg /\
       (ExportOptions.DateFrom options <> None
        \/ ExportOptions.DateTo options <> None ->
        exists t,
          ParseSlackTimestamp (rt := Std.runtime 0) (Message.Timestamp msg)
            = Ok t /\
          inRange (ExportOptions.DateFrom options)
            (ExportOptions.DateTo options) t))
    [early; late].
Proof.
  intros early late client options.
  eapply (fetchAllMessages_members (rt := Std.runtime 0) (client := client)
            2%nat options Scenario.noProgress false Scenario.epoch
            World.init [early; late]).
  reflexivity.
Defined.

Lemma fetchAllMessages_page_error_witness :
  let client :=
    Remote.paged [Ok ([Scenario.message "U1" "100.1" "" 0], "next");
                  Err "rate limited"] in
  exists j cursor e0,
    GetChannelHistory (SlackClientInterface := client)
      (World.apiCalls World.init + j) "C123456" 1000 cursor = Err e0 /\
    "failed to fetch messages (page 2): rate limited"
    = "failed to fetch messages (page "
      +:+ pretty (GoInt.wrap64 (Z.of_nat j + 1)) +:+ "): " +:+ e0.
Proof.
  intros client.
  eapply (fetchAllMessages_page_error (rt := Std.runtime 0)
            (client := client) 2%nat (Scenario.options "")
            Scenario.noProgress false Scenario.epoch World.init).
  reflexivity.
Defined.

(** *** Thread resolution: what it leaves alone *)

Section ThreadFrame.
Context {rt : GoRuntime} {client : SlackClientInterface}.

Lemma setThread_same msg : Message.setThread msg (Message.Thread msg) = msg.
Proof. by destruct msg. Qed.

Lemma threadedFrom_complete i messages j msg :
  messages !! j = Some msg -> hasThread msg = true ->
  (i + j)%nat ∈ threadedFrom i messages.
Proof.
  revert i j. induction messages as [|m rest IH]; intros i j; [done|].
  destruct j as [|j]; simpl.
  - intros [= ->] ->. rewrite Nat.add_0_r. by left.
  - intros Hj Ht. specialize (IH (S i) j Hj Ht).
    replace (i + S j)%nat with (S i + j)%nat by lia.
    destruct (hasThread m); [by right|done].
Qed.

Lemma threadedFrom_length i messages :
  length (threadedFrom i messages) = length (List.filter hasThread messages).
Proof.
  revert i. induction messages as [|m rest IH]; intros i; simpl; [done|].
  destruct (hasThread m); simpl; by rewrite IH.
Qed.

(** One remote call for each pending message. *)
Lemma threadLoop_calls channelID cb t0 pending :
  forall i total messages progress w,
    Forall (fun j => (j < length messages)%nat) pending ->
    World.apiCalls
      (threadLoop i pending total channelID cb t0 messages progress w).2
    = (World.apiCalls w + length pending)%nat.
Proof.
  induction pending as [|j0 rest IH];
    intros i total messages progress w Hvalid; simpl; [lia|].
  apply Forall_cons in Hvalid as [Hlt Hvalid].
  destruct (lookup_lt_is_Some_2 messages j0 Hlt) as [m0 Hm0].
  rewrite Hm0. unfold bind at 1. unfold call at 1.
  destruct (GetThreadReplies (World.apiCalls w) channelID
              (Message.ThreadTS m0)) as [replies|e].
  - destruct cb; run; rewrite IH; simpl; rewrite ?length_insert; (lia || done).
  - run. rewrite IH; simpl; (lia || done).
Qed.



End ThreadFrame.


(** *** User resolution: the whole map *)

Section UserMap.
Context {rt : GoRuntime} {client : SlackClientInterface}.

Lemma collectUserIDs1_only msg :
  forall userIDs uid b,
    collectUserIDs1 userIDs msg !! uid = Some b ->
    userIDs !! uid = Some b \/
    (uid <> "" /\
     exists node, In node (Message.nodes1 msg) /\ Message.User node = uid).
Proof.
  induction msg as [msg IH] using Message.tree_ind.
  assert (Hforest : forall replies,
    Forall (fun m => forall userIDs uid b,
      collectUserIDs1 userIDs m !! uid = Some b ->
      userIDs !! uid = Some b \/
      (uid <> "" /\
       exists node, In node (Message.nodes1 m) /\ Message.User node = uid))
      replies ->
    forall userIDs uid b,
      fold_left collectUserIDs1 replies userIDs !! uid = Some b ->
      userIDs !! uid = Some b \/
      (uid <> "" /\
       exists node, In node (Message.nodes replies)
                    /\ Message.User node = uid)).
  { clear. induction 1 as [|r replies Hr _ IHr]; intros userIDs uid b H;
      simpl in H; [by left|].
    apply IHr in H as [H|(Hne & node & Hin & Hu)].
    - apply Hr in H as [H|(Hne & node & Hin & Hu)]; [by left|].
      right. split; [done|]. exists node. split; [|done].
      rewrite nodes_cons. apply in_or_app. by left.
    - right. split; [done|]. exists node. split; [|done].
      rewrite nodes_cons. apply in_or_app. by right. }
  intros userIDs uid b H. rewrite nodes1_eq.
  destruct msg as [ty user text ts tts rc rs thread at_ fs re ed bot un st].
  simpl in *. apply (Hforest _ IH) in H as [H|(Hne & node & Hin & Hu)].
  - destruct (String.eqb user "") eqn:E; simpl in H; [by left|].
    apply String.eqb_neq in E.
    destruct (decide (user = uid)) as [->|Hneq].
    + right. split; [done|]. eexists. split; [by left|done].
    + rewrite lookup_insert_ne in H by done. by left.
  - right. split; [done|]. exists node. split; [by right|done].
Qed.

Lemma collectUserIDs_only msgs uid b :
  collectUserIDs ∅ msgs !! uid = Some b -> uid <> "" /\ authorOf uid msgs.
Proof.
  unfold collectUserIDs, authorOf.
  assert (H : forall userIDs : gmap string bool,
    fold_left collectUserIDs1 msgs userIDs !! uid = Some b ->
    userIDs !! uid = Some b \/
    (uid <> "" /\
     exists node, In node (Message.nodes msgs) /\ Message.User node = uid)).
  { induction msgs as [|m msgs IH]; intros userIDs H; simpl in H; [by left|].
    apply IH in H as [H|(Hne & node & Hin & Hu)].
    - apply collectUserIDs1_only in H as [H|(Hne & node & Hin & Hu)];
        [by left|].
      right. split; [done|]. exists node. split; [|done].
      rewrite nodes_cons. apply in_or_app. by left.
    - right. split; [done|]. exists node. split; [|done].
      rewrite nodes_cons. apply in_or_app. by right. }
  intros Hb. by apply H in Hb as [Hb|Hb].
Qed.

Lemma neededUsers_entry userIDs allUsers uid u :
  neededUsers userIDs allUsers !! uid = Some u ->
  User.ID u = uid /\ In u allUsers /\ userIDs !! uid = Some true.
Proof.
  unfold neededUsers.
  assert (H : forall acc : gmap string User.t,
    fold_left
      (fun users user =>
         if default false (userIDs !! User.ID user)
         then <[User.ID user := user]> users else users) allUsers acc
      !! uid = Some u ->
    acc !! uid = Some u \/
    (User.ID u = uid /\ In u allUsers /\ userIDs !! uid = Some true)).
  { induction allUsers as [|d ds IH]; intros acc H; simpl in H; [by left|].
    apply IH in H as [H|(? & ? & ?)]; [|right; simpl; tauto].
    destruct (userIDs !! User.ID d) as [[]|] eqn:E; simpl in H;
      try by left.
    destruct (decide (User.ID d = uid)) as [<-|Hne].
    - rewrite lookup_insert_eq in H. injection H as <-.
      right. simpl. tauto.
    - rewrite lookup_insert_ne in H by done. by left. }
  intros Hu. by apply H in Hu as [Hu|Hu].
Qed.

Lemma neededUsers_present userIDs allUsers uid :
  userIDs !! uid = Some true ->
  (exists d, In d allUsers /\ User.ID d = uid) ->
  is_Some (neededUsers userIDs allUsers !! uid).
Proof.
  intros Hid. unfold neededUsers.
  assert (H : forall acc : gmap string User.t,
    is_Some (acc !! uid) \/ (exists d, In d allUsers /\ User.ID d = uid) ->
    is_Some (fold_left
      (fun users user =>
         if default false (userIDs !! User.ID user)
         then <[User.ID user := user]> users else users) allUsers acc
      !! uid)).
  { induction allUsers as [|d ds IH]; intros acc Hacc; simpl.
    - destruct Hacc as [?|(? & [] & _)]. done.
    - apply IH. destruct Hacc as [Hacc|(d' & [<-|Hin] & Hd)].
      + left. destruct (default false (userIDs !! User.ID d)); [|done].
        destruct (decide (User.ID d = uid)) as [<-|Hne].
        * by rewrite lookup_insert_eq.
        * by rewrite lookup_insert_ne.
      + left. rewrite Hd, Hid. simpl. by rewrite lookup_insert_eq.
      + right. eauto. }
  intros Hd. apply H. by right.
Qed.

Lemma addPlaceholders_entry ids users uid u :
  addPlaceholders ids users !! uid = Some u ->
  users !! uid = Some u \/
  (users !! uid = None /\ In uid ids.*1 /\ u = placeholder uid).
Proof.
  unfold addPlaceholders. revert users.
  induction ids as [|[k b] ids IH]; intros users H; simpl in *; [by left|].
  apply IH in H as [H|(Hnone & Hin & ->)].
  - destruct (users !! k) eqn:E; [by left|].
    destruct (decide (k = uid)) as [->|Hne].
    + rewrite lookup_insert_eq in H. injection H as <-. right. tauto.
    + rewrite lookup_insert_ne in H by done. by left.
  - right. split; [|tauto].
    destruct (users !! k) eqn:E; [done|].
    destruct (decide (k = uid)) as [->|Hne].
    + by rewrite lookup_insert_eq in Hnone.
    + by rewrite lookup_insert_ne in Hnone.
Qed.

(** The user map holds the referenced users only: its keys are exactly
    the non-empty ids that are the author of a message or of a reply,
    whatever the directory contains. *)
Theorem fetchUserInfo_only_referenced messages w allUsers :
  GetUsers (World.apiCalls w) = Ok allUsers ->
  exists users,
    (fetchUserInfo messages w).1 = Ok users /\
    forall uid,
      is_Some (users !! uid) <-> uid <> "" /\ authorOf uid messages.
Proof.
  intros Hget. unfold fetchUserInfo. run. rewrite Hget. simpl.
  eexists. split; [reflexivity|]. intros uid. split.
  - intros [u Hu].
    apply addPlaceholders_entry in Hu as [Hu|(_ & Hin & _)].
    + apply neededUsers_entry in Hu as (_ & _ & Hid).
      by eapply collectUserIDs_only.
    + apply in_map_iff in Hin as ([k b] & <- & Hin).
      apply list_elem_of_In in Hin. rewrite map_range_perm in Hin.
      apply elem_of_map_to_list in Hin. by eapply collectUserIDs_only.
  - intros [Hne Hauthor].
    pose proof (collectUserIDs_author _ _ Hne Hauthor) as Hid.
    destruct (neededUsers (collectUserIDs ∅ messages) allUsers !! uid)
      as [u|] eqn:E.
    + exists u. by apply addPlaceholders_kept.
    + exists (placeholder uid). apply addPlaceholders_missing; [done|].
      apply in_map_iff. exists (uid, true). split; [done|].
      apply list_elem_of_In. rewrite map_range_perm.
      by apply elem_of_map_to_list.
Qed.

(** Every entry of the user map is filed under its own id and is a user
    of the directory; it is the placeholder only when the directory has
    no user with that id. *)
Theorem fetchUserInfo_entries messages w allUsers :
  GetUsers (World.apiCalls w) = Ok allUsers ->
  exists users,
    (fetchUserInfo messages w).1 = Ok users /\
    forall uid u,
      users !! uid = Some u ->
      User.ID u = uid /\
      (In u allUsers \/
       (u = placeholder uid /\
        Forall (fun d => User.ID d <> uid) allUsers)).
Proof.
  intros Hget. unfold fetchUserInfo. run. rewrite Hget. simpl.
  eexists. split; [reflexivity|]. intros uid u Hu.
  apply addPlaceholders_entry in Hu as [Hu|(Hnone & Hin & ->)].
  - apply neededUsers_entry in Hu as (? & ? & _). tauto.
  - split; [done|]. right. split; [done|].
    apply in_map_iff in Hin as ([k b] & <- & Hin).
    apply list_elem_of_In in Hin. rewrite map_range_perm in Hin.
    apply elem_of_map_to_list in Hin. simpl in *.
    assert (Hk : collectUserIDs ∅ messages !! k = Some true).
    { destruct b; [done|].
      destruct (collectUserIDs_only _ _ _ Hin) as [Hne Hau].
      by apply collectUserIDs_author. }
    apply Forall_forall. intros d Hd%list_elem_of_In Hid.
    assert (Hsome : is_Some (neededUsers (collectUserIDs ∅ messages)
                               allUsers !! k))
      by (apply neededUsers_present; eauto).
    rewrite Hnone in Hsome. by destruct Hsome.
Qed.

End UserMap.

Lemma fetchUserInfo_only_referenced_witness :
  let messages := [Scenario.message "U999999" "1704067260.000000" "" 0;
                   Scenario.message "" "1704067270.000000" "" 0] in
  exists users,
    (fetchUserInfo (rt := Std.runtime 0)
       (client := Scenario.workspace messages (Ok [])) messages
       World.init).1 = Ok users /\
    forall uid,
      is_Some (users !! uid) <-> uid <> "" /\ authorOf uid messages.
Proof.
  intros messages.
  apply (fetchUserInfo_only_referenced (rt := Std.runtime 0)
           (client := Scenario.workspace messages (Ok [])) messages
           World.init [Scenario.alice]).
  reflexivity.
Defined.

Lemma fetchUserInfo_entries_witness :
  let messages := [Scenario.message "U123456" "1704067260.000000" "" 0;
                   Scenario.message "U999999" "1704067270.000000" "" 0] in
  exists users,
    (fetchUserInfo (rt := Std.runtime 0)
       (client := Scenario.workspace messages (Ok [])) messages
       World.init).1 = Ok users /\
    forall uid u,
      users !! uid = Some u ->
      User.ID u = uid /\
      (In u [Scenario.alice] \/
       (u = placeholder uid /\
        Forall (fun d => User.ID d <> uid) [Scenario.alice])).
Proof.
  intros messages.
  apply (fetchUserInfo_entries (rt := Std.runtime 0)
           (client := Scenario.workspace messages (Ok [])) messages
           World.init [Scenario.alice]).
  reflexivity.
Defined.

(** *** Statistics: the counters and the two histograms *)

Section Counters.
Context {rt : GoRuntime}.

#[local] Arguments Message.nodes : simpl never.

(** The sum of a list of Go [int]s, before any wrap-around. *)
Definition sumZ (l : list Z) : Z := foldr Z.add 0 l.

Lemma sumZ_cons x l : sumZ (x :: l) = x + sumZ l.
Proof. reflexivity. Qed.

#[local] Arguments sumZ : simpl never.

(** Whether a message carries replies: [len(msg.Thread) > 0]. *)
Definition threaded (msg : Message.t) : bool :=
  match Message.Thread msg with [] => false | _ :: _ => true end.

(** What one round of the loop of [countMessages] adds for the message
    itself, the recursive call apart. *)
Definition countNode (stats : ExportStatistics.t) (msg : Message.t)
    : ExportStatistics.t :=
  ExportStatistics.mk
    (GoInt.add (ExportStatistics.TotalMessages stats) 1)
    (if threaded msg
     then GoInt.add (ExportStatistics.TotalThreads stats) 1
     else ExportStatistics.TotalThreads stats)
    (if threaded msg
     then GoInt.add (ExportStatistics.TotalReplies stats)
            (GoInt.len (Message.Thread msg))
     else ExportStatistics.TotalReplies stats)
    (ExportStatistics.TotalUsers stats)
    (GoInt.add (ExportStatistics.TotalAttachments stats)
       (GoInt.len (Message.Attachments msg)))
    (GoInt.add (ExportStatistics.TotalFiles stats)
       (GoInt.len (Message.Files msg)))
    (fold_left (fun n reaction => GoInt.add n (Reaction.Count reaction))
       (Message.Reactions msg) (ExportStatistics.TotalReactions stats))
    (if negb (String.eqb (Message.User msg) "")
     then increment (Message.User msg) (ExportStatistics.MessagesByUser stats)
     else ExportStatistics.MessagesByUser stats)
    (match ParseSlackTimestamp (Message.Timestamp msg) with
     | Ok timestamp =>
         increment (Format_2006_01_02 timestamp)
           (ExportStatistics.MessagesByDate stats)
     | Err _ => ExportStatistics.MessagesByDate stats
     end)
    (ExportStatistics.TopReactions stats)
    (ExportStatistics.ExportDuration stats)
    (ExportStatistics.ProcessingTime stats).

(** The recursion of [countMessages] visits the nodes of the forest in
    preorder. *)
Lemma countMessage_nodes msg :
  forall stats,
    countMessage stats msg = fold_left countNode (Message.nodes1 msg) stats.
Proof.
  induction msg as [msg IH] using Message.tree_ind.
  assert (Hforest : forall replies,
    Forall (fun m => forall stats,
      countMessage stats m = fold_left countNode (Message.nodes1 m) stats)
      replies ->
    forall stats,
      fold_left countMessage replies stats
      = fold_left countNode (Message.nodes replies) stats).
  { clear. induction 1 as [|r replies Hr _ IHr]; intros stats; [done|].
    simpl. rewrite nodes_cons, fold_left_app, <- Hr. apply IHr. }
  intros stats. rewrite nodes1_eq.
  destruct msg as [ty user text ts tts rc rs thread at_ fs re ed bot un st].
  simpl in *. destruct thread as [|r thread]; [done|].
  by rewrite (Hforest _ IH).
Qed.

Lemma countMessages_nodes msgs stats :
  countMessages stats msgs = fold_left countNode (Message.nodes msgs) stats.
Proof.
  unfold countMessages. revert stats.
  induction msgs as [|m msgs IH]; intros stats; [done|].
  simpl. rewrite nodes_cons, fold_left_app, <- countMessage_nodes. apply IH.
Qed.

(** A counter that each step advances by [f] holds the wrapped sum. *)
Lemma fold_counter {S A} (F : S -> Z) (f : A -> Z) (step : S -> A -> S) :
  (forall s a, GoInt.in_range (F s) ->
               F (step s a) = GoInt.wrap64 (F s + f a)) ->
  forall l s, GoInt.in_range (F s) ->
    F (fold_left step l s) = GoInt.wrap64 (F s + sumZ (map f l)).
Proof.
  intros Hstep. induction l as [|a l IH]; intros s Hs; simpl.
  - rewrite Z.add_0_r. symmetry. by apply GoInt.wrap64_id.
  - rewrite IH by (rewrite Hstep by done; apply GoInt.wrap64_range).
    rewrite Hstep by done. rewrite GoInt.wrap64_add_l, sumZ_cons.
    f_equal. lia.
Qed.

Lemma in_range_0 : GoInt.in_range 0.
Proof. unfold GoInt.in_range, GoInt.two63. lia. Qed.

Lemma sumZ_threaded l :
  sumZ (map (fun m => if threaded m then 1 else 0) l)
  = Z.of_nat (length (List.filter threaded l)).
Proof.
  induction l as [|m l IH]; [done|].
  cbn [map List.filter]. rewrite sumZ_cons, IH.
  destruct (threaded m); cbn [length]; lia.
Qed.

Lemma sumZ_replies l :
  sumZ (map (fun m => if threaded m then GoInt.len (Message.Thread m) else 0)
          l)
  = Z.of_nat (list_sum (map (fun m => length (Message.Thread m)) l)).
Proof.
  induction l as [|m l IH]; [done|].
  cbn [map]. rewrite sumZ_cons, IH. unfold threaded, GoInt.len.
  change (list_sum (?x :: ?l)) with (x + list_sum l)%nat.
  destruct (Message.Thread m); cbn [length]; lia.
Qed.

(** The counters of the statistics, each over all the nodes of the
    forest of messages and replies, in Go's 64-bit arithmetic: threads
    are the nodes that carry replies, at any depth; reactions are
    weighted by their [Count]; the users are those of the map. *)
Theorem calculateStatistics_counters messages users w :
  let stats := (calculateStatistics messages users w).1 in
  let nodes := Message.nodes messages in
  ExportStatistics.TotalThreads stats
  = GoInt.wrap64 (Z.of_nat (length (List.filter threaded nodes))) /\
  ExportStatistics.TotalReplies stats
  = GoInt.wrap64 (Z.of_nat (Message.replyTotal messages)) /\
  ExportStatistics.TotalAttachments stats
  = GoInt.wrap64
      (sumZ (map (fun m => GoInt.len (Message.Attachments m)) nodes)) /\
  ExportStatistics.TotalFiles stats
  = GoInt.wrap64 (sumZ (map (fun m => GoInt.len (Message.Files m)) nodes)) /\
  ExportStatistics.TotalReactions stats
  = GoInt.wrap64
      (sumZ (map (fun m => sumZ (map Reaction.Count (Message.Reactions m)))
               nodes)) /\
  ExportStatistics.TotalUsers stats = Z.of_nat (size users).
Proof.
  unfold calculateStatistics. run. rewrite countMessages_nodes.
  split; [|split; [|split; [|split; [|split]]]].
  - rewrite <- sumZ_threaded.
    apply (fold_counter ExportStatistics.TotalThreads
             (fun m => if threaded m then 1 else 0) countNode);
      [|apply in_range_0].
    intros s m Hs. simpl. destruct (threaded m); [done|].
    rewrite Z.add_0_r. symmetry. by apply GoInt.wrap64_id.
  - unfold Message.replyTotal. rewrite <- sumZ_replies.
    apply (fold_counter ExportStatistics.TotalReplies
             (fun m => if threaded m then GoInt.len (Message.Thread m)
                       else 0) countNode);
      [|apply in_range_0].
    intros s m Hs. simpl. destruct (threaded m); [done|].
    rewrite Z.add_0_r. symmetry. by apply GoInt.wrap64_id.
  - apply (fold_counter ExportStatistics.TotalAttachments
             (fun m => GoInt.len (Message.Attachments m)) countNode);
      [done|apply in_range_0].
  - apply (fold_counter ExportStatistics.TotalFiles
             (fun m => GoInt.len (Message.Files m)) countNode);
      [done|apply in_range_0].
  - apply (fold_counter ExportStatistics.TotalReactions
             (fun m => sumZ (map Reaction.Count (Message.Reactions m)))
             countNode);
      [|apply in_range_0].
    intros s m Hs. simpl.
    apply (fold_counter (fun n : Z => n) Reaction.Count
             (fun n reaction => GoInt.add n (Reaction.Count reaction)));
      done.
  - reflexivity.
Qed.

(** A histogram built by [m[key]++] on the keys of a list. *)
Lemma fold_increment (keys : list string) :
  forall (m : gmap string Z) k,
    fold_left (fun m key => increment key m) keys m !! k
    = let n := length (List.filter (String.eqb k) keys) in
      if (n =? 0)%nat then m !! k
      else Some (GoInt.wrap64 (default 0 (m !! k) + Z.of_nat n)).
Proof.
  induction keys as [|key keys IH]; intros m k; [done|].
  cbn [fold_left List.filter]. rewrite IH. clear IH. cbv zeta.
  unfold increment, GoInt.add.
  destruct (String.eqb k key) eqn:E.
  - apply String.eqb_eq in E as <-. rewrite lookup_insert_eq.
    cbn [length].
    generalize (length (List.filter (String.eqb k) keys)). intros n.
    destruct n as [|n]; [done|].
    cbn [Nat.eqb default id]. rewrite GoInt.wrap64_add_l. do 2 f_equal. lia.
  - apply String.eqb_neq in E.
    by rewrite lookup_insert_ne by done.
Qed.

(** A histogram over the nodes, for a step that files each node under
    at most one key. *)
Lemma fold_histogram {S} (F : S -> gmap string Z)
    (key : Message.t -> option string) (step : S -> Message.t -> S) :
  (forall s m, F (step s m)
               = match key m with
                 | Some k => increment k (F s)
                 | None => F s
                 end) ->
  forall l s k,
    F (fold_left step l s) !! k
    = let n := length (List.filter
                         (fun m => bool_decide (key m = Some k)) l) in
      if (n =? 0)%nat then F s !! k
      else Some (GoInt.wrap64 (default 0 (F s !! k) + Z.of_nat n)).
Proof.
  intros Hstep l s k.
  assert (Hkeys : forall l s,
    F (fold_left step l s)
    = fold_left (fun m key => increment key m) (omap key l) (F s)).
  { clear l s. induction l as [|m l IH]; intros s; [done|].
    simpl. rewrite IH, Hstep. by destruct (key m). }
  rewrite Hkeys, fold_increment. cbv zeta.
  assert (Hn : length (List.filter (String.eqb k) (omap key l))
               = length (List.filter
                           (fun m => bool_decide (key m = Some k)) l)).
  { clear. induction l as [|m l IH]; [done|].
    simpl. destruct (key m) as [k'|] eqn:E; simpl.
    - destruct (String.eqb k k') eqn:Ek.
      + apply String.eqb_eq in Ek as <-.
        rewrite bool_decide_eq_true_2 by done. simpl. f_equal. exact IH.
      + apply String.eqb_neq in Ek.
        rewrite bool_decide_eq_false_2 by congruence. exact IH.
    - first [exact IH
            |rewrite bool_decide_eq_false_2 by done; exact IH]. }
  by rewrite Hn.
Qed.

(** [MessagesByUser] maps every non-empty author id to the number of
    nodes of the forest written by it, replies included; messages
    without an author are filed nowhere, and an id that wrote nothing
    is no key. *)
Theorem calculateStatistics_MessagesByUser messages users w uid :
  let stats := (calculateStatistics messages users w).1 in
  let n := length (List.filter
                     (fun m => String.eqb (Message.User m) uid)
                     (Message.nodes messages)) in
  ExportStatistics.MessagesByUser stats !! uid
  = if String.eqb uid "" || (n =? 0)%nat then None
    else Some (GoInt.wrap64 (Z.of_nat n)).
Proof.
  unfold calculateStatistics. run. rewrite countMessages_nodes.
  rewrite (fold_histogram ExportStatistics.MessagesByUser
             (fun m => if negb (String.eqb (Message.User m) "")
                       then Some (Message.User m) else None) countNode).
  2:{ intros s m. simpl. by destruct (String.eqb (Message.User m) ""). }
  cbv zeta. simpl (ExportStatistics.MessagesByUser _). rewrite lookup_empty.
  simpl (default 0 None). rewrite Z.add_0_l.
  assert (Hp : forall m,
    bool_decide ((if negb (String.eqb (Message.User m) "")
                  then Some (Message.User m) else None) = Some uid)
    = negb (String.eqb uid "") && String.eqb (Message.User m) uid).
  { intros m.
    destruct (String.eqb_spec (Message.User m) ""),
      (String.eqb_spec uid ""), (String.eqb_spec (Message.User m) uid);
      simpl; try done; try congruence;
      first [apply bool_decide_eq_true_2|apply bool_decide_eq_false_2];
      congruence. }
  rewrite (filter_ext _ _ Hp).
  destruct (String.eqb uid ""); simpl; [|done].
  by induction (Message.nodes messages).
Qed.

(** The day a node is filed under in [MessagesByDate], if any. *)
Definition dayKey (msg : Message.t) : option string :=
  match ParseSlackTimestamp (Message.Timestamp msg) with
  | Ok timestamp => Some (Format_2006_01_02 timestamp)
  | Err _ => None
  end.

(** [MessagesByDate] maps a day to the number of nodes of the forest
    whose timestamp parses to an instant of that day; nodes whose
    timestamp does not parse are filed nowhere. *)
Theorem calculateStatistics_MessagesByDate messages users w day :
  let stats := (calculateStatistics messages users w).1 in
  let n := length (List.filter
                     (fun m => bool_decide (dayKey m = Some day))
                     (Message.nodes messages)) in
  ExportStatistics.MessagesByDate stats !! day
  = if (n =? 0)%nat then None else Some (GoInt.wrap64 (Z.of_nat n)).
Proof.
  unfold calculateStatistics. run. rewrite countMessages_nodes.
  rewrite (fold_histogram ExportStatistics.MessagesByDate dayKey countNode).
  2:{ intros s m. unfold dayKey. simpl.
      by destruct (ParseSlackTimestamp (Message.Timestamp m)). }
  cbv zeta. simpl (ExportStatistics.MessagesByDate _). rewrite lookup_empty.
  simpl (default 0 None). by rewrite Z.add_0_l.
Qed.

End Counters.

(** *** Statistics: the reactions *)

Section ReactionTotals.
Context {rt : GoRuntime}.

#[local] Arguments Message.nodes : simpl never.

(** [reactionCounts[reaction.Name] += reaction.Count] *)
Definition addReaction (counts : gmap string Z) (reaction : Reaction.t)
    : gmap string Z :=
  addTo (Reaction.Name reaction) (Reaction.Count reaction) counts.

(** All the reactions of a forest, node after node. *)
Definition allReactions (messages : list Message.t) : list Reaction.t :=
  flat_map Message.Reactions (Message.nodes messages).

Lemma collectReactions1_nodes msg :
  forall counts,
    collectReactions1 counts msg
    = fold_left addReaction (flat_map Message.Reactions (Message.nodes1 msg))
        counts.
Proof.
  induction msg as [msg IH] using Message.tree_ind.
  assert (Hforest : forall replies,
    Forall (fun m => forall counts,
      collectReactions1 counts m
      = fold_left addReaction
          (flat_map Message.Reactions (Message.nodes1 m)) counts) replies ->
    forall counts,
      fold_left collectReactions1 replies counts
      = fold_left addReaction
          (flat_map Message.Reactions (Message.nodes replies)) counts).
  { clear. induction 1 as [|r replies Hr _ IHr]; intros counts; [done|].
    simpl. rewrite nodes_cons, flat_map_app, fold_left_app, <- Hr.
    apply IHr. }
  intros counts. rewrite nodes1_eq.
  destruct msg as [ty user text ts tts rc rs thread at_ fs re ed bot un st].
  simpl in *. rewrite fold_left_app. by rewrite (Hforest _ IH).
Qed.

Lemma collectReactions_nodes msgs counts :
  collectReactions counts msgs
  = fold_left addReaction (allReactions msgs) counts.
Proof.
  unfold collectReactions, allReactions. revert counts.
  induction msgs as [|m msgs IH]; intros counts; [done|].
  simpl. rewrite nodes_cons, flat_map_app, fold_left_app,
    <- collectReactions1_nodes.
  apply IH.
Qed.

Lemma fold_addReaction (reactions : list Reaction.t) :
  forall (m : gmap string Z) name,
    fold_left addReaction reactions m !! name
    = match List.filter (fun r => String.eqb (Reaction.Name r) name)
              reactions with
      | [] => m !! name
      | named =>
          Some (GoInt.wrap64 (default 0 (m !! name)
                              + sumZ (map Reaction.Count named)))
      end.
Proof.
  induction reactions as [|r reactions IH]; intros m name; [done|].
  cbn [fold_left List.filter]. rewrite IH. clear IH.
  unfold addReaction, addTo, GoInt.add.
  destruct (String.eqb (Reaction.Name r) name) eqn:E.
  - apply String.eqb_eq in E as <-. rewrite lookup_insert_eq.
    destruct (List.filter _ reactions) as [|r' named]; [|simpl].
    + simpl. by rewrite Z.add_0_r.
    + rewrite GoInt.wrap64_add_l. do 2 f_equal. lia.
  - apply String.eqb_neq in E.
    by rewrite lookup_insert_ne by done.
Qed.

(** The aggregate count of a reaction name is the sum, in Go's 64-bit
    arithmetic, of the [Count] of every reaction of that name on any
    message or reply; a name that no reaction carries is no key. *)
Theorem collectReactions_lookup messages name :
  collectReactions ∅ messages !! name
  = match List.filter (fun r => String.eqb (Reaction.Name r) name)
            (allReactions messages) with
    | [] => None
    | named => Some (GoInt.wrap64 (sumZ (map Reaction.Count named)))
    end.
Proof.
  rewrite collectReactions_nodes, fold_addReaction, lookup_empty.
  destruct (List.filter _ _); [done|]. simpl (default 0 None).
  by rewrite Z.add_0_l.
Qed.

(** [TopReactions] holds the ten most frequent reaction names, or all
    of them when there are fewer: distinct names, each with its
    aggregate count, in descending order of count, and no name left out
    has a higher count than one that is listed. *)
Theorem calculateStatistics_TopReactions messages users w :
  let top := ExportStatistics.TopReactions
               (calculateStatistics messages users w).1 in
  let counts := collectReactions ∅ messages in
  length top = Nat.min (size counts) 10 /\
  NoDup (map ReactionStat.Name top) /\
  (forall r, In r top ->
             counts !! ReactionStat.Name r = Some (ReactionStat.Count r)) /\
  StronglySorted
    (fun a b => ReactionStat.Count b <= ReactionStat.Count a) top /\
  (forall name n r,
     counts !! name = Some n -> ~ In name (map ReactionStat.Name top) ->
     In r top -> n <= ReactionStat.Count r).
Proof.
  unfold calculateStatistics. run.
  set (counts := collectReactions ∅ messages).
  unfold topReactions.
  set (sorted := sort_Slice moreFrequent
                   (map_range (World.rangeLoops w) counts)).
  assert (Hperm : sorted ≡ₚ map_to_list counts)
    by (unfold sorted; by rewrite sort_Slice_perm, map_range_perm).
  assert (Hsorted : SortedBy moreFrequent sorted)
    by (apply sort_Slice_sorted, moreFrequent_StrictWeak).
  assert (Hlen : length sorted = size counts).
  { rewrite (Permutation_length Hperm). apply length_map_to_list. }
  set (k := Z.to_nat (if GoInt.len sorted <? 10 then GoInt.len sorted
                      else 10)).
  assert (Hk : k = Nat.min (size counts) 10).
  { unfold k, GoInt.len. rewrite Hlen.
    destruct (Z.ltb_spec (Z.of_nat (size counts)) 10); lia. }
  clearbody k sorted.
  assert (Hsplit : sorted = take k sorted ++ drop k sorted)
    by (by rewrite take_drop).
  assert (Hnames : map ReactionStat.Name
                     (map (fun p : string * Z => ReactionStat.mk p.1 p.2)
                        (take k sorted))
                   = (take k sorted).*1).
  { rewrite map_map. done. }
  assert (HnodupAll : NoDup sorted.*1).
  { rewrite Hperm. apply NoDup_fst_map_to_list. }
  split; [|split; [|split; [|split]]].
  - rewrite length_map, length_take, Hlen, Hk. lia.
  - rewrite Hnames. eapply sublist_NoDup; [exact HnodupAll|].
    apply fmap_sublist, sublist_take.
  - intros r Hr. apply in_map_iff in Hr as ([name n] & <- & Hin).
    simpl. apply list_elem_of_In in Hin.
    apply elem_of_map_to_list. rewrite <- Hperm.
    eapply elem_of_sublist; [exact Hin|apply sublist_take].
  - rewrite Hsplit in Hsorted. apply StronglySorted_app_1_l in Hsorted.
    eapply (StronglySorted_fmap
              (fun p : string * Z => ReactionStat.mk p.1 p.2)
              (fun a b => moreFrequent b a = false)); [|exact Hsorted].
    intros a b Hab. simpl. by apply moreFrequent_false in Hab.
  - intros name n r Hn Hout Hr.
    apply in_map_iff in Hr as ([name' n'] & <- & Hin). simpl.
    apply list_elem_of_In in Hin.
    assert (Hmem : (name, n) ∈ sorted)
      by (rewrite Hperm; by apply elem_of_map_to_list).
    rewrite Hsplit in Hmem. apply elem_of_app in Hmem as [Hmem|Hmem].
    + exfalso. apply Hout. rewrite Hnames. apply list_elem_of_In.
      apply list_elem_of_fmap. by exists (name, n).
    + rewrite Hsplit in Hsorted.
      pose proof (StronglySorted_app_1_elem_of _ _ _ _ _ Hsorted Hin Hmem)
        as Hle.
      by apply moreFrequent_false in Hle.
Qed.

End ReactionTotals.

(** *** The conversion to the export format *)

Section Conversion.
Context {rt : GoRuntime}.

#[local] Arguments Message.nodes : simpl never.

(** Every node of an exported message, parents before their replies. *)
Fixpoint exportNodes1 (e : ExportMessage.t) : list ExportMessage.t :=
  e :: flat_map exportNodes1 (ExportMessage.Replies e).
Definition exportNodes (es : list ExportMessage.t) : list ExportMessage.t :=
  flat_map exportNodes1 es.

(** What identifies a node and its place in the tree: id, author, text,
    instant and number of replies. *)
Definition outline (msg : Message.t) : string * string * string * Time.t * nat :=
  (Message.Timestamp msg, Message.User msg, Message.Text msg,
   match ParseSlackTimestamp (Message.Timestamp msg) with
   | Ok timestamp => timestamp
   | Err _ => Time.zero
   end,
   length (Message.Thread msg)).
Definition exportOutline (e : ExportMessage.t)
    : string * string * string * Time.t * nat :=
  (ExportMessage.ID e, ExportMessage.User e, ExportMessage.Text e,
   ExportMessage.Timestamp e, length (ExportMessage.Replies e)).

(** The [k]-th reading of the wall clock, as [time.Now()] returns it. *)
Definition reading (k : nat) : Time.t :=
  let (s, n) := time_wallClock k in Time.mk s n Time.Local.

(** The world after [n] more readings of the clock and nothing else. *)
Definition afterReads (n : nat) (w : World.t) : World.t :=
  World.mk (World.apiCalls w) (n + World.clockReads w)
    (World.rangeLoops w) (World.stdout w) (World.reported w)
    (World.files w) (World.dirs w).

Lemma afterReads_0 w : afterReads 0 w = w.
Proof. by destruct w. Qed.

Lemma afterReads_add n k w :
  afterReads n (afterReads k w) = afterReads (n + k) w.
Proof. unfold afterReads. simpl. f_equal. lia. Qed.

(** A file as [convertFile] exports it at a given instant. *)
Definition exportedFile (file : File.t) (now : Time.t) : ExportFile.t :=
  ExportFile.mk (File.ID file) (File.Name file) (File.Title file)
    (File.Mimetype file) (File.Filetype file) (File.Size file)
    (File.URL file) now.

Lemma forEach_convertFile_readings files :
  forall w,
    forEach convertFile files w
    = (imap (fun i file => exportedFile file
                             (reading (World.clockReads w + i))) files,
       afterReads (length files) w).
Proof.
  induction files as [|file files IH]; intros w.
  - simpl. by rewrite afterReads_0.
  - cbn [forEach]. unfold bind at 1. unfold convertFile at 1. run.
    rewrite IH. cbn [bind ret]. unfold bind, ret. simpl.
    f_equal.
    + f_equal.
      * unfold exportedFile, reading. by rewrite Nat.add_0_r.
      * apply imap_ext. intros i f _. simpl. do 2 f_equal. lia.
    + unfold afterReads. simpl. f_equal. lia.
Qed.

(** The loop over the replies inside [ConvertToExportMessage]. *)
Lemma ConvertToExportMessage_eq msg :
  ConvertToExportMessage msg
  = (let* files := forEach convertFile (Message.Files msg) in
     let* replies := forEach ConvertToExportMessage (Message.Thread msg) in
     ret (ExportMessage.mk (Message.Timestamp msg) (Message.User msg)
            (Message.Text msg)
            match ParseSlackTimestamp (Message.Timestamp msg) with
            | Ok timestamp => timestamp
            | Err _ => Time.zero
            end
            (Message.Type_ msg) (Message.Subtype msg)
            match Message.Edited msg with
            | None => None
            | Some e =>
                match ParseSlackTimestamp (Edited.Timestamp e) with
                | Ok editTime => Some (EditInfo.mk (Edited.User e) editTime)
                | Err _ => None
                end
            end
            (Message.ThreadTS msg) (Message.ReplyCount msg) replies
            (map convertAttachment (Message.Attachments msg)) files
            (map convertReaction (Message.Reactions msg)))).
Proof.
  destruct msg as [ty user text ts tts rc rs thread at_ fs re ed bot un st].
  cbn [ConvertToExportMessage Message.Files Message.Thread].
  f_equal.
  assert (Heach :
    (fix each (l : list Message.t) : M (list ExportMessage.t) :=
       match l with
       | [] => ret []
       | reply :: l' =>
           let* r := ConvertToExportMessage reply in
           let* rs := each l' in ret (r :: rs)
       end) thread
    = forEach ConvertToExportMessage thread).
  { induction thread as [|r thread IH]; [done|].
    cbn [forEach]. by rewrite <- IH. }
  simpl. by rewrite Heach.
Qed.

(** The files of a forest, node after node. *)
Definition allFiles (msgs : list Message.t) : list File.t :=
  flat_map Message.Files (Message.nodes msgs).

Lemma allFiles_cons msg msgs :
  allFiles (msg :: msgs) = allFiles [msg] ++ allFiles msgs.
Proof.
  unfold allFiles. rewrite !nodes_cons. unfold Message.nodes at 2.
  simpl. by rewrite app_nil_r, flat_map_app.
Qed.

Lemma allFiles_one msg :
  allFiles [msg] = Message.Files msg ++ allFiles (Message.Thread msg).
Proof.
  unfold allFiles. rewrite nodes_cons, nodes1_eq.
  unfold Message.nodes at 2. simpl. by rewrite app_nil_r.
Qed.

(** A loop of conversions over messages that each convert as stated. *)
Lemma forEach_ConvertToExportMessage msgs :
  Forall (fun m => forall w,
    map exportOutline (exportNodes1 (ConvertToExportMessage m w).1)
    = map outline (Message.nodes1 m) /\
    (ConvertToExportMessage m w).2 = afterReads (length (allFiles [m])) w)
    msgs ->
  forall w,
    map exportOutline (exportNodes (forEach ConvertToExportMessage msgs w).1)
    = map outline (Message.nodes msgs) /\
    length (forEach ConvertToExportMessage msgs w).1 = length msgs /\
    (forEach ConvertToExportMessage msgs w).2
    = afterReads (length (allFiles msgs)) w.
Proof.
  induction 1 as [|m msgs Hm _ IH]; intros w.
  - simpl. by rewrite afterReads_0.
  - cbn [forEach]. unfold bind, ret.
    destruct (Hm w) as [Hout Hw].
    destruct (ConvertToExportMessage m w) as [e w1]. simpl in Hout, Hw.
    destruct (IH w1) as (Houts & Hlen & Hws).
    destruct (forEach ConvertToExportMessage msgs w1) as [es w2].
    simpl in Houts, Hlen, Hws. cbn [fst snd].
    split; [|split].
    + unfold exportNodes. cbn [flat_map].
      rewrite map_app, nodes_cons, map_app. by f_equal.
    + simpl. by rewrite Hlen.
    + rewrite Hws, Hw, afterReads_add, (allFiles_cons m msgs), length_app.
      f_equal. lia.
Qed.

Lemma ConvertToExportMessage_spec msg :
  forall w,
    map exportOutline (exportNodes1 (ConvertToExportMessage msg w).1)
    = map outline (Message.nodes1 msg) /\
    (ConvertToExportMessage msg w).2
    = afterReads (length (allFiles [msg])) w.
Proof.
  induction msg as [msg IH] using Message.tree_ind. intros w.
  rewrite ConvertToExportMessage_eq. unfold bind, ret.
  rewrite !forEach_convertFile_readings.
  destruct (forEach_ConvertToExportMessage _ IH
              (afterReads (length (Message.Files msg)) w))
    as (Houts & Hlen & Hws).
  destruct (forEach ConvertToExportMessage (Message.Thread msg) _)
    as [replies w2].
  simpl in Houts, Hlen, Hws. cbn [fst snd]. split.
  - rewrite nodes1_eq. cbn [exportNodes1 ExportMessage.Replies map].
    f_equal.
    + unfold exportOutline, outline. simpl. by rewrite Hlen.
    + exact Houts.
  - rewrite Hws, afterReads_add, allFiles_one, length_app. f_equal. lia.
Qed.

(** The conversion keeps the tree: every message and reply is exported,
    parents before their replies and replies in their order, with its
    raw timestamp as id, its author, its text and as many replies; the
    instant is the parsed timestamp, or the zero time when the timestamp
    does not parse. *)
Theorem ConvertToExportMessage_tree msg w :
  map exportOutline (exportNodes1 (ConvertToExportMessage msg w).1)
  = map outline (Message.nodes1 msg).
Proof. apply ConvertToExportMessage_spec. Qed.

(** The conversion reads the wall clock once for every file of the
    message and of its replies and has no other effect; the files of
    the message itself come first and carry those readings as their
    timestamps, in order, whatever Slack said about them. *)
Theorem ConvertToExportMessage_clock msg w :
  let out := ConvertToExportMessage msg w in
  out.2 = afterReads (length (allFiles [msg])) w /\
  ExportMessage.Files out.1
  = imap (fun i file => exportedFile file (reading (World.clockReads w + i)))
      (Message.Files msg).
Proof.
  split; [apply ConvertToExportMessage_spec|].
  rewrite ConvertToExportMessage_eq. unfold bind, ret.
  rewrite forEach_convertFile_readings.
  by destruct (forEach ConvertToExportMessage _ _).
Qed.

End Conversion.

(** *** The export document *)

Section Document.
Context {rt : GoRuntime}.
Variable version : string.

#[local] Arguments Message.nodes : simpl never.

Lemma fold_ConvertToExportUser (entries : list (string * User.t)) :
  NoDup entries.*1 ->
  forall (acc : gmap string ExportUser.t) k,
    fold_left (fun m '(id, user) => <[id := ConvertToExportUser user]> m)
      entries acc !! k
    = match (list_to_map entries : gmap string User.t) !! k with
      | Some user => Some (ConvertToExportUser user)
      | None => acc !! k
      end.
Proof.
  induction entries as [|[id user] entries IH]; intros Hnd acc k; [done|].
  rewrite fmap_cons in Hnd. apply NoDup_cons in Hnd as [Hid Hnd].
  cbn [fold_left]. rewrite list_to_map_cons, (IH Hnd).
  destruct (decide (id = k)) as [->|Hne].
  - rewrite (not_elem_of_list_to_map_1 _ _ Hid), !lookup_insert_eq. done.
  - by rewrite !lookup_insert_ne by done.
Qed.

(** The document has every user of the map, converted, under the same
    key, whatever the order in which the map is visited; it has one
    exported message for every message, in the same order; and its
    statistics are the ones returned beside it. *)
Theorem processExportData_document channel messages users options t0 w :
  let out := (processExportData version channel messages users options
                t0 w).1 in
  ChannelExport.Users out.1 = ConvertToExportUser <$> users /\
  map ExportMessage.ID (ChannelExport.Messages out.1)
  = map Message.Timestamp messages /\
  ChannelExport.Statistics out.1 = out.2 /\
  ExportStatistics.TotalUsers out.2
  = Z.of_nat (size (ChannelExport.Users out.1)).
Proof.
  cbv zeta. unfold processExportData, calculateStatistics, bind.
  assert (Hids : map ExportMessage.ID
                   (forEach ConvertToExportMessage messages w).1
                 = map Message.Timestamp messages).
  { revert w.
    induction messages as [|m msgs IH]; intros w; [done|].
    cbn [forEach]. unfold bind, ret.
    pose proof (proj1 (ConvertToExportMessage_spec m w)) as Hm.
    destruct (ConvertToExportMessage m w) as [e w1].
    specialize (IH w1).
    destruct (forEach ConvertToExportMessage msgs w1) as [es w2].
    simpl in *. rewrite IH. f_equal.
    destruct e, m. simpl in Hm. by injection Hm. }
  destruct (forEach ConvertToExportMessage messages w) as [es w1].
  run.
  assert (Husers :
    fold_left (fun m '(id, user) => <[id := ConvertToExportUser user]> m)
      (map_range (World.rangeLoops w1) users) ∅
    = ConvertToExportUser <$> users).
  { apply map_eq. intros k.
    assert (Hperm : map_range (World.rangeLoops w1) users
                    ≡ₚ map_to_list users) by apply map_range_perm.
    assert (Hnd : NoDup (map_range (World.rangeLoops w1) users).*1).
    { rewrite Hperm. apply NoDup_fst_map_to_list. }
    rewrite (fold_ConvertToExportUser _ Hnd).
    rewrite (list_to_map_proper _ _ Hnd Hperm), list_to_map_to_list.
    rewrite lookup_fmap, lookup_empty. by destruct (users !! k). }
  rewrite Husers. split; [done|]. split; [exact Hids|]. split; [done|].
  by rewrite map_size_fmap.
Qed.

End Document.

(** *** The output file: what a result means *)

Section OutputFileResult.
Context {rt : GoRuntime}.

(** The bytes the [switch] on the format renders (lines 553-560). *)
Definition rendering (exportData : ChannelExport.t)
    (options : ExportOptions.t) : result (list Byte.byte) :=
  if String.eqb (ExportOptions.Format options) "json-compact"
  then json_Marshal exportData else json_MarshalIndent exportData.

(** The path the [switch] on the compression writes to, the branch
    ["zip"] apart (lines 567-581). *)
Definition targetPath (options : ExportOptions.t) : string :=
  let outputFile := ExportOptions.OutputFile options in
  if String.eqb (ExportOptions.Compression options) "gzip"
  then if Strings.HasSuffix outputFile ".gz" then outputFile
       else outputFile +:+ ".gz"
  else outputFile.

(** What is in the file: the rendering, compressed or not. *)
Definition payload (options : ExportOptions.t) (jsonData : list Byte.byte)
    : list Byte.byte :=
  if String.eqb (ExportOptions.Compression options) "gzip"
  then gzip_compress jsonData else jsonData.

Lemma rendering_eq exportData options :
  (if String.eqb (ExportOptions.Format options) "json-pretty"
   then json_MarshalIndent exportData
   else if String.eqb (ExportOptions.Format options) "json-compact"
        then json_Marshal exportData
        else json_MarshalIndent exportData)
  = rendering exportData options.
Proof.
  unfold rendering.
  destruct (String.eqb_spec (ExportOptions.Format options) "json-pretty")
    as [->|_]; [done|].
  by destruct (String.eqb (ExportOptions.Format options) "json-compact").
Qed.

(** The three writers in terms of the file system. *)
Lemma writeFile_result filename data w :
  match (writeFile filename data w).1 with
  | Ok (path, size) =>
      path = filename /\ size = GoInt.len data /\
      World.files (writeFile filename data w).2
      = <[filename := data]> (World.files w)
  | Err _ => True
  end.
Proof.
  unfold writeFile. run.
  destruct (os_error SysWriteFile filename); [done|]. simpl.
  destruct (os_error SysStat filename); [done|]. simpl.
  by rewrite lookup_insert_eq.
Qed.

Lemma writeGzipFile_result filename data w :
  match (writeGzipFile filename data w).1 with
  | Ok (path, size) =>
      path = filename /\ size = GoInt.len (gzip_compress data) /\
      World.files (writeGzipFile filename data w).2
      = <[filename := gzip_compress data]> (World.files w)
  | Err _ => True
  end.
Proof.
  unfold writeGzipFile. run.
  destruct (os_error SysCreate filename); [done|]. simpl.
  destruct (os_error SysWrite filename); [done|]. simpl.
  destruct (os_error SysCloseGzip filename); [done|]. simpl.
  destruct (os_error SysCloseFile filename); [done|]. simpl.
  destruct (os_error SysStat filename); [done|]. simpl.
  rewrite lookup_insert_eq. simpl. by rewrite insert_insert_eq.
Qed.

Lemma generateOutputFile_ok exportData options w path size :
  (generateOutputFile exportData options w).1 = Ok (path, size) ->
  ExportOptions.Compression options <> "zip" /\
  path = targetPath options /\
  exists jsonData,
    rendering exportData options = Ok jsonData /\
    World.files (generateOutputFile exportData options w).2
    = <[path := payload options jsonData]> (World.files w) /\
    size = GoInt.len (payload options jsonData).
Proof.
  intros Hok. unfold targetPath, payload.
  unfold generateOutputFile, bind in *.
  set (dir := filepath_Dir (ExportOptions.OutputFile options)) in *.
  destruct ((if negb (String.eqb dir ".")
             then syscall SysMkdirAll dir (putDir dir) else ret None) w)
    as [err w1] eqn:Emk.
  assert (Hfiles : World.files w1 = World.files w).
  { unfold syscall, ret in Emk.
    destruct (negb (String.eqb dir ".")); [|by injection Emk as _ <-].
    destruct (os_error SysMkdirAll dir); by injection Emk as _ <-. }
  destruct err as [e|]; [discriminate Hok|].
  rewrite rendering_eq in *.
  destruct (rendering exportData options) as [jsonData|e];
    [|discriminate Hok].
  destruct (String.eqb_spec (ExportOptions.Compression options) "gzip")
    as [Hgz|Hgz].
  - split; [by rewrite Hgz|].
    rewrite negb_if in *.
    set (target := if Strings.HasSuffix (ExportOptions.OutputFile options)
                        ".gz"
                   then ExportOptions.OutputFile options
                   else ExportOptions.OutputFile options +:+ ".gz") in *.
    pose proof (writeGzipFile_result target jsonData w1) as Hw.
    rewrite Hok in Hw. destruct Hw as (-> & -> & Hw).
    split; [done|]. exists jsonData. by rewrite Hw, Hfiles.
  - destruct (String.eqb_spec (ExportOptions.Compression options) "zip")
      as [Hzip|Hzip]; [discriminate Hok|].
    split; [done|].
    pose proof (writeFile_result (ExportOptions.OutputFile options)
                  jsonData w1) as Hw.
    rewrite Hok in Hw. destruct Hw as (-> & -> & Hw).
    split; [done|]. exists jsonData. by rewrite Hw, Hfiles.
Qed.

(** A successful result is truthful: the compression was not ["zip"],
    the returned path is the output path, with [".gz"] appended for
    ["gzip"] unless already there, the file at that path holds the
    rendered document, compressed for ["gzip"], the returned size is
    the length of that file, and no other file changed. *)
Theorem generateOutputFile_success exportData options w path size :
  (generateOutputFile exportData options w).1 = Ok (path, size) ->
  ExportOptions.Compression options <> "zip" /\
  path = targetPath options /\
  exists jsonData,
    rendering exportData options = Ok jsonData /\
    World.files (generateOutputFile exportData options w).2
    = <[path := payload options jsonData]> (World.files w) /\
    size = GoInt.len (payload options jsonData).
Proof. apply generateOutputFile_ok. Qed.

Lemma generateOutputFile_untouched exportData options w :
  let w' := (generateOutputFile exportData options w).2 in
  delete (targetPath options) (World.files w')
  = delete (targetPath options) (World.files w) /\
  World.apiCalls w' = World.apiCalls w /\
  World.clockReads w' = World.clockReads w /\
  World.stdout w' = World.stdout w /\
  World.reported w' = World.reported w.
Proof.
  unfold generateOutputFile, targetPath, writeFile, writeGzipFile,
    writeZipFile.
  run.
  rewrite rendering_eq.
  destruct (negb (String.eqb (filepath_Dir (ExportOptions.OutputFile options))
                    "."));
    [destruct (os_error SysMkdirAll _)|]; simpl; try done;
    (destruct (rendering exportData options) as [jsonData|e]; simpl;
       [|done]);
    (destruct (String.eqb (ExportOptions.Compression options) "gzip");
       [rewrite negb_if;
        set (target := if Strings.HasSuffix _ ".gz" then _ else _);
        destruct (os_error SysCreate target); simpl; [done|];
        destruct (os_error SysWrite target); simpl;
          [by rewrite delete_insert_eq|];
        destruct (os_error SysCloseGzip target); simpl;
          [by rewrite delete_insert_eq|];
        destruct (os_error SysCloseFile target); simpl;
          [by rewrite insert_insert_eq, delete_insert_eq|];
        destruct (os_error SysStat target); simpl;
          [by rewrite insert_insert_eq, delete_insert_eq|];
        rewrite lookup_insert_eq; simpl;
        by rewrite insert_insert_eq, delete_insert_eq
       |destruct (String.eqb (ExportOptions.Compression options) "zip");
          simpl; [done|];
        destruct (os_error SysWriteFile _); simpl; [done|];
        destruct (os_error SysStat _); simpl;
          [by rewrite delete_insert_eq|];
        rewrite lookup_insert_eq; simpl; by rewrite delete_insert_eq]).
Qed.

(** Whatever happens, no file other than the one at the target path is
    created, changed or removed, and the run makes no call on the
    client, reads no clock and prints and reports nothing. *)
Theorem generateOutputFile_frame exportData options w :
  let w' := (generateOutputFile exportData options w).2 in
  delete (targetPath options) (World.files w')
  = delete (targetPath options) (World.files w) /\
  World.apiCalls w' = World.apiCalls w /\
  World.clockReads w' = World.clockReads w /\
  World.stdout w' = World.stdout w /\
  World.reported w' = World.reported w.
Proof. apply generateOutputFile_untouched. Qed.

(** Without compression, when no system call fails and the document is
    rendered, the rendering is written to the output path as it is and
    its length is returned; the rendering is the compact one for the
    format ["json-compact"] and the indented one for every other
    format, known or not. *)
Theorem generateOutputFile_plain exportData options w jsonData :
  ExportOptions.Compression options <> "gzip" ->
  ExportOptions.Compression options <> "zip" ->
  (forall c path, os_error c path = None) ->
  rendering exportData options = Ok jsonData ->
  let out := generateOutputFile exportData options w in
  out.1 = Ok (ExportOptions.OutputFile options, GoInt.len jsonData) /\
  World.files out.2
  = <[ExportOptions.OutputFile options := jsonData]> (World.files w).
Proof.
  intros Hgz Hzip Hos Hrender.
  unfold generateOutputFile, writeFile. run.
  rewrite rendering_eq, Hrender.
  apply String.eqb_neq in Hgz, Hzip. rewrite Hgz, Hzip.
  destruct (negb (String.eqb _ ".")); rewrite ?Hos; simpl;
    rewrite ?Hos; simpl; rewrite ?lookup_insert_eq; done.
Qed.

(** When the output directory cannot be made, or the document cannot
    be rendered, the result is an error and no file is written. *)
Theorem generateOutputFile_early_failure exportData options w :
  (filepath_Dir (ExportOptions.OutputFile options) <> "." /\
   is_Some (os_error SysMkdirAll
              (filepath_Dir (ExportOptions.OutputFile options)))) \/
  (exists e, rendering exportData options = Err e) ->
  let out := generateOutputFile exportData options w in
  (exists e, out.1 = Err e) /\ World.files out.2 = World.files w.
Proof.
  intros Hfail. unfold generateOutputFile. run. rewrite rendering_eq.
  destruct Hfail as [[Hdir [e He]]|[e He]].
  - apply String.eqb_neq in Hdir. rewrite Hdir, He. simpl. eauto.
  - rewrite He.
    destruct (negb (String.eqb _ "."));
      [destruct (os_error SysMkdirAll _)|]; simpl; eauto.
Qed.

End OutputFileResult.

Lemma generateOutputFile_success_witness :
  let rt := Std.runtime 0 in
  let doc :=
    ChannelExport.mk
      (ExportMetadata.mk Scenario.epoch "slacker-cli" "1.0" "json" true
         DateRange.zero)
      (ChannelInfo.mk "C123456" "general" false false "" "" Time.zero "" 10)
      [] ∅ ExportStatistics.init in
  let options := Scenario.options "gzip" in
  let out := generateOutputFile doc options World.init in
  exists size,
    out.1 = Ok ("foo.json.gz", size) /\
    exists jsonData,
      rendering doc options = Ok jsonData /\
      World.files out.2
      = <["foo.json.gz" := payload options jsonData]>
          (World.files World.init) /\
      size = GoInt.len (payload options jsonData).
Proof.
  intros rt doc options out.
  exists (GoInt.len (Std.gzip (Std.bytesOf "{ general }"))).
  assert (Hok : out.1 = Ok ("foo.json.gz",
                            GoInt.len (Std.gzip (Std.bytesOf "{ general }"))))
    by reflexivity.
  split; [exact Hok|].
  exact (proj2 (proj2 (generateOutputFile_success (rt := rt) doc options
                         World.init _ _ Hok))).
Defined.

(** A runtime like [Std.runtime], except that making a directory and
    rendering the document may fail. *)
Module Faulty.

Definition runtime (mkdir render : option string) : GoRuntime := {|
  float64 := Std.Decimal;
  strconv_ParseFloat := Std.ParseFloat;
  int64_of_float64 := Std.dec_trunc;
  float64_of_int64 := fun z => Std.dec z 0;
  float64_sub := Std.dec_sub;
  float64_mul := Std.dec_mul;
  float64_1e9 := Std.dec 1000000000 0;
  time_localOffset := fun _ => 0;
  time_wallClock := fun k => (1767225600 + Z.of_nat k, 0);
  sort_Slice := @Std.insertionSort;
  sort_Slice_perm := @Std.insertionSort_perm;
  sort_Slice_sorted := @Std.insertionSort_sorted;
  map_range := @Std.mapRange;
  map_range_perm := @Std.mapRange_perm;
  json_MarshalIndent := fun doc =>
    match render with Some e => Err e | None => Std.Marshal true doc end;
  json_Marshal := fun doc =>
    match render with Some e => Err e | None => Std.Marshal false doc end;
  gzip_compress := Std.gzip;
  filepath_Dir := Std.Dir;
  filepath_Base := Std.Base;
  os_error := fun c _ =>
    match c with SysMkdirAll => mkdir | _ => None end |}.

End Faulty.

Lemma generateOutputFile_plain_witness :
  let rt := Std.runtime 0 in
  let doc :=
    ChannelExport.mk
      (ExportMetadata.mk Scenario.epoch "slacker-cli" "1.0" "yaml" true
         DateRange.zero)
      (ChannelInfo.mk "C123456" "general" false false "" "" Time.zero "" 10)
      [] ∅ ExportStatistics.init in
  let options :=
    ExportOptions.mk "C123456" "general" true true true None None
      "foo.json" "yaml" "none" in
  let out := generateOutputFile doc options World.init in
  out.1 = Ok ("foo.json", 11) /\
  World.files out.2
  = <["foo.json" := Std.bytesOf "{ general }"]> (World.files World.init).
Proof.
  intros rt doc options.
  apply (generateOutputFile_plain (rt := rt) doc options World.init
           (Std.bytesOf "{ general }")).
  - discriminate.
  - discriminate.
  - reflexivity.
  - reflexivity.
Defined.

Lemma generateOutputFile_early_failure_witness :
  let rt := Faulty.runtime (Some "permission denied") None in
  let doc :=
    ChannelExport.mk
      (ExportMetadata.mk Scenario.epoch "slacker-cli" "1.0" "json" true
         DateRange.zero)
      (ChannelInfo.mk "C123456" "general" false false "" "" Time.zero "" 10)
      [] ∅ ExportStatistics.init in
  let options :=
    ExportOptions.mk "C123456" "general" true true true None None
      "out/foo.json" "json" "none" in
  let out := generateOutputFile doc options World.init in
  (exists e, out.1 = Err e) /\ World.files out.2 = World.files World.init.
Proof.
  intros rt doc options.
  apply (generateOutputFile_early_failure (rt := rt) doc options World.init).
  left. split.
  - vm_compute. discriminate.
  - vm_compute. eauto.
Defined.

(** *** The pipeline as a whole *)

(** A computation that leaves a part of the world as it found it. *)
Definition keeps {A B} (part : World.t -> B) (m : M A) : Prop :=
  forall w, part (m w).2 = part w.

(** The parts of the world that only the callback and the file system
    change. *)
Definition durable {B} (part : World.t -> B) : Prop :=
  forall a c r s a' c' r' s' rep f d,
    part (World.mk a c r s rep f d) = part (World.mk a' c' r' s' rep f d).

Section Frames.
Context {rt : GoRuntime} {client : SlackClientInterface}.
Context {B : Type} (part : World.t -> B).

Lemma keeps_ret {A} (a : A) : keeps part (ret a).
Proof. by intros w. Qed.

Lemma keeps_bind {A C} (m : M A) (k : A -> M C) :
  keeps part m -> (forall a, keeps part (k a)) -> keeps part (bind m k).
Proof.
  intros Hm Hk w. unfold bind. specialize (Hm w).
  destruct (m w) as [a w1]. simpl in *. rewrite <- Hm. apply Hk.
Qed.

Lemma keeps_forEach {A C} (f : A -> M C) l :
  (forall a, keeps part (f a)) -> keeps part (forEach f l).
Proof.
  intros Hf. induction l as [|a l IH]; [apply keeps_ret|].
  cbn [forEach]. apply keeps_bind; [apply Hf|]. intros b.
  apply keeps_bind; [apply IH|]. intros bs. apply keeps_ret.
Qed.

Hypothesis Hpart : durable part.

Lemma keeps_call {A} (method : nat -> A) : keeps part (call method).
Proof. intros [a c r s rep f d]. apply Hpart. Qed.

Lemma keeps_time_Now : keeps part time_Now.
Proof. intros [a c r s rep f d]. apply Hpart. Qed.

Lemma keeps_time_Since t : keeps part (time_Since t).
Proof.
  apply keeps_bind; [apply keeps_time_Now|]. intros now. apply keeps_ret.
Qed.

Lemma keeps_range {V} (m : gmap string V) : keeps part (range m).
Proof. intros [a c r s rep f d]. apply Hpart. Qed.

Lemma keeps_fmt_Printf line : keeps part (fmt_Printf line).
Proof. intros [a c r s rep f d]. apply Hpart. Qed.

Lemma keeps_afterReads n w : part (afterReads n w) = part w.
Proof. destruct w as [a c r s rep f d]. apply Hpart. Qed.

Lemma keeps_fetchChannelInfo channelID :
  keeps part (fetchChannelInfo channelID).
Proof.
  apply keeps_bind; [apply keeps_call|]. intros [channels|e];
    [destruct (List.find _ channels)|]; apply keeps_ret.
Qed.

Lemma keeps_fetchUserInfo messages : keeps part (fetchUserInfo messages).
Proof.
  apply keeps_bind; [apply keeps_call|]. intros [allUsers|e];
    [|apply keeps_ret].
  apply keeps_bind; [apply keeps_range|]. intros ids. apply keeps_ret.
Qed.

Lemma keeps_ConvertToExportMessage msg :
  keeps part (ConvertToExportMessage msg).
Proof.
  intros w. rewrite (proj2 (ConvertToExportMessage_spec msg w)).
  apply keeps_afterReads.
Qed.

Lemma keeps_calculateStatistics messages users :
  keeps part (calculateStatistics messages users).
Proof.
  apply keeps_bind; [apply keeps_range|]. intros pairs. apply keeps_ret.
Qed.

Lemma keeps_processExportData version channel messages users options t0 :
  keeps part
    (processExportData version channel messages users options t0).
Proof.
  apply keeps_bind;
    [apply keeps_forEach, keeps_ConvertToExportMessage|]. intros es.
  apply keeps_bind; [apply keeps_range|]. intros entries.
  apply keeps_bind; [apply keeps_calculateStatistics|]. intros stats.
  apply keeps_bind; [apply keeps_time_Now|]. intros now. apply keeps_ret.
Qed.

End Frames.

Lemma durable_files : durable World.files.
Proof. by intros ? ? ? ? ? ? ? ? ? ? ?. Qed.

Lemma durable_reported : durable World.reported.
Proof. by intros ? ? ? ? ? ? ? ? ? ? ?. Qed.

(** The steps that report keep the files. *)
Section FileFrames.
Context {rt : GoRuntime} {client : SlackClientInterface}.

Lemma keeps_files_report cb p : keeps World.files (report cb p).
Proof. intros w. by destruct cb. Qed.

Lemma keeps_files_enterStage cb t0 p stage step frac :
  keeps World.files (enterStage cb t0 p stage step frac).
Proof.
  apply keeps_bind; [apply keeps_time_Since, durable_files|]. intros d.
  apply keeps_bind; [apply keeps_files_report|]. intros u. apply keeps_ret.
Qed.

Lemma keeps_files_fetchPages fuel options cb t0 :
  forall all cursor pages progress,
    keeps World.files (fetchPages fuel options cb t0 all cursor pages progress).
Proof.
  induction fuel as [|fuel IH]; intros all cursor pages progress;
    [apply keeps_ret|].
  cbn [fetchPages]. apply keeps_bind; [apply keeps_call, durable_files|].
  intros [[messages nextCursor]|e]; [|apply keeps_ret].
  apply keeps_bind.
  - destruct cb; [|apply keeps_ret].
    apply keeps_bind; [apply keeps_time_Since, durable_files|]. intros d.
    apply keeps_bind; [apply keeps_files_report|]. intros u.
    apply keeps_ret.
  - intros progress'. destruct (String.eqb nextCursor "");
      [apply keeps_ret|].
    apply keeps_bind; [apply keeps_ret|]. intros u. apply IH.
Qed.

Lemma keeps_files_fetchAllMessages fuel options progress cb t0 :
  keeps World.files (fetchAllMessages fuel options progress cb t0).
Proof.
  apply keeps_bind; [apply keeps_files_fetchPages|].
  intros [[[all|e] progress']|]; apply keeps_ret.
Qed.

Lemma keeps_files_threadLoop channelID cb t0 pending :
  forall i total messages progress,
    keeps World.files
      (threadLoop i pending total channelID cb t0 messages progress).
Proof.
  induction pending as [|j pending IH]; intros i total messages progress;
    [apply keeps_ret|].
  cbn [threadLoop]. destruct (messages !! j) as [msg|]; [|apply IH].
  apply keeps_bind; [apply keeps_call, durable_files|].
  intros [replies|e].
  - apply keeps_bind.
    + destruct cb; [|apply keeps_ret].
      apply keeps_bind; [apply keeps_time_Since, durable_files|]. intros d.
      apply keeps_bind; [apply keeps_files_report|]. intros u.
      apply keeps_ret.
    + intros progress'. apply keeps_bind; [apply keeps_ret|].
      intros u. apply IH.
  - apply keeps_bind; [apply keeps_fmt_Printf, durable_files|].
    intros u. apply IH.
Qed.

Lemma keeps_files_fetchThreadReplies messages channelID progress cb t0 :
  keeps World.files
    (fetchThreadReplies messages channelID progress cb t0).
Proof.
  apply keeps_bind; [apply keeps_files_threadLoop|].
  intros [msgs progress']. apply keeps_ret.
Qed.

End FileFrames.

Section Outcome.
Context {rt : GoRuntime} {client : SlackClientInterface}.
Variable version : string.

(** The prefixes of the error text of a failed export, one for each
    stage that can fail. *)
Definition failures : list string :=
  ["Failed to fetch channel info: "; "Failed to fetch messages: ";
   "Failed to fetch user info: "; "Failed to generate output file: "].

(** One step of the pipeline: name the result of the next computation,
    or the alternatives of the value under scrutiny. *)
Ltac stage :=
  match goal with
  | |- context [let (_, _) := fetchThreadReplies ?ms ?ch ?p ?cb ?t ?w in _] =>
      let H := fresh "Hthreads" in
      pose proof (fetchThreadReplies_succeeds ms ch p cb t w) as H;
      destruct (fetchThreadReplies ms ch p cb t w) as [[[? ?] ?] ?];
      simpl in H; subst
  | |- context [let (_, _) := ?m ?w in _] =>
      let E := fresh "E" in destruct (m w) as [? ?] eqn:E
  | |- context [match ?x with Ok _ => _ | Err _ => _ end] =>
      is_var x; destruct x
  | |- context [match ?x with Some _ => _ | None => _ end] =>
      is_var x; destruct x
  | |- context [let (_, _) := ?x in _] => is_var x; destruct x
  end.

(** The result and the error agree, and the error text names the stage:
    an export that returns no error reports success, with no error text
    and no warnings, although failed threads were only printed; one
    that returns an error reports failure with the text of one of four
    stages before the error and nothing else, and the thread stage is
    never the one that fails. *)
Theorem ExportChannel_outcome fuel options cb w :
  match (ExportChannel version fuel options cb w).1 with
  | None => True
  | Some (res, None) =>
      ExportResult.Success res = true /\
      ExportResult.Error res = "" /\
      ExportResult.Warnings res = []
  | Some (res, Some e) =>
      exists stage,
        In stage failures /\ res = ExportResult.failure (stage +:+ e)
  end.
Proof.
  unfold ExportChannel, bind, failures.
  destruct (ExportOptions.IncludeThreads options);
    repeat stage; unfold ret; cbn [fst snd]; try done;
    eexists; (split; [|reflexivity]); simpl; tauto.
Qed.

End Outcome.

Section Files.
Context {rt : GoRuntime} {client : SlackClientInterface}.
Variable version : string.

Ltac keeps_files :=
  first
    [ apply keeps_ret
    | apply keeps_files_report
    | apply keeps_files_enterStage
    | apply keeps_files_fetchAllMessages
    | apply keeps_files_fetchThreadReplies
    | apply keeps_time_Now, durable_files
    | apply keeps_time_Since, durable_files
    | apply keeps_fetchChannelInfo, durable_files
    | apply keeps_fetchUserInfo, durable_files
    | apply keeps_processExportData, durable_files ].

Ltac stage :=
  match goal with
  | |- context [let (_, _) := generateOutputFile ?d ?o ?w in _] =>
      let H := fresh "Hgen" in
      pose proof (generateOutputFile_untouched d o w) as H;
      cbv zeta in H; apply proj1 in H;
      destruct (generateOutputFile d o w) as [? ?]; cbn [fst snd] in H
  | |- context [let (_, _) := ?m ?w in _] =>
      let H := fresh "Hk" in
      assert (H : keeps World.files m) by keeps_files;
      specialize (H w); destruct (m w) as [? ?]; cbn [fst snd] in H
  | |- context [match ?x with Ok _ => _ | Err _ => _ end] =>
      is_var x; destruct x
  | |- context [match ?x with Some _ => _ | None => _ end] =>
      is_var x; destruct x
  | |- context [let (_, _) := ?x in _] => is_var x; destruct x
  end.

(** An export creates, changes or removes no file other than the one
    at the target path, however it ends; and it touches no file at all
    when it fails before the last stage or runs out of fuel. *)
Theorem ExportChannel_files fuel options cb w :
  let out := ExportChannel version fuel options cb w in
  delete (targetPath options) (World.files out.2)
  = delete (targetPath options) (World.files w) /\
  match out.1 with
  | Some (res, None) => True
  | Some (res, Some e) =>
      ExportResult.Error res <> "Failed to generate output file: " +:+ e ->
      World.files out.2 = World.files w
  | None => World.files out.2 = World.files w
  end.
Proof.
  cbv zeta. unfold ExportChannel, bind.
  destruct (ExportOptions.IncludeThreads options);
    repeat stage; unfold ret; cbn [fst snd];
    (split;
     [congruence
     |first [exact I | congruence
            | intros Hne; first [congruence | by destruct Hne]]]).
Qed.

End Files.

Section Success.
Context {rt : GoRuntime} {client : SlackClientInterface}.
Variable version : string.

Lemma fetchChannelInfo_found channelID w channel :
  (fetchChannelInfo channelID w).1 = Ok channel ->
  Channel.ID channel = channelID.
Proof.
  unfold fetchChannelInfo. run.
  destruct (GetChannels (World.apiCalls w)) as [channels|e]; [|done].
  destruct (List.find _ channels) as [found|] eqn:E; [|done].
  simpl. intros [= <-]. apply find_some in E as [_ E].
  by apply String.eqb_eq.
Qed.

Lemma countNode_durations l :
  forall stats,
    ExportStatistics.ExportDuration (fold_left countNode l stats)
    = ExportStatistics.ExportDuration stats /\
    ExportStatistics.ProcessingTime (fold_left countNode l stats)
    = ExportStatistics.ProcessingTime stats.
Proof.
  induction l as [|m l IH]; intros stats; [done|].
  simpl. destruct (IH (countNode stats m)) as [-> ->]. done.
Qed.

Lemma processExportData_shape channel messages users options t0 w :
  let out := (processExportData version channel messages users options
                t0 w).1 in
  ChannelInfo.ID (ChannelExport.Channel out.1) = Channel.ID channel /\
  ChannelExport.Statistics out.1 = out.2 /\
  ExportStatistics.ExportDuration out.2 = 0 /\
  ExportStatistics.ProcessingTime out.2 = ProcessingTimeStats.zero.
Proof.
  cbv zeta. unfold processExportData, calculateStatistics, bind.
  destruct (forEach ConvertToExportMessage messages w) as [es w1].
  run. rewrite countMessages_nodes.
  destruct (countNode_durations (Message.nodes messages)
              ExportStatistics.init) as [-> ->].
  done.
Qed.

Ltac keeps_files :=
  first
    [ apply keeps_ret
    | apply keeps_files_report
    | apply keeps_time_Since, durable_files ].

Ltac stage :=
  match goal with
  | |- context [let (_, _) := ?m ?w in _] =>
      let E := fresh "E" in
      let H := fresh "Hk" in
      destruct (m w) as [? ?] eqn:E;
      try (assert (H : keeps World.files m) by keeps_files;
           specialize (H w); rewrite E in H; cbn [fst snd] in H)
  | |- context [match ?x with Ok _ => _ | Err _ => _ end] =>
      is_var x; destruct x
  | |- context [match ?x with Some _ => _ | None => _ end] =>
      is_var x; destruct x
  | |- context [let (_, _) := ?x in _] => is_var x; destruct x
  end.

(** What a successful export leaves behind.  The result names the
    target path; the file at that path holds the rendering of a
    document for the requested channel, compressed for ["gzip"], and
    its length is the reported size.  The statistics inside the
    document carry no durations: the result has them, with the same
    counters, but they are filled in after the file is written. *)
Theorem ExportChannel_success fuel options cb w :
  let out := ExportChannel version fuel options cb w in
  match out.1 with
  | Some (res, None) =>
      ExportResult.OutputFile res = targetPath options /\
      ExportOptions.Compression options <> "zip" /\
      exists doc jsonData,
        rendering doc options = Ok jsonData /\
        World.files out.2 !! ExportResult.OutputFile res
        = Some (payload options jsonData) /\
        ExportResult.FileSize res = GoInt.len (payload options jsonData) /\
        ChannelInfo.ID (ChannelExport.Channel doc)
        = ExportOptions.ChannelID options /\
        ExportStatistics.ExportDuration (ChannelExport.Statistics doc) = 0 /\
        ExportStatistics.ProcessingTime (ChannelExport.Statistics doc)
        = ProcessingTimeStats.zero /\
        ExportResult.Statistics res
        = ExportStatistics.setTimes (ChannelExport.Statistics doc)
            (ExportResult.Duration res)
            (ExportStatistics.ProcessingTime (ExportResult.Statistics res))
  | _ => True
  end.
Proof.
  cbv zeta. unfold ExportChannel, bind.
  destruct (ExportOptions.IncludeThreads options);
    repeat stage; unfold ret; cbn [fst snd]; try exact I;
    lazymatch goal with
    | Ech : fetchChannelInfo ?cid ?w1 = (Ok ?ch, _),
      Eproc : processExportData _ ?ch ?ms ?us _ ?t0 ?w2 = (?doc, ?st, _),
      Egen : generateOutputFile ?doc _ ?w3 = (Ok (?path, ?size), _)
      |- _ /\ _ /\ exists _ _, _ /\ World.files ?wz !! _ = _ /\ _ =>
        pose proof (fetchChannelInfo_found cid w1 ch) as Hid;
        rewrite Ech in Hid; specialize (Hid eq_refl);
        pose proof (processExportData_shape ch ms us options t0 w2) as Hdoc;
        cbv zeta in Hdoc; rewrite Eproc in Hdoc; cbn [fst snd] in Hdoc;
        destruct Hdoc as (Hch & Hst & Hdur & Hproc);
        pose proof (generateOutputFile_ok doc options w3 path size) as Hgen;
        rewrite Egen in Hgen;
        destruct (Hgen eq_refl)
          as (Hzip & Hpath & jsonData & Hrender & Hfiles & Hsize);
        cbn [fst snd] in Hfiles;
        split; [exact Hpath|]; split; [exact Hzip|];
        exists doc, jsonData;
        cbn [ExportResult.OutputFile ExportResult.FileSize
               ExportResult.Statistics ExportResult.Duration];
        split; [exact Hrender|]; split;
          [replace (World.files wz)
             with (<[path := payload options jsonData]> (World.files w3));
           [apply lookup_insert_eq|congruence]
          |split; [exact Hsize|]; split; [congruence|];
           rewrite Hst; split; [exact Hdur|]; split; [exact Hproc|];
           reflexivity]
    end.
Qed.

End Success.


Lemma ExportChannel_success_witness :
  let rt := Std.runtime 0 in
  let history := [Scenario.message "U123456" "1704067260.000000" "" 0] in
  let client := Scenario.workspace history (Ok []) in
  let out := ExportChannel "1.0" 2 (Scenario.options "gzip") false
               World.init in
  exists res,
    out.1 = Some (res, None) /\
    ExportResult.OutputFile res = "foo.json.gz" /\
    is_Some (World.files out.2 !! "foo.json.gz").
Proof.
  intros rt history client out.
  pose proof (ExportChannel_success (rt := rt) (client := client) "1.0" 2
                (Scenario.options "gzip") false World.init) as H.
  cbv zeta in H.
  change (ExportChannel "1.0" 2 (Scenario.options "gzip") false World.init)
    with out in H.
  destruct out.1 as [[res [e|]]|] eqn:Hres.
  - exfalso. vm_compute in Hres. discriminate Hres.
  - destruct H as (Hpath & _ & doc & jsonData & _ & Hfile & _).
    exists res. split; [reflexivity|]. split; [exact Hpath|].
    change "foo.json.gz" with (targetPath (Scenario.options "gzip")).
    rewrite <- Hpath, Hfile. eauto.
  - exfalso. vm_compute in Hres. discriminate Hres.
Defined.

(** *** The progress reports *)

(** Snapshots whose fraction never goes back. *)
Definition rising (l : list ExportProgress.t) : Prop :=
  StronglySorted
    (fun a b => (ExportProgress.Progress a <= ExportProgress.Progress b)%Q) l.

(** From [w] to [w'] the callback received snapshots of fraction [q]
    only, and none at all when there is no callback. *)
Definition appended (q : Q) (cb : bool) (w w' : World.t) : Prop :=
  exists new,
    World.reported w' = World.reported w ++ new /\
    Forall (fun p => ExportProgress.Progress p = q) new /\
    (cb = false -> new = []).

(** From [w0] to [w'] the callback received rising snapshots of
    fractions between 0 and [q]. *)
Definition reportedUpTo (q : Q) (cb : bool) (w0 w' : World.t) : Prop :=
  exists new,
    World.reported w' = World.reported w0 ++ new /\
    rising new /\
    Forall (fun p => (0 <= ExportProgress.Progress p)%Q /\
                     (ExportProgress.Progress p <= q)%Q) new /\
    (cb = false -> new = []).

Section Progress.
Context {rt : GoRuntime} {client : SlackClientInterface}.
Variable version : string.

Lemma reportedUpTo_refl q cb w : reportedUpTo q cb w w.
Proof.
  exists []. rewrite app_nil_r. repeat split; constructor.
Qed.

Lemma reportedUpTo_keep q cb w0 w1 w2 :
  reportedUpTo q cb w0 w1 -> World.reported w2 = World.reported w1 ->
  reportedUpTo q cb w0 w2.
Proof. intros (new & H & ?) Heq. exists new. by rewrite Heq. Qed.

Lemma reportedUpTo_step q q' cb w0 w1 w2 :
  reportedUpTo q cb w0 w1 -> appended q' cb w1 w2 ->
  (q <= q')%Q -> (0 <= q')%Q ->
  reportedUpTo q' cb w0 w2.
Proof.
  intros (new1 & H1 & Hrise & Hbound & Hcb1) (new2 & H2 & Hq & Hcb2) Hle H0.
  exists (new1 ++ new2). split; [by rewrite H2, H1, app_assoc|].
  split; [|split].
  - apply StronglySorted_app. split; [|split].
    + intros x1 x2 Hx1 Hx2.
      rewrite Forall_forall in Hbound, Hq.
      rewrite (Hq _ Hx2). eapply Qle_trans; [apply (Hbound _ Hx1)|done].
    + exact Hrise.
    + clear -Hq. induction Hq as [|p l Hp Hl IH]; constructor; [done|].
      eapply Forall_impl; [exact Hl|]. intros p' ->. rewrite Hp.
      apply Qle_refl.
  - apply Forall_app. split.
    + eapply Forall_impl; [exact Hbound|]. intros p [? ?].
      split; [done|]. by eapply Qle_trans.
    + eapply Forall_impl; [exact Hq|]. intros p ->.
      split; [done|apply Qle_refl].
  - intros Hcb. by rewrite (Hcb1 Hcb), (Hcb2 Hcb).
Qed.

Lemma appended_refl q cb w : appended q cb w w.
Proof. exists []. by rewrite app_nil_r. Qed.

Lemma appended_trans q cb w1 w2 w3 :
  appended q cb w1 w2 -> appended q cb w2 w3 -> appended q cb w1 w3.
Proof.
  intros (new1 & H1 & Hq1 & Hcb1) (new2 & H2 & Hq2 & Hcb2).
  exists (new1 ++ new2). split; [by rewrite H2, H1, app_assoc|].
  split; [by apply Forall_app|].
  intros Hcb. by rewrite (Hcb1 Hcb), (Hcb2 Hcb).
Qed.

Lemma appended_keep q cb w1 w2 :
  World.reported w2 = World.reported w1 -> appended q cb w1 w2.
Proof. intros Heq. exists []. by rewrite app_nil_r. Qed.

Lemma report_appended cb p w :
  appended (ExportProgress.Progress p) cb w (report cb p w).2.
Proof.
  destruct cb; [|apply appended_refl].
  exists [p]. split; [done|]. split; [|done]. by constructor.
Qed.

Lemma enterStage_appended cb t0 p stage step frac w :
  ExportProgress.Progress (enterStage cb t0 p stage step frac w).1 = frac /\
  appended frac cb w (enterStage cb t0 p stage step frac w).2.
Proof.
  unfold enterStage, time_Since, bind, ret.
  destruct (time_Now w) as [now w1] eqn:E.
  pose proof (keeps_time_Now World.reported durable_reported w) as Hk.
  rewrite E in Hk. simpl in Hk.
  pose proof (report_appended cb
                (ExportProgress.enter p stage step frac (Time.Sub now t0))
                w1) as Ha.
  destruct (report cb _ w1) as [u w2]. simpl in *. split; [done|].
  eapply appended_trans; [apply appended_keep, Hk|exact Ha].
Qed.

Lemma fetchPages_appended fuel options cb t0 :
  forall all cursor pages progress w,
    let (r, w') := fetchPages fuel options cb t0 all cursor pages progress w in
    match r with
    | Some (_, progress') =>
        ExportProgress.Progress progress' = ExportProgress.Progress progress
    | None => True
    end /\
    appended (ExportProgress.Progress progress) cb w w'.
Proof.
  induction fuel as [|fuel IH]; intros all cursor pages progress w;
    [split; [done|apply appended_refl]|].
  cbn [fetchPages]. unfold bind at 1.
  destruct (call _ w) as [page w1] eqn:E.
  assert (Hk : World.reported w1 = World.reported w).
  { pose proof (keeps_call World.reported durable_reported
                  (fun k => GetChannelHistory k
                              (ExportOptions.ChannelID options) 1000 cursor)
                  w) as Hk.
    by rewrite E in Hk. }
  destruct page as [[messages nextCursor]|e];
    [|split; [done|by apply appended_keep]].
  unfold bind at 1.
  set (all' := all ++ filterMessagesByDate messages _ _).
  destruct cb.
  - unfold bind at 1. unfold time_Since at 1. unfold bind at 1.
    destruct (time_Now w1) as [now w2] eqn:E2.
    assert (Hk2 : World.reported w2 = World.reported w1).
    { pose proof (keeps_time_Now World.reported durable_reported w1) as Hk2.
      by rewrite E2 in Hk2. }
    unfold ret at 1. unfold bind at 1.
    set (progress' := ExportProgress.setMessages progress _ _ _).
    pose proof (report_appended true progress' w2) as Ha.
    destruct (report true progress' w2) as [u w3]. cbn [fst snd] in Ha.
    unfold ret at 1.
    assert (Ha3 : appended (ExportProgress.Progress progress) true w w3).
    { eapply appended_trans; [apply appended_keep, Hk|].
      eapply appended_trans; [apply appended_keep, Hk2|exact Ha]. }
    destruct (String.eqb nextCursor ""); [by split|].
    unfold bind, time_Sleep, ret.
    pose proof (IH all' nextCursor (GoInt.add pages 1) progress' w3) as H.
    destruct (fetchPages fuel options true t0 all' nextCursor _ progress' w3)
      as [r w4].
    destruct H as [Hv Ha4].
    split; [exact Hv|]. eapply appended_trans; [exact Ha3|exact Ha4].
  - unfold ret at 1.
    destruct (String.eqb nextCursor "");
      [split; [done|by apply appended_keep]|].
    unfold bind, time_Sleep, ret.
    pose proof (IH all' nextCursor (GoInt.add pages 1) progress w1) as H.
    destruct (fetchPages fuel options false t0 all' nextCursor _ progress w1)
      as [r w4].
    destruct H as [Hv Ha4].
    split; [exact Hv|].
    eapply appended_trans; [apply appended_keep, Hk|exact Ha4].
Qed.

Lemma fetchAllMessages_appended fuel options progress cb t0 w :
  let (r, w') := fetchAllMessages fuel options progress cb t0 w in
  match r with
  | Some (_, progress') =>
      ExportProgress.Progress progress' = ExportProgress.Progress progress
  | None => True
  end /\
  appended (ExportProgress.Progress progress) cb w w'.
Proof.
  unfold fetchAllMessages, bind.
  pose proof (fetchPages_appended fuel options cb t0 [] "" 0 progress w)
    as H.
  destruct (fetchPages fuel options cb t0 [] "" 0 progress w)
    as [[[[all|e] progress']|] w1]; exact H.
Qed.

Lemma threadLoop_appended channelID cb t0 pending :
  forall i total messages progress w,
    let (r, w') :=
      threadLoop i pending total channelID cb t0 messages progress w in
    ExportProgress.Progress r.2 = ExportProgress.Progress progress /\
    appended (ExportProgress.Progress progress) cb w w'.
Proof.
  induction pending as [|j pending IH];
    intros i total messages progress w;
    [split; [done|apply appended_refl]|].
  cbn [threadLoop].
  destruct (messages !! j) as [msg|]; [|apply IH].
  unfold bind at 1.
  destruct (call _ w) as [r w1] eqn:E.
  assert (Hk : World.reported w1 = World.reported w).
  { pose proof (keeps_call World.reported durable_reported
                  (fun k => GetThreadReplies k channelID
                              (Message.ThreadTS msg)) w) as Hk.
    by rewrite E in Hk. }
  destruct r as [replies|e].
  - unfold bind at 1.
    set (messages' := <[j := _]> messages).
    destruct cb.
    + unfold bind at 1. unfold time_Since at 1. unfold bind at 1.
      destruct (time_Now w1) as [now w2] eqn:E2.
      assert (Hk2 : World.reported w2 = World.reported w1).
      { pose proof (keeps_time_Now World.reported durable_reported w1)
          as Hk2.
        by rewrite E2 in Hk2. }
      unfold ret at 1. unfold bind at 1.
      set (progress' := ExportProgress.setThreads progress _ _ _).
      pose proof (report_appended true progress' w2) as Ha.
      destruct (report true progress' w2) as [u w3]. cbn [fst snd] in Ha.
      unfold ret at 1. unfold bind at 1, time_Sleep, ret at 1.
      pose proof (IH (S i) total messages' progress' w3) as H.
      destruct (threadLoop (S i) pending total channelID true t0 messages'
                  progress' w3) as [r w4].
      destruct H as [Hv Ha4].
      split; [exact Hv|].
      eapply appended_trans; [apply appended_keep, Hk|].
      eapply appended_trans; [apply appended_keep, Hk2|].
      eapply appended_trans; [exact Ha|exact Ha4].
    + unfold ret at 1. unfold bind at 1, time_Sleep, ret at 1.
      pose proof (IH (S i) total messages' progress w1) as H.
      destruct (threadLoop (S i) pending total channelID false t0 messages'
                  progress w1) as [r w4].
      destruct H as [Hv Ha4].
      split; [exact Hv|].
      eapply appended_trans; [apply appended_keep, Hk|exact Ha4].
  - unfold bind at 1.
    destruct (fmt_Printf _ w1) as [u w2] eqn:E2.
    assert (Hk2 : World.reported w2 = World.reported w1).
    { pose proof (keeps_fmt_Printf World.reported durable_reported
                    ("Warning: Failed to fetch replies for thread "
                     +:+ Message.ThreadTS msg +:+ ": " +:+ e) w1) as Hk2.
      by rewrite E2 in Hk2. }
    pose proof (IH (S i) total messages progress w2) as H.
    destruct (threadLoop (S i) pending total channelID cb t0 messages
                progress w2) as [r w4].
    destruct H as [Hv Ha4].
    split; [exact Hv|].
    eapply appended_trans; [apply appended_keep, Hk|].
    eapply appended_trans; [apply appended_keep, Hk2|exact Ha4].
Qed.

Lemma fetchThreadReplies_appended messages channelID progress cb t0 w :
  let (r, w') := fetchThreadReplies messages channelID progress cb t0 w in
  ExportProgress.Progress r.2 = ExportProgress.Progress progress /\
  appended (ExportProgress.Progress progress) cb w w'.
Proof.
  rewrite fetchThreadReplies_eq. cbv zeta.
  pose proof (threadLoop_appended channelID cb t0 (threadedMessages messages)
                0 (GoInt.len (threadedMessages messages)) messages
                (ExportProgress.setThreadsTotal progress
                   (GoInt.len (threadedMessages messages))) w) as H.
  destruct (threadLoop _ _ _ _ _ _ _ _ _) as [r w']. exact H.
Qed.

Lemma reportedUpTo_failed q cb w w' :
  reportedUpTo q cb w w' -> (q < 1)%Q ->
  exists new,
    World.reported w' = World.reported w ++ new /\
    rising new /\
    Forall (fun p => (0 <= ExportProgress.Progress p)%Q /\
                     (ExportProgress.Progress p <= 1)%Q) new /\
    (cb = false -> new = []) /\
    Forall (fun p => (ExportProgress.Progress p < 1)%Q) new.
Proof.
  intros (new & Hnew & Hrise & Hbound & Hcb) Hq. exists new.
  split; [done|]. split; [done|]. split; [|split; [done|]].
  - eapply Forall_impl; [exact Hbound|]. intros p [? ?]. split; [done|].
    apply Qlt_le_weak. by eapply Qle_lt_trans.
  - eapply Forall_impl; [exact Hbound|]. intros p [? ?].
    by eapply Qle_lt_trans.
Qed.

Lemma reportedUpTo_complete q cb w w' p :
  reportedUpTo q cb w w' -> (q <= 1)%Q ->
  ExportProgress.Progress p = 1%Q ->
  exists new,
    World.reported (report cb p w').2 = World.reported w ++ new /\
    rising new /\
    Forall (fun p => (0 <= ExportProgress.Progress p)%Q /\
                     (ExportProgress.Progress p <= 1)%Q) new /\
    (cb = false -> new = []) /\
    (cb = true -> last new = Some p).
Proof.
  intros HI Hq Hp.
  pose proof (report_appended cb p w') as Ha. rewrite Hp in Ha.
  destruct cb.
  - destruct HI as (new & Hnew & Hrise & Hbound & Hcb).
    exists (new ++ [p]). split; [simpl; by rewrite Hnew, app_assoc|].
    split; [|split; [|split; [done|by rewrite last_snoc]]].
    + apply StronglySorted_app. split; [|split; [done|]].
      * intros x1 x2 Hx1 ->%list_elem_of_singleton. rewrite Hp.
        rewrite Forall_forall in Hbound.
        eapply Qle_trans; [apply (Hbound _ Hx1)|done].
      * repeat constructor.
    + apply Forall_app. split.
      * eapply Forall_impl; [exact Hbound|]. intros p' [? ?].
        split; [done|]. by eapply Qle_trans.
      * constructor; [|done]. rewrite Hp. by split.
  - destruct HI as (new & Hnew & Hrise & Hbound & Hcb).
    exists new. simpl. split; [done|]. split; [done|].
    split; [|split; [done|done]].
    eapply Forall_impl; [exact Hbound|]. intros p' [? ?].
    split; [done|]. by eapply Qle_trans.
Qed.

Ltac keeps_reported :=
  first
    [ apply keeps_time_Now, durable_reported
    | apply keeps_time_Since, durable_reported
    | apply keeps_fetchChannelInfo, durable_reported
    | apply keeps_fetchUserInfo, durable_reported
    | apply keeps_processExportData, durable_reported ].

Ltac stage :=
  match goal with
  | HI : reportedUpTo _ ?cb ?w0 ?w
    |- context [let (_, _) := enterStage ?cb ?t ?p ?st ?sp ?fr ?w in _] =>
      let Hv := fresh "Hv" in
      let Ha := fresh "HI" in
      destruct (enterStage_appended cb t p st sp fr w) as [Hv Ha];
      destruct (enterStage cb t p st sp fr w) as [? ?];
      cbn [fst snd] in Hv, Ha;
      apply (reportedUpTo_step _ _ _ _ _ _ HI) in Ha;
      [clear HI|by vm_compute..]
  | HI : reportedUpTo _ ?cb ?w0 ?w, Hv : ExportProgress.Progress ?p = _
    |- context [let (_, _) := fetchAllMessages ?f ?o ?p ?cb ?t ?w in _] =>
      let H := fresh "H" in
      let Hv' := fresh "Hv" in
      let Ha := fresh "HI" in
      pose proof (fetchAllMessages_appended f o p cb t w) as H;
      destruct (fetchAllMessages f o p cb t w) as [? ?];
      destruct H as [Hv' Ha]; rewrite Hv in Hv', Ha;
      apply (reportedUpTo_step _ _ _ _ _ _ HI) in Ha;
      [clear HI|by vm_compute..]
  | HI : reportedUpTo _ ?cb ?w0 ?w, Hv : ExportProgress.Progress ?p = _
    |- context [let (_, _) := fetchThreadReplies ?ms ?ch ?p ?cb ?t ?w in _] =>
      let H := fresh "H" in
      let Hs := fresh "Hs" in
      let Hv' := fresh "Hv" in
      let Ha := fresh "HI" in
      pose proof (fetchThreadReplies_appended ms ch p cb t w) as H;
      pose proof (fetchThreadReplies_succeeds ms ch p cb t w) as Hs;
      destruct (fetchThreadReplies ms ch p cb t w) as [[[? ?] ?] ?];
      destruct H as [Hv' Ha]; cbn [fst snd] in Hv', Hs; subst;
      rewrite Hv in Hv', Ha;
      apply (reportedUpTo_step _ _ _ _ _ _ HI) in Ha;
      [clear HI|by vm_compute..]
  | HI : reportedUpTo _ ?cb ?w0 ?w
    |- context [let (_, _) := generateOutputFile ?d ?o ?w in _] =>
      let H := fresh "H" in
      let Ha := fresh "HI" in
      pose proof (generateOutputFile_untouched d o w) as H;
      cbv zeta in H; destruct H as (_ & _ & _ & _ & H);
      destruct (generateOutputFile d o w) as [? ?]; cbn [fst snd] in H;
      pose proof (reportedUpTo_keep _ _ _ _ _ HI H) as Ha; clear HI H
  | HI : reportedUpTo _ _ _ ?w
    |- context [let (_, _) := report _ _ ?w in _] => fail 1
  | HI : reportedUpTo _ ?cb ?w0 ?w |- context [let (_, _) := ?m ?w in _] =>
      let H := fresh "H" in
      let Ha := fresh "HI" in
      assert (H : keeps World.reported m) by keeps_reported;
      specialize (H w); destruct (m w) as [? ?]; cbn [fst snd] in H;
      pose proof (reportedUpTo_keep _ _ _ _ _ HI H) as Ha; clear HI H
  | |- context [match ?x with Ok _ => _ | Err _ => _ end] =>
      is_var x; destruct x
  | |- context [match ?x with Some _ => _ | None => _ end] =>
      is_var x; destruct x
  | |- context [let (_, _) := ?x in _] => is_var x; destruct x
  end.

Lemma ExportChannel_reports fuel options cb w :
  let out := ExportChannel version fuel options cb w in
  exists new,
    World.reported out.2 = World.reported w ++ new /\
    rising new /\
    Forall (fun p => (0 <= ExportProgress.Progress p)%Q /\
                     (ExportProgress.Progress p <= 1)%Q) new /\
    (cb = false -> new = []) /\
    match out.1 with
    | Some (_, None) =>
        cb = true ->
        exists p, last new = Some p /\
                  ExportProgress.Stage p = "complete" /\
                  ExportProgress.Progress p = 1%Q
    | _ => Forall (fun p => (ExportProgress.Progress p < 1)%Q) new
    end.
Proof.
  cbv zeta. unfold ExportChannel, bind.
  destruct (time_Now w) as [t0 w0] eqn:E0.
  assert (HI : reportedUpTo 0 cb w w0).
  { eapply reportedUpTo_keep; [apply reportedUpTo_refl|].
    pose proof (keeps_time_Now World.reported durable_reported w) as Hk.
    by rewrite E0 in Hk. }
  clear E0.
  match goal with
  | |- context [let (_, _) := report cb ?p w0 in _] =>
      pose proof (report_appended cb p w0) as Ha;
      destruct (report cb p w0) as [? ?]; cbn [fst snd] in Ha;
      apply (reportedUpTo_step _ _ _ _ _ _ HI) in Ha;
      [clear HI|by vm_compute..]
  end.
  destruct (ExportOptions.IncludeThreads options);
    cbv beta iota delta [ret];
    repeat (stage; cbv beta iota delta [ret]).
  all: cbn [fst snd].
  all: try (eapply reportedUpTo_failed; [eassumption|by vm_compute]).
  all: match goal with
       | HI : reportedUpTo _ ?cb ?w ?wy
         |- context [let (_, _) := report ?cb ?p ?wy in _] =>
           destruct (reportedUpTo_complete _ cb w wy p HI)
             as (new & Hnew & Hrise & Hbound & Hcb & Hlast);
           [by vm_compute|reflexivity|];
           destruct (report cb p wy) as [? ?]; cbn [fst snd] in *;
           exists new; repeat (split; [assumption|]);
           intros Htrue; exists p; split; [by apply Hlast|by split]
       end.
Qed.

(** The snapshots an export gives to the callback never go back: their
    fractions rise, from 0 to at most 1.  Without a callback nothing is
    reported.  A successful export ends on the snapshot of the stage
    ["complete"] at fraction 1, and an export that fails or runs out of
    fuel never reports fraction 1. *)
Theorem ExportChannel_progress fuel options cb w :
  let out := ExportChannel version fuel options cb w in
  exists new,
    World.reported out.2 = World.reported w ++ new /\
    rising new /\
    Forall (fun p => (0 <= ExportProgress.Progress p)%Q /\
                     (ExportProgress.Progress p <= 1)%Q) new /\
    (cb = false -> new = []) /\
    match out.1 with
    | Some (_, None) =>
        cb = true ->
        exists p, last new = Some p /\
                  ExportProgress.Stage p = "complete" /\
                  ExportProgress.Progress p = 1%Q
    | _ => Forall (fun p => (ExportProgress.Progress p < 1)%Q) new
    end.
Proof. apply ExportChannel_reports. Qed.

End Progress.

From Stdlib Require Import Qround.

(** ** cmd/export.go: what the command prints *)

(** A run that may end in a Go panic, or need more fuel than given. *)
Inductive Run (A : Type) : Type :=
| Done (a : A)
| Panic (reason : string)
| OutOfFuel.
Arguments Done {A} a.
Arguments Panic {A} reason.
Arguments OutOfFuel {A}.

Section FormatFileSize.

(** [fmt.Sprintf("%.1f", float64(bytes)/float64(div))] *)
Variable fmt_1f : Z -> Z -> string.

(** The loop of [formatFileSize] (line 375):
    [for n := bytes / unit; n >= unit; n /= unit { div *= unit; exp++ }]. *)
Fixpoint unitLoop (fuel : nat) (n div exp : Z) : option (Z * Z) :=
  match fuel with
  | O => None
  | S fuel' =>
      if 1024 <=? n
      then unitLoop fuel' (Z.quot n 1024) (GoInt.wrap64 (div * 1024))
             (GoInt.add exp 1)
      else Some (div, exp)
  end.

(** [s[i]] on a string: a byte, or a panic out of range. *)
Definition index (s : string) (i : Z) : option ascii :=
  if i <? 0 then None else String.get (Z.to_nat i) s.

(** [formatFileSize] (lines 369-380). *)
Definition formatFileSize (fuel : nat) (bytes : Z) : Run string :=
  if bytes <? 1024 then Done (pretty bytes +:+ " B")
  else
    match unitLoop fuel (Z.quot bytes 1024) 1024 0 with
    | None => OutOfFuel
    | Some (div, exp) =>
        match index "KMGTPE" exp with
        | None => Panic "index out of range"
        | Some c => Done (fmt_1f bytes div +:+ " " +:+ String c "B")
        end
    end.

Lemma pow1024_bound (e : nat) bytes :
  1024 ^ (Z.of_nat e + 1) <= bytes -> bytes < GoInt.two63 -> (e <= 5)%nat.
Proof.
  intros Hle Hlt. destruct (decide (e <= 5)%nat) as [|Hbig]; [done|].
  exfalso. assert (H7 : 1024 ^ 7 <= 1024 ^ (Z.of_nat e + 1))
    by (apply Z.pow_le_mono_r; lia).
  change (1024 ^ 7) with 1180591620717411303424 in H7.
  unfold GoInt.two63 in Hlt.
  change (2 ^ 63) with 9223372036854775808 in Hlt. lia.
Qed.

Lemma unitLoop_spec bytes :
  bytes < GoInt.two63 ->
  forall fuel (e : nat),
    (6 <= e + fuel)%nat ->
    1024 ^ (Z.of_nat e + 1) <= bytes ->
    exists e' : nat,
      unitLoop fuel (bytes / 1024 ^ (Z.of_nat e + 1))
        (1024 ^ (Z.of_nat e + 1)) (Z.of_nat e)
      = Some (1024 ^ (Z.of_nat e' + 1), Z.of_nat e') /\
      1024 ^ (Z.of_nat e' + 1) <= bytes < 1024 ^ (Z.of_nat e' + 2).
Proof.
  intros Hlt. induction fuel as [|fuel IH]; intros e Hfuel Hle.
  - pose proof (pow1024_bound e bytes Hle Hlt). lia.
  - assert (Hpos : 0 < 1024 ^ (Z.of_nat e + 1))
      by (apply Z.pow_pos_nonneg; lia).
    assert (Hnext : 1024 ^ (Z.of_nat e + 2)
                    = 1024 ^ (Z.of_nat e + 1) * 1024).
    { replace (Z.of_nat e + 2) with (Z.of_nat e + 1 + 1) by lia.
      rewrite (Z.pow_add_r 1024 (Z.of_nat e + 1) 1) by lia. reflexivity. }
    cbn [unitLoop].
    destruct (Z.leb_spec 1024 (bytes / 1024 ^ (Z.of_nat e + 1)))
      as [Hmore|Hless].
    + assert (Hle' : 1024 ^ (Z.of_nat e + 2) <= bytes).
      { rewrite Hnext.
        pose proof (Z.mul_div_le bytes _ Hpos). nia. }
      destruct (IH (S e)) as (e' & Hrun & Hbounds).
      * lia.
      * by replace (Z.of_nat (S e) + 1) with (Z.of_nat e + 2) by lia.
      * exists e'. split; [|exact Hbounds]. rewrite <- Hrun.
        replace (Z.of_nat (S e) + 1) with (Z.of_nat e + 2) by lia.
        f_equal.
        -- rewrite Z.quot_div_nonneg by lia.
           rewrite Z.div_div by lia. by rewrite Hnext.
        -- rewrite <- Hnext. apply GoInt.wrap64_id.
           unfold GoInt.in_range. unfold GoInt.two63 in *. lia.
        -- unfold GoInt.add. rewrite GoInt.wrap64_id; [lia|].
           pose proof (pow1024_bound e bytes Hle Hlt).
           unfold GoInt.in_range, GoInt.two63.
           change (2 ^ 63) with 9223372036854775808. lia.
    + exists e. split; [done|]. split; [done|].
      rewrite Hnext.
      pose proof (Z.mul_succ_div_gt bytes _ Hpos). nia.
Qed.


End FormatFileSize.


(** *** The progress bar *)

(** [int(x)] for a float: the fraction is dropped.  Fractions of
    progress are rationals here, as in [ExportProgress]. *)
Definition int_of_float (x : Q) : Z :=
  if Qle_bool 0 x then Qfloor x else Qceiling x.

(** [strings.Repeat]: a negative count is a panic. *)
Definition strings_Repeat (s : string) (count : Z) : option string :=
  if count <? 0 then None
  else Some (List.fold_right String.append "" (replicate (Z.to_nat count) s)).

(** The bar of the callback of [runExport] (lines 237-239). *)
Definition progressBar (progress : Q) : option string :=
  let barWidth := 30 in
  let filled := int_of_float (progress * inject_Z barWidth) in
  match strings_Repeat "█" filled, strings_Repeat "░" (barWidth - filled) with
  | Some full, Some empty => Some (full +:+ empty)
  | _, _ => None
  end.

(** A bar of [filled] full cells out of thirty. *)
Definition cells (filled : nat) : string :=
  List.fold_right String.append "" (replicate filled "█")
  +:+ List.fold_right String.append "" (replicate (30 - filled) "░").

Lemma progressBar_cells (q : Q) :
  (0 <= q)%Q -> (q <= 1)%Q ->
  exists filled : nat,
    (filled <= 30)%nat /\ progressBar q = Some (cells filled).
Proof.
  intros H0 H1. unfold progressBar, int_of_float. cbv zeta.
  assert (Hnonneg : (0 <= q * inject_Z 30)%Q).
  { apply Qmult_le_0_compat; [done|]. by vm_compute. }
  assert (Hmost : (q * inject_Z 30 <= inject_Z 30)%Q).
  { rewrite <- (Qmult_1_l (inject_Z 30)) at 2.
    apply Qmult_le_compat_r; [done|]. by vm_compute. }
  rewrite (proj2 (Qle_bool_iff _ _) Hnonneg).
  pose proof (Qfloor_resp_le _ _ Hnonneg) as Hlo.
  pose proof (Qfloor_resp_le _ _ Hmost) as Hhi.
  rewrite Qfloor_Z in Hhi. change (Qfloor 0) with 0 in Hlo.
  set (filled := Qfloor (q * inject_Z 30)) in *.
  exists (Z.to_nat filled). split; [lia|].
  unfold strings_Repeat, cells.
  destruct (Z.ltb_spec filled 0) as [|_]; [lia|].
  destruct (Z.ltb_spec (30 - filled) 0) as [|_]; [lia|].
  do 4 f_equal. lia.
Qed.

Section ProgressBar.
Context {rt : GoRuntime} {client : SlackClientInterface}.
Variable version : string.

(** The bar can be drawn for every snapshot an export reports: the
    number of full cells lies between 0 and 30, so neither call of
    [strings.Repeat] gets a negative count. *)
Theorem ExportChannel_progressBar fuel options cb w :
  exists new,
    World.reported (ExportChannel version fuel options cb w).2
    = World.reported w ++ new /\
    Forall (fun p =>
              exists filled : nat,
                (filled <= 30)%nat /\
                progressBar (ExportProgress.Progress p) = Some (cells filled))
      new.
Proof.
  destruct (ExportChannel_reports version fuel options cb w)
    as (new & Hnew & _ & Hbound & _).
  exists new. split; [exact Hnew|].
  eapply Forall_impl; [exact Hbound|]. intros p [H0 H1].
  by apply progressBar_cells.
Qed.

End ProgressBar.

(** ** internal/api/slack_client.go: the client behind the interface *)

(** The types of the library [slack-go/slack], with the fields that the
    client reads. *)
Module Slack.

Module Topic.
Record t := mk { Value : string; Creator : string; LastSet : Z }.
End Topic.

Module Channel.
Record t := mk {
  ID : string; Name : string;
  IsChannel : bool; IsGroup : bool; IsIM : bool; IsMember : bool;
  IsPrivate : bool; IsArchived : bool;
  NumMembers : Z; Created : Z; Creator : string;
  Topic : Topic.t; Purpose : Topic.t }.
End Channel.

Module Attachment.
Record t := mk {
  ID : Z; Color : string; Fallback : string; Title : string;
  Text : string; ImageURL : string; ThumbURL : string }.
End Attachment.

Module File.
Record t := mk {
  ID : string; Name : string; Title : string; Mimetype : string;
  Filetype : string; Size : Z; URLPrivate : string }.
End File.

Module ItemReaction.
Record t := mk { Name : string; Count : Z; Users : list string }.
End ItemReaction.

Module Edited.
Record t := mk { User : string; Timestamp : string }.
End Edited.

Module Message.
Record t := mk {
  Type_ : string; User : string; Text : string; Timestamp : string;
  ThreadTimestamp : string; ReplyCount : Z;
  BotID : string; Username : string; SubType : string;
  Attachments : list Attachment.t; Files : list File.t;
  Reactions : list ItemReaction.t; Edited : option Edited.t }.
End Message.

Module UserProfile.
Record t := mk {
  DisplayName : string; RealName : string; Email : string;
  Image24 : string; Image32 : string; Image48 : string;
  Image72 : string; Image192 : string; Image512 : string }.
End UserProfile.

Module User.
Record t := mk {
  ID : string; Name : string; RealName : string;
  IsBot : bool; Deleted : bool; Profile : UserProfile.t }.
End User.

(** The four requests of [slack.Client] that the client makes; each
    answer may depend on the number of calls made so far. *)
Class API := {
  (** types, limit: the channels and the next cursor *)
  GetConversationsContext :
    nat -> list string -> Z -> result (list Channel.t * string);
  (** channel, limit, cursor: the messages and the next cursor *)
  GetConversationHistoryContext :
    nat -> string -> Z -> string -> result (list Message.t * string);
  (** channel, timestamp: the messages of the thread *)
  GetConversationRepliesContext :
    nat -> string -> string -> result (list Message.t);
  GetUsersContext : nat -> result (list User.t) }.

End Slack.

(** The methods of [SlackClient].  A method returns the lines it gives
    to the standard logger, which are none unless [debug] is set, and
    its result. *)
Module SlackClient.
Section Methods.
Context {api : Slack.API}.

(** [sc.debug] *)
Variable debug : bool.

(** [if sc.debug { log.Println(line) }] *)
Definition log (line : string) : list string :=
  if debug then [line] else [].

Definition convertTopic (t : Slack.Topic.t) : Topic.t :=
  Topic.mk (Slack.Topic.Value t) (Slack.Topic.Creator t)
    (Slack.Topic.LastSet t).

(** The literal of lines 72-94. *)
Definition convertChannel (ch : Slack.Channel.t) : Channel.t :=
  Channel.mk (Slack.Channel.ID ch) (Slack.Channel.Name ch)
    (Slack.Channel.IsChannel ch) (Slack.Channel.IsGroup ch)
    (Slack.Channel.IsIM ch) (Slack.Channel.IsMember ch)
    (Slack.Channel.IsPrivate ch) (Slack.Channel.IsArchived ch)
    (Slack.Channel.NumMembers ch)
    (convertTopic (Slack.Channel.Topic ch))
    (convertTopic (Slack.Channel.Purpose ch))
    (Slack.Channel.Created ch) (Slack.Channel.Creator ch).

(** [GetChannels] (lines 54-104). *)
Definition GetChannels (k : nat) : list string * result (list Channel.t) :=
  match Slack.GetConversationsContext k
          ["public_channel"; "private_channel"] 1000 with
  | Err e =>
      (log "Fetching channels...", Err ("failed to get channels: " +:+ e))
  | Ok (channels, _) =>
      let result :=
        map convertChannel (List.filter Slack.Channel.IsMember channels) in
      (log "Fetching channels..."
       ++ log ("Found " +:+ pretty (GoInt.len result) +:+ " channels"),
       Ok result)
  end.

(** [convertSlackMessage] (lines 208-268). *)
Definition convertSlackMessage (msg : Slack.Message.t) : Message.t :=
  Message.mk (Slack.Message.Type_ msg) (Slack.Message.User msg)
    (Slack.Message.Text msg) (Slack.Message.Timestamp msg)
    (Slack.Message.ThreadTimestamp msg) (Slack.Message.ReplyCount msg)
    [] []
    (map (fun att =>
            Attachment.mk (Slack.Attachment.ID att)
              (Slack.Attachment.Color att) (Slack.Attachment.Fallback att)
              (Slack.Attachment.Title att) (Slack.Attachment.Text att)
              (Slack.Attachment.ImageURL att)
              (Slack.Attachment.ThumbURL att))
       (Slack.Message.Attachments msg))
    (map (fun file =>
            File.mk (Slack.File.ID file) (Slack.File.Name file)
              (Slack.File.Title file) (Slack.File.Mimetype file)
              (Slack.File.Filetype file) (Slack.File.Size file)
              (Slack.File.URLPrivate file))
       (Slack.Message.Files msg))
    (map (fun reaction =>
            Reaction.mk (Slack.ItemReaction.Name reaction)
              (Slack.ItemReaction.Users reaction)
              (Slack.ItemReaction.Count reaction))
       (Slack.Message.Reactions msg))
    (match Slack.Message.Edited msg with
     | Some e =>
         Some (Edited.mk (Slack.Edited.User e) (Slack.Edited.Timestamp e))
     | None => None
     end)
    (Slack.Message.BotID msg) (Slack.Message.Username msg)
    (Slack.Message.SubType msg).

(** [GetChannelHistory] (lines 107-134). *)
Definition GetChannelHistory (k : nat) (channelID : string) (limit : Z)
    (cursor : string) : list string * result (list Message.t * string) :=
  let line :=
    "Fetching history for channel " +:+ channelID +:+ " (limit: "
    +:+ pretty limit +:+ ", cursor: " +:+ cursor +:+ ")" in
  match Slack.GetConversationHistoryContext k channelID limit cursor with
  | Err e => (log line, Err ("failed to get channel history: " +:+ e))
  | Ok (response, nextCursor) =>
      let messages := map convertSlackMessage response in
      (log line
       ++ log ("Retrieved " +:+ pretty (GoInt.len messages) +:+ " messages"),
       Ok (messages, nextCursor))
  end.

(** [GetThreadReplies] (lines 137-164): the loop starts at index 1. *)
Definition GetThreadReplies (k : nat) (channelID threadTS : string)
    : list string * result (list Message.t) :=
  let line :=
    "Fetching thread replies for " +:+ threadTS +:+ " in channel "
    +:+ channelID in
  match Slack.GetConversationRepliesContext k channelID threadTS with
  | Err e => (log line, Err ("failed to get thread replies: " +:+ e))
  | Ok messages =>
      let replies := map convertSlackMessage (drop 1 messages) in
      (log line
       ++ log ("Retrieved " +:+ pretty (GoInt.len replies)
               +:+ " thread replies"),
       Ok replies)
  end.

(** The literal of lines 179-196. *)
Definition convertUser (user : Slack.User.t) : User.t :=
  let p := Slack.User.Profile user in
  User.mk (Slack.User.ID user) (Slack.User.Name user)
    (Slack.User.RealName user)
    (Profile.mk (Slack.UserProfile.DisplayName p)
       (Slack.UserProfile.RealName p) (Slack.UserProfile.Email p)
       (Slack.UserProfile.Image24 p) (Slack.UserProfile.Image32 p)
       (Slack.UserProfile.Image48 p) (Slack.UserProfile.Image72 p)
       (Slack.UserProfile.Image192 p) (Slack.UserProfile.Image512 p))
    (Slack.User.IsBot user) (Slack.User.Deleted user).

(** [GetUsers] (lines 167-205). *)
Definition GetUsers (k : nat) : list string * result (list User.t) :=
  match Slack.GetUsersContext k with
  | Err e => (log "Fetching users...", Err ("failed to get users: " +:+ e))
  | Ok users =>
      let result := map convertUser users in
      (log "Fetching users..."
       ++ log ("Retrieved " +:+ pretty (GoInt.len result) +:+ " users"),
       Ok result)
  end.

(** [GetChannelByName] (lines 271-284). *)
Definition GetChannelByName (k : nat) (channelName : string)
    : list string * result Channel.t :=
  match GetChannels k with
  | (lines, Err e) => (lines, Err e)
  | (lines, Ok channels) =>
      match List.find (fun ch => String.eqb (Channel.Name ch) channelName)
              channels with
      | Some channel => (lines, Ok channel)
      | None => (lines, Err ("channel '" +:+ channelName +:+ "' not found"))
      end
  end.

(** The client as the export service sees it. *)
Definition interface : SlackClientInterface :=
  Build_SlackClientInterface
    (fun k => (GetChannels k).2)
    (fun k channelID limit cursor =>
       (GetChannelHistory k channelID limit cursor).2)
    (fun k channelID threadTS => (GetThreadReplies k channelID threadTS).2)
    (fun k => (GetUsers k).2).

End Methods.
End SlackClient.

Section ClientProperties.
Context {rt : GoRuntime} {api : Slack.API}.
Variable debug : bool.

(** The service finds a channel only among those the user is a member
    of: a channel it answers with is a member channel with the
    requested id, converted from the library's answer; when it answers
    that the channel is not found, every channel of the answer that has
    the requested id is one the user is not a member of. *)
Theorem fetchChannelInfo_member channelID w channels cursor :
  Slack.GetConversationsContext (World.apiCalls w)
    ["public_channel"; "private_channel"] 1000 = Ok (channels, cursor) ->
  match (fetchChannelInfo (client := SlackClient.interface debug)
           channelID w).1 with
  | Ok channel =>
      Channel.IsMember channel = true /\
      Channel.ID channel = channelID /\
      exists ch, In ch channels /\ channel = SlackClient.convertChannel ch
  | Err e =>
      e = "channel with ID " +:+ channelID +:+ " not found" /\
      Forall (fun ch => Slack.Channel.ID ch = channelID ->
                        Slack.Channel.IsMember ch = false) channels
  end.
Proof.
  intros Hget. unfold fetchChannelInfo. run.
  unfold SlackClient.GetChannels. rewrite Hget. cbn [snd].
  destruct (List.find _ _) as [channel|] eqn:E; simpl.
  - apply find_some in E as [Hin Heq].
    apply in_map_iff in Hin as (ch & <- & Hin).
    apply filter_In in Hin as [Hin Hmember].
    split; [done|]. split; [by apply String.eqb_eq|]. eauto.
  - split; [done|]. apply Forall_forall. intros ch Hin%list_elem_of_In Hid.
    destruct (Slack.Channel.IsMember ch) eqn:Hmember; [|done].
    exfalso.
    assert (Hconv : In (SlackClient.convertChannel ch)
                      (map SlackClient.convertChannel
                         (List.filter Slack.Channel.IsMember channels))).
    { apply in_map, filter_In. by split. }
    apply (find_none _ _ E) in Hconv. simpl in Hconv.
    apply String.eqb_neq in Hconv. done.
Qed.

Lemma resolveReplies_Forall (P : Message.t -> Prop) msg replies :
  Forall P replies -> Forall P (resolveReplies msg replies).
Proof.
  intros H. rewrite resolveReplies_perm. unfold dropParent.
  destruct replies as [|first rest]; [done|].
  destruct (String.eqb _ _); [|done]. by apply Forall_cons in H as [_ H].
Qed.

(** Through this client the export is a forest of depth two at most:
    the messages of the history carry no replies when they are
    fetched, and after thread resolution no reply carries replies of
    its own. *)
Theorem SlackClient_flat_threads
    fuel options progress cb t0 w msgs progress' w' :
  fetchAllMessages (client := SlackClient.interface debug)
    fuel options progress cb t0 w = (Some (Ok msgs, progress'), w') ->
  Forall (fun m => Message.Thread m = []) msgs /\
  forall channelID progress2 cb2 t w2,
    Forall (fun m => Forall (fun r => Message.Thread r = [])
                       (Message.Thread m))
      (fetchThreadReplies (client := SlackClient.interface debug)
         msgs channelID progress2 cb2 t w2).1.1.2.
Proof.
  intros Hfetch.
  assert (Hflat : Forall (fun m => Message.Thread m = []) msgs).
  { revert Hfetch. unfold fetchAllMessages, bind, ret.
    destruct (fetchPages fuel options cb t0 [] "" 0 progress w)
      as [[[[all|e] p]|] w1] eqn:E; intros H; try discriminate H.
    injection H as <- _ _. rewrite sort_Slice_perm.
    eapply (fetchPages_Forall (client := SlackClient.interface debug));
      [|constructor|exact E].
    intros k cursor page next msg Hget Hin.
    apply filterMessagesByDate_subset in Hin.
    simpl in Hget. unfold SlackClient.GetChannelHistory in Hget.
    destruct (Slack.GetConversationHistoryContext _ _ _ _)
      as [[response nextCursor]|e]; [|discriminate Hget].
    injection Hget as <- _.
    by apply in_map_iff in Hin as (raw & <- & _). }
  split; [exact Hflat|].
  intros channelID progress2 cb2 t w2.
  rewrite fetchThreadReplies_eq. cbn [fst snd].
  pose proof (threadLoop_spec (client := SlackClient.interface debug)
                channelID cb2 t (threadedMessages msgs)
                0 (GoInt.len (threadedMessages msgs)) msgs
                (ExportProgress.setThreadsTotal progress2
                   (GoInt.len (threadedMessages msgs))) w2
                (threadedFrom_NoDup 0 msgs)
                (threadedMessages_valid msgs))
    as (Hlen & Hother & Hat & _ & _).
  apply Forall_lookup. intros j m' Hj.
  assert (Hlt : (j < length msgs)%nat).
  { rewrite <- Hlen. by eapply lookup_lt_Some. }
  destruct (lookup_lt_is_Some_2 msgs j Hlt) as [m Hm].
  assert (Hm0 : Message.Thread m = [])
    by (by eapply (proj1 (Forall_lookup _ _) Hflat)).
  destruct (decide (j ∈ threadedMessages msgs)) as [Hin|Hout].
  - apply list_elem_of_lookup in Hin as [p Hp].
    rewrite (Hat p j m Hp Hm) in Hj. injection Hj as <-.
    unfold resolved. simpl. unfold SlackClient.GetThreadReplies.
    destruct (Slack.GetConversationRepliesContext _ _ _) as [raw|e];
      cbn [snd]; [|by rewrite Hm0].
    destruct m. simpl. apply resolveReplies_Forall.
    apply Forall_forall. intros r Hr%list_elem_of_In.
    by apply in_map_iff in Hr as (raw0 & <- & _).
  - rewrite (Hother j Hout), Hm in Hj. injection Hj as <-.
    by rewrite Hm0.
Qed.

(** The first message of the library's answer to a request for
    replies, which is the parent, never becomes a reply; when the next
    one does not carry the parent's timestamp, the replies attached are
    all the others, converted, in the order of their timestamp
    strings. *)
Theorem fetchThreadReplies_through_client
    messages channelID progress cb t0 w p j msg raw :
  threadedMessages messages !! p = Some j ->
  messages !! j = Some msg ->
  Slack.GetConversationRepliesContext (World.apiCalls w + p) channelID
    (Message.ThreadTS msg) = Ok raw ->
  match drop 1 raw with
  | second :: _ => Slack.Message.Timestamp second <> Message.Timestamp msg
  | [] => True
  end ->
  exists thread,
    (fetchThreadReplies (client := SlackClient.interface debug)
       messages channelID progress cb t0 w).1.1.2 !! j
      = Some (Message.setThread msg thread) /\
    SortedBy lessTimestamp thread /\
    thread ≡ₚ map SlackClient.convertSlackMessage (drop 1 raw).
Proof.
  intros Hp Hj Hraw Hsecond.
  exists (resolveReplies msg
            (map SlackClient.convertSlackMessage (drop 1 raw))).
  split; [|split].
  - rewrite (fetchThreadReplies_at (client := SlackClient.interface debug)
               _ _ _ _ _ _ _ _ _ Hp Hj).
    unfold resolved. simpl. unfold SlackClient.GetThreadReplies.
    by rewrite Hraw.
  - apply sort_Slice_sorted, lessTimestamp_StrictWeak.
  - rewrite resolveReplies_perm. unfold dropParent.
    destruct (drop 1 raw) as [|second rest]; [done|]. simpl.
    apply String.eqb_neq in Hsecond. by rewrite Hsecond.
Qed.

End ClientProperties.

(** A workspace as the library reports it: two channels, of which the
    user is a member of the first only, and one thread. *)
Module Workspace.

Definition channel (id name : string) (member : bool) : Slack.Channel.t :=
  Slack.Channel.mk id name true false false member false false 3
    1704067200 "U123456" (Slack.Topic.mk "" "" 0) (Slack.Topic.mk "" "" 0).

Definition message (user ts threadTS : string) (replyCount : Z)
    : Slack.Message.t :=
  Slack.Message.mk "message" user "" ts threadTS replyCount "" "" ""
    [] [] [] None.

Definition parent : Slack.Message.t := message "U1" "100.1" "100.1" 2.
Definition second : Slack.Message.t := message "U2" "100.2" "100.1" 0.
Definition third : Slack.Message.t := message "U3" "100.3" "100.1" 0.

Definition api : Slack.API := {|
  Slack.GetConversationsContext := fun _ _ _ =>
    Ok ([channel "C123456" "general" true; channel "C999999" "secret" false],
        "");
  Slack.GetConversationHistoryContext := fun _ _ _ cursor =>
    if String.eqb cursor "" then Ok ([parent], "") else Ok ([], "");
  Slack.GetConversationRepliesContext := fun _ _ _ =>
    Ok [parent; third; second];
  Slack.GetUsersContext := fun _ => Ok [] |}.

End Workspace.

Lemma fetchChannelInfo_member_witness :
  match (fetchChannelInfo
           (client := SlackClient.interface (api := Workspace.api) false)
           "C999999" World.init).1 with
  | Ok channel =>
      Channel.IsMember channel = true /\
      Channel.ID channel = "C999999" /\
      exists ch,
        In ch [Workspace.channel "C123456" "general" true;
               Workspace.channel "C999999" "secret" false] /\
        channel = SlackClient.convertChannel ch
  | Err e =>
      e = "channel with ID " +:+ "C999999" +:+ " not found" /\
      Forall (fun ch => Slack.Channel.ID ch = "C999999" ->
                        Slack.Channel.IsMember ch = false)
        [Workspace.channel "C123456" "general" true;
         Workspace.channel "C999999" "secret" false]
  end.
Proof.
  apply (fetchChannelInfo_member (api := Workspace.api) false "C999999"
           World.init _ "").
  reflexivity.
Defined.

Lemma SlackClient_flat_threads_witness :
  let client := SlackClient.interface (api := Workspace.api) false in
  let fetched :=
    fetchAllMessages (rt := Std.runtime 0) (client := client) 2
      (Scenario.options "") Scenario.noProgress false Scenario.epoch
      World.init in
  let msgs := [SlackClient.convertSlackMessage Workspace.parent] in
  fetched.1 = Some (Ok msgs, Scenario.noProgress) /\
  Forall (fun m => Message.Thread m = []) msgs /\
  Forall (fun m => Forall (fun r => Message.Thread r = [])
                     (Message.Thread m))
    (fetchThreadReplies (rt := Std.runtime 0) (client := client)
       msgs "C123456" Scenario.noProgress false Scenario.epoch
       fetched.2).1.1.2.
Proof.
  intros client fetched msgs.
  assert (Hrun : fetched = (Some (Ok msgs, Scenario.noProgress), fetched.2))
    by reflexivity.
  destruct (SlackClient_flat_threads (rt := Std.runtime 0)
              (api := Workspace.api) false 2 (Scenario.options "")
              Scenario.noProgress false Scenario.epoch World.init
              msgs Scenario.noProgress fetched.2 Hrun) as [Hflat Hdepth].
  split; [by rewrite Hrun|]. split; [exact Hflat|].
  apply Hdepth.
Defined.

Lemma fetchThreadReplies_through_client_witness :
  let client := SlackClient.interface (api := Workspace.api) false in
  let parent := SlackClient.convertSlackMessage Workspace.parent in
  exists thread,
    (fetchThreadReplies (rt := Std.runtime 0) (client := client)
       [parent] "C123456" Scenario.noProgress false Scenario.epoch
       World.init).1.1.2 !! 0%nat
      = Some (Message.setThread parent thread) /\
    SortedBy lessTimestamp thread /\
    thread ≡ₚ map SlackClient.convertSlackMessage
                [Workspace.third; Workspace.second].
Proof.
  intros client parent.
  apply (fetchThreadReplies_through_client (rt := Std.runtime 0)
           (api := Workspace.api) false [parent] "C123456"
           Scenario.noProgress false Scenario.epoch World.init 0%nat 0%nat
           parent [Workspace.parent; Workspace.third; Workspace.second]).
  - reflexivity.
  - reflexivity.
  - reflexivity.
  - simpl. discriminate.
Defined.
